(** * slack-task-demo: task lifecycle, broadcast completion and thread cards

    A shallow embedding of the Postgres-backed variant of the Slack task
    application (the second program of [src/unnamed/part_000]: the [db*]
    store functions, [calcBroadcastStateLabel], [upsertThreadCard] and the
    Bolt handlers [task_modal], [reaction_task_confirm_create],
    [complete_task], [confirm_broadcast_done], [cancel_task],
    [status_select] and [edit_task_modal]).

    Modelling conventions.
    - A SQL table is the list of its rows; [INSERT .. ON CONFLICT DO NOTHING]
      appends a row unless a row with the conflicting key is present,
      [UPDATE .. WHERE] rewrites every matching row, [SELECT .. LIMIT 1]
      is [find], [COUNT] is the length of the filtered list.
    - A nullable column or a JS value that may be [null] is an [option];
      JS truthiness of a string is [truthy] (the empty string is falsy).
    - Handlers are written in a state monad over [world]: the database and
      the log of messages sent through the Slack client.  Calls to the Slack
      client are taken to return; what they answer ([res.ts] of
      [chat.postMessage], group members, display names, [randomUUID], the
      clock) is supplied by the [env] record.  [views.update] and the Home
      tab refresh touch neither the store nor the log and are left out. *)

From Stdlib Require Import String Ascii List ZArith Bool Lia Arith.
Import ListNotations.
Open Scope string_scope.
Open Scope Z_scope.
Open Scope list_scope.

(** ** JavaScript values *)

(** [!!s] for a string. *)
Definition truthy (s : string) : bool := negb (s =? "")%string.

(** [!!v] for a string-or-null. *)
Definition truthy_opt (o : option string) : bool :=
  match o with Some s => truthy s | None => false end.

(** [s || null]. *)
Definition or_null (s : string) : option string :=
  if truthy s then Some s else None.

(** [a || b] on strings. *)
Definition or_str (a b : string) : string := if truthy a then a else b.

(** [o || b] for a string-or-null [o]. *)
Definition opt_or (o : option string) (b : string) : string :=
  match o with Some s => or_str s b | None => b end.

(** A property of a JS object: absent ([undefined]), [null] or a value. *)
Inductive js (A : Type) : Type :=
| Undefined : js A
| Null : js A
| Val : A -> js A.
Arguments Undefined {A}.
Arguments Null {A}.
Arguments Val {A} _.

(** [v ?? null]: both [undefined] and [null] become SQL NULL. *)
Definition nullish_null {A} (v : js A) : option A :=
  match v with Val a => Some a | _ => None end.

(** SQL [COALESCE(p, old)]. *)
Definition COALESCE {A} (p old : option A) : option A :=
  match p with Some v => Some v | None => old end.

(** [Number(n || 0)] for an integer column that may be NULL. *)
Definition Number_or0 (n : option Z) : Z :=
  match n with Some k => k | None => 0 end.

Definition eqb_opt (a : option string) (b : string) : bool :=
  match a with Some s => (s =? b)%string | None => false end.

(** ** Rows *)

Record task := mkTask {
  id : string;
  team_id : string;
  channel_id : option string;
  message_ts : option string;
  source_permalink : option string;
  title : string;
  description : string;
  requester_user_id : string;
  created_by_user_id : string;
  assignee_id : option string;
  assignee_label : option string;
  status : string;
  due_date : option string;
  requester_dept : option string;
  assignee_dept : option string;
  task_type : option string;
  broadcast_group_handle : option string;
  broadcast_group_id : option string;
  total_count : option Z;
  completed_count : option Z;
  notified_at : option Z;
  created_at : Z;
  updated_at : Z;
  completed_at : option Z;
  cancelled_at : option Z;
  cancelled_by_user_id : option string
}.

(** A row of [task_targets] / [task_completions]. *)
Record member_row := mkMember {
  m_task_id : string;
  m_team_id : string;
  m_user_id : string
}.

Record thread_card := mkCard {
  tc_id : string;
  tc_team_id : string;
  tc_channel_id : string;
  tc_parent_ts : string;
  tc_card_ts : string;
  tc_updated_at : Z
}.

Record db := mkDb {
  tasks : list task;
  task_targets : list member_row;
  task_completions : list member_row;
  thread_cards : list thread_card
}.

(** What a thread card shows. *)
Inductive blocks :=
| TaskCard (t : task)                  (* buildThreadCardBlocks *)
| DoneCard (title : string)            (* "完了しました" *)
| CancelledCard (title : string)       (* "取り下げました" *)
| PromptCard (preview : string)        (* reaction confirmation prompt *)
| ConfirmedNote (title : string).      (* "確認完了しました" *)

(** The kinds of direct message the handlers send. *)
Inductive dm_kind :=
| KAssigned | KCompleted | KWaiting | KConfirmRequest | KDueToday.

Inductive event :=
| Ephemeral (channel user text : string)
| DM (kind : dm_kind) (user teamId taskId : string)
| ChatUpdate (channel ts : string) (b : blocks)
| ChatPostMessage (channel thread_ts : string) (b : blocks)
| EditNotice (channel thread_ts actor : string).

Record world := mkWorld {
  w_db : db;
  w_log : list event
}.

(** What the surroundings answer during one handler run. *)
Record env := mkEnv {
  now : Z;
  uuid_task : string;                              (* randomUUID() for a task *)
  uuid_card : string;                              (* randomUUID() for a card row *)
  post_ts : option string;                         (* res?.ts of chat.postMessage *)
  permalink : string;                              (* r?.permalink || "" *)
  group_members : string -> option (list string);  (* usergroups.users.list *)
  subteam_handle : string -> option string;        (* getSubteamIdMap *)
  display_name : string -> string;                 (* getUserDisplayName *)
  resolveDeptForUser : string -> option string;
  generateTitleCandidate : string -> string;
  prettify : string -> string                      (* prettifySlackText, prettifyUserMentions *)
}.

(** ** The handler monad *)

Definition M (A : Type) : Type := world -> A * world.

Definition ret {A} (a : A) : M A := fun w => (a, w).

Definition bind {A B} (m : M A) (f : A -> M B) : M B :=
  fun w => let (a, w') := m w in f a w'.

Notation "x <- m ;; k" := (bind m (fun x => k))
  (at level 61, m at next level, right associativity).
Notation "m ;;; k" := (bind m (fun _ => k))
  (at level 61, right associativity).

Definition emit (e : event) : M unit :=
  fun w => (tt, mkWorld (w_db w) (w_log w ++ [e])).

Definition query {A} (f : db -> A) : M A := fun w => (f (w_db w), w).

Definition exec (f : db -> db) : M unit :=
  fun w => (tt, mkWorld (f (w_db w)) (w_log w)).

Definition when (b : bool) (m : M unit) : M unit := if b then m else ret tt.

Fixpoint forM {X} (l : list X) (f : X -> M unit) : M unit :=
  match l with
  | [] => ret tt
  | x :: r => f x ;;; forM r f
  end.

(** ** DB: tasks *)

Definition task_key (teamId taskId : string) (t : task) : bool :=
  ((team_id t =? teamId) && (id t =? taskId))%string.

Definition set_tasks (f : list task -> list task) (d : db) : db :=
  mkDb (f (tasks d)) (task_targets d) (task_completions d) (thread_cards d).

(** [UPDATE tasks SET .. WHERE team_id=$1 AND id=$2 RETURNING *], [rows[0] || null]. *)
Definition update_task (teamId taskId : string) (f : task -> task) : M (option task) :=
  old <- query (fun d => find (task_key teamId taskId) (tasks d)) ;;
  exec (set_tasks (map (fun t => if task_key teamId taskId t then f t else t))) ;;;
  ret (option_map f old).

(** The row that [INSERT INTO tasks .. RETURNING *] stores for the object
    [t] handed to [dbCreateTask]: defaults filled in, both timestamps now. *)
Definition inserted_row (e : env) (t : task) : task :=
  mkTask (id t) (team_id t) (channel_id t) (message_ts t)
    (source_permalink t) (title t) (description t)
    (requester_user_id t) (created_by_user_id t)
    (assignee_id t) (assignee_label t) (status t) (due_date t)
    (requester_dept t) (assignee_dept t)
    (Some (match task_type t with Some ty => ty | None => "personal" end))
    (broadcast_group_handle t) (broadcast_group_id t)
    (total_count t)
    (Some (Number_or0 (completed_count t)))
    (notified_at t)
    (now e) (now e) None None None.

Definition dbCreateTask (e : env) (t : task) : M task :=
  exec (set_tasks (fun l => l ++ [inserted_row e t])) ;;;
  ret (inserted_row e t).

Definition dbGetTaskById (teamId taskId : string) : M (option task) :=
  query (fun d => find (task_key teamId taskId) (tasks d)).

(** [ORDER BY created_at DESC LIMIT 1] over the rows made from one message. *)
Fixpoint latest (l : list task) : option task :=
  match l with
  | [] => None
  | t :: r =>
    match latest r with
    | Some u => if created_at t <? created_at u then Some u else Some t
    | None => Some t
    end
  end.

Definition dbGetTaskBySource (teamId channelId messageTs : string) : M (option task) :=
  query (fun d => latest (filter (fun t => (team_id t =? teamId)%string
                                    && eqb_opt (channel_id t) channelId
                                    && eqb_opt (message_ts t) messageTs) (tasks d))).

Definition with_status (e : env) (st : string) (t : task) : task :=
  mkTask (id t) (team_id t) (channel_id t) (message_ts t)
    (source_permalink t) (title t) (description t)
    (requester_user_id t) (created_by_user_id t)
    (assignee_id t) (assignee_label t)
    st
    (due_date t) (requester_dept t) (assignee_dept t) (task_type t)
    (broadcast_group_handle t) (broadcast_group_id t)
    (total_count t) (completed_count t) (notified_at t)
    (created_at t) (now e)
    (if (st =? "done")%string then Some (now e) else completed_at t)
    (cancelled_at t) (cancelled_by_user_id t).

Definition dbUpdateStatus (e : env) (teamId taskId st : string) : M (option task) :=
  update_task teamId taskId (with_status e st).

(** The argument of [dbUpdateTaskContent]. *)
Record patch := mkPatch {
  p_assignee_id : js string;
  p_assignee_dept : js string;
  p_due_date : js string;
  p_description : js string
}.

Definition with_content (e : env) (p : patch) (t : task) : task :=
  mkTask (id t) (team_id t) (channel_id t) (message_ts t)
    (source_permalink t) (title t)
    (match nullish_null (p_description p) with Some s => s | None => description t end)
    (requester_user_id t) (created_by_user_id t)
    (COALESCE (nullish_null (p_assignee_id p)) (assignee_id t))
    (assignee_label t) (status t)
    (nullish_null (p_due_date p))
    (requester_dept t)
    (COALESCE (nullish_null (p_assignee_dept p)) (assignee_dept t))
    (task_type t)
    (broadcast_group_handle t) (broadcast_group_id t)
    (total_count t) (completed_count t) (notified_at t)
    (created_at t) (now e) (completed_at t)
    (cancelled_at t) (cancelled_by_user_id t).

Definition dbUpdateTaskContent (e : env) (teamId taskId : string) (p : patch)
  : M (option task) :=
  update_task teamId taskId (with_content e p).

Definition with_cancel (e : env) (actor : string) (t : task) : task :=
  mkTask (id t) (team_id t) (channel_id t) (message_ts t)
    (source_permalink t) (title t) (description t)
    (requester_user_id t) (created_by_user_id t)
    (assignee_id t) (assignee_label t)
    "cancelled"
    (due_date t) (requester_dept t) (assignee_dept t) (task_type t)
    (broadcast_group_handle t) (broadcast_group_id t)
    (total_count t) (completed_count t) (notified_at t)
    (created_at t) (now e) (completed_at t)
    (Some (now e)) (Some actor).

Definition dbCancelTask (e : env) (teamId taskId actor : string) : M (option task) :=
  update_task teamId taskId (with_cancel e actor).

Definition with_counts (e : env) (completedCount : Z) (totalCount : option Z)
  (t : task) : task :=
  mkTask (id t) (team_id t) (channel_id t) (message_ts t)
    (source_permalink t) (title t) (description t)
    (requester_user_id t) (created_by_user_id t)
    (assignee_id t) (assignee_label t) (status t)
    (due_date t) (requester_dept t) (assignee_dept t) (task_type t)
    (broadcast_group_handle t) (broadcast_group_id t)
    (COALESCE (total_count t) totalCount) (Some completedCount) (notified_at t)
    (created_at t) (now e) (completed_at t)
    (cancelled_at t) (cancelled_by_user_id t).

Definition dbUpdateBroadcastCounts (e : env) (teamId taskId : string)
  (completedCount : Z) (totalCount : option Z) : M (option task) :=
  update_task teamId taskId (with_counts e completedCount totalCount).

Definition with_notified (e : env) (t : task) : task :=
  mkTask (id t) (team_id t) (channel_id t) (message_ts t)
    (source_permalink t) (title t) (description t)
    (requester_user_id t) (created_by_user_id t)
    (assignee_id t) (assignee_label t) (status t)
    (due_date t) (requester_dept t) (assignee_dept t) (task_type t)
    (broadcast_group_handle t) (broadcast_group_id t)
    (total_count t) (completed_count t) (Some (now e))
    (created_at t) (updated_at t) (completed_at t)
    (cancelled_at t) (cancelled_by_user_id t).

(** [UPDATE tasks SET notified_at=now()
     WHERE team_id=$1 AND id=$2 AND notified_at IS NULL]. *)
Definition mark_notified_if_null (e : env) (teamId taskId : string) : M unit :=
  exec (set_tasks (map (fun t =>
    if task_key teamId taskId t
    then match notified_at t with None => with_notified e t | Some _ => t end
    else t))).

(** ** DB: broadcast targets and completions *)

Definition member_key (taskId userId : string) (r : member_row) : bool :=
  ((m_task_id r =? taskId) && (m_user_id r =? userId))%string.

Definition member_of (teamId taskId : string) (r : member_row) : bool :=
  ((m_team_id r =? teamId) && (m_task_id r =? taskId))%string.

(** One row of [INSERT .. ON CONFLICT (task_id, user_id) DO NOTHING]. *)
Definition insert_member (teamId taskId userId : string) (l : list member_row)
  : list member_row :=
  if existsb (member_key taskId userId) l then l
  else l ++ [mkMember taskId teamId userId].

Definition set_targets (f : list member_row -> list member_row) (d : db) : db :=
  mkDb (tasks d) (f (task_targets d)) (task_completions d) (thread_cards d).

Definition set_completions (f : list member_row -> list member_row) (d : db) : db :=
  mkDb (tasks d) (task_targets d) (f (task_completions d)) (thread_cards d).

Definition dbInsertTaskTargets (teamId taskId : string) (userIds : list string) : M unit :=
  match userIds with
  | [] => ret tt
  | _ => exec (set_targets (fun l =>
           fold_left (fun acc uid => insert_member teamId taskId uid acc) userIds l))
  end.

Definition dbIsUserTarget (teamId taskId userId : string) : M bool :=
  query (fun d => existsb (fun r => member_of teamId taskId r
                                    && (m_user_id r =? userId)%string) (task_targets d)).

Definition dbUpsertCompletion (teamId taskId userId : string) : M unit :=
  exec (set_completions (insert_member teamId taskId userId)).

Definition count_members (teamId taskId : string) (l : list member_row) : Z :=
  Z.of_nat (length (filter (member_of teamId taskId) l)).

Definition dbCountTargets (teamId taskId : string) : M Z :=
  query (fun d => count_members teamId taskId (task_targets d)).

Definition dbCountCompletions (teamId taskId : string) : M Z :=
  query (fun d => count_members teamId taskId (task_completions d)).

Definition dbListTargetUserIds (teamId taskId : string) : M (list string) :=
  query (fun d => filter truthy
    (map m_user_id (filter (member_of teamId taskId) (task_targets d)))).

(** ** DB: thread cards *)

Definition card_key (teamId channelId parentTs : string) (c : thread_card) : bool :=
  ((tc_team_id c =? teamId) && (tc_channel_id c =? channelId)
   && (tc_parent_ts c =? parentTs))%string.

Definition set_cards (f : list thread_card -> list thread_card) (d : db) : db :=
  mkDb (tasks d) (task_targets d) (task_completions d) (f (thread_cards d)).

Definition dbGetThreadCard (teamId channelId parentTs : string) : M (option thread_card) :=
  query (fun d => find (card_key teamId channelId parentTs) (thread_cards d)).

Definition dbUpsertThreadCard (e : env) (teamId channelId parentTs cardTs : string)
  : M unit :=
  existing <- dbGetThreadCard teamId channelId parentTs ;;
  match existing with
  | Some _ =>
    exec (set_cards (map (fun c =>
      if card_key teamId channelId parentTs c
      then mkCard (tc_id c) (tc_team_id c) (tc_channel_id c) (tc_parent_ts c)
                  cardTs (now e)
      else c)))
  | None =>
    exec (set_cards (fun l =>
      l ++ [mkCard (uuid_card e) teamId channelId parentTs cardTs (now e)]))
  end.

(** ** UI pieces *)

Definition STATUS_OPTIONS : list (string * string) :=
  [ ("open", "進行中"); ("in_progress", "進行中");
    ("waiting", "確認待ち"); ("done", "完了") ].

Definition statusLabel (s : string) : string :=
  if ((s =? "open") || (s =? "in_progress"))%string then "進行中"
  else match find (fun x => (fst x =? s)%string) STATUS_OPTIONS with
       | Some f => snd f
       | None => if (s =? "cancelled")%string then "取り下げ"
                 else or_str s "-"
       end.

(** [calcBroadcastStateLabel(task)]; [None] is a missing task ([task?.]). *)
Definition calcBroadcastStateLabel (task : option task) : string :=
  let status := option_map status task in
  if eqb_opt status "cancelled" then "取り下げ"
  else if eqb_opt status "done" then "完了"
  else
    let total := Number_or0 (match task with Some t => total_count t | None => None end) in
    let done := Number_or0 (match task with Some t => completed_count t | None => None end) in
    if (total >? 0) && (done >=? total) then "確認待ち"
    else if done >? 0 then "対応中"
    else "未着手".

(** ** Messages *)

Definition safeEphemeral (channelId userId text : string) : M unit :=
  emit (Ephemeral channelId userId text).

Definition notifyTaskSimpleDM (kind : dm_kind) (userId : string) (t : task) : M unit :=
  when (truthy userId && truthy (team_id t) && truthy (id t))
    (emit (DM kind userId (team_id t) (id t))).

(** [postDM] / [notifyUserDM]: nothing is sent to a missing user. *)
Definition postDM (kind : dm_kind) (userId : string) (t : task) : M unit :=
  when (truthy userId) (emit (DM kind userId (team_id t) (id t))).

Definition postRequesterConfirmDM (teamId taskId requesterUserId : string) : M unit :=
  when (truthy requesterUserId)
    (emit (DM KConfirmRequest requesterUserId teamId taskId)).

(** [Array.from(new Set(l.filter(Boolean)))]: first occurrences, in order. *)
Fixpoint set_add_all (acc l : list string) : list string :=
  match l with
  | [] => acc
  | x :: r =>
    set_add_all (if existsb (String.eqb x) acc then acc else acc ++ [x]) r
  end.

Definition uniq (l : list string) : list string := set_add_all [] (filter truthy l).

Definition opt_list (o : option string) : list string :=
  match o with Some s => [s] | None => [] end.

(** ** Thread card (upsert) *)

Definition upsertThreadCard (e : env) (teamId channelId parentTs : string)
  (threadTs : option string) (b : blocks) : M (option string) :=
  existing <- dbGetThreadCard teamId channelId parentTs ;;
  if truthy_opt (option_map tc_card_ts existing) then
    let card_ts := opt_or (option_map tc_card_ts existing) "" in
    emit (ChatUpdate channelId card_ts b) ;;;
    ret (Some card_ts)
  else
    let postThreadTs := opt_or threadTs parentTs in
    emit (ChatPostMessage channelId postThreadTs b) ;;;
    let cardTs := post_ts e in
    when (truthy_opt cardTs)
      (dbUpsertThreadCard e teamId channelId parentTs (opt_or cardTs "")) ;;;
    ret cardTs.

(** [!channel_id?.startsWith("D")]: a missing channel is not a DM. *)
Definition not_dm (channel : option string) : bool :=
  match channel with Some c => negb (String.prefix "D" c) | None => true end.

(** The card refresh shared by the handlers: only for a task made from a
    message, and never in a DM. *)
Definition refresh_card (e : env) (teamId : string) (t : task) (b : blocks) : M unit :=
  when (truthy_opt (channel_id t) && truthy_opt (message_ts t))
    (when (not_dm (channel_id t))
       (upsertThreadCard e teamId (opt_or (channel_id t) "")
          (opt_or (message_ts t) "") None b ;;; ret tt)).

(** ** Handlers *)

Definition is_broadcast (t : task) : bool := eqb_opt (task_type t) "broadcast".

Definition includes (l : list string) (s : string) : bool := existsb (String.eqb s) l.

Definition is_list_detail (callback_id : option string) : bool :=
  eqb_opt callback_id "list_detail_modal".

(** [app.action("complete_task")]: [actor] is [body.user.id], [callback_id]
    is [body.view?.callback_id]. *)
Definition complete_task (e : env) (teamId taskId actor : string)
  (callback_id : option string) : M unit :=
  if negb (truthy teamId) || negb (truthy taskId) then ret tt else
  task <- dbGetTaskById teamId taskId ;;
  match task with
  | None => ret tt
  | Some task =>
    if is_broadcast task then
      isTarget <- dbIsUserTarget teamId taskId actor ;;
      if negb isTarget then
        safeEphemeral (opt_or (channel_id task) actor) actor
          "🥺 このタスクの対象者じゃないみたい…！"
      else
        dbUpsertCompletion teamId taskId actor ;;;
        total <- match total_count task with
                 | Some n => if n =? 0 then dbCountTargets teamId taskId else ret n
                 | None => dbCountTargets teamId taskId
                 end ;;
        doneCount <- dbCountCompletions teamId taskId ;;
        when ((doneCount >=? total) && (total >? 0))
          (fresh <- dbGetTaskById teamId taskId ;;
           match fresh with
           | None => ret tt
           | Some fresh =>
             when (negb (includes ["waiting"; "done"; "cancelled"] (status fresh)))
               (dbUpdateStatus e teamId taskId "waiting" ;;; ret tt) ;;;
             match notified_at fresh with
             | Some _ => ret tt
             | None =>
               mark_notified_if_null e teamId taskId ;;;
               postRequesterConfirmDM teamId taskId (requester_user_id fresh)
             end
           end) ;;;
        when (truthy_opt (channel_id task) && truthy_opt (message_ts task))
          (refreshed <- dbGetTaskById teamId taskId ;;
           match refreshed with
           | None => ret tt
           | Some refreshed =>
             when (not_dm (channel_id refreshed))
               (upsertThreadCard e teamId (opt_or (channel_id refreshed) "")
                  (opt_or (message_ts refreshed) "") None (TaskCard refreshed) ;;;
                ret tt)
           end)
    else
      updated <- dbUpdateStatus e teamId taskId "done" ;;
      match updated with
      | None => ret tt
      | Some updated =>
        forM (uniq (requester_user_id updated :: opt_list (assignee_id updated)))
          (fun uid => notifyTaskSimpleDM KCompleted uid updated) ;;;
        if is_list_detail callback_id then ret tt
        else refresh_card e teamId updated (DoneCard (title updated))
      end
  end.

(** [app.action("confirm_broadcast_done")]: [src] is the message the button
    was on ([body.channel?.id], [body.message?.ts]) when there is one. *)
Definition confirm_broadcast_done (e : env) (teamId taskId actor : string)
  (src : option (string * string)) : M unit :=
  if negb (truthy teamId) || negb (truthy taskId) then ret tt else
  task <- dbGetTaskById teamId taskId ;;
  match task with
  | None => ret tt
  | Some task =>
    if negb (is_broadcast task) then ret tt
    else if ((status task =? "done") || (status task =? "cancelled"))%string then
      safeEphemeral (opt_or (channel_id task) actor) actor
        "もう完了（または取り下げ）になってるよ！"
    else
      updated <- dbUpdateStatus e teamId taskId "done" ;;
      match updated with
      | None => ret tt
      | Some updated =>
        targets <- dbListTargetUserIds teamId taskId ;;
        forM (uniq (requester_user_id updated :: targets))
          (fun uid => notifyTaskSimpleDM KCompleted uid updated) ;;;
        refresh_card e teamId updated (TaskCard updated) ;;;
        match src with
        | Some (ch, ts) =>
          when (truthy ch && truthy ts)
            (emit (ChatUpdate ch ts (ConfirmedNote (title updated))))
        | None => ret tt
        end
      end
  end.

(** [app.action("cancel_task")]. *)
Definition cancel_task (e : env) (teamId taskId actor : string)
  (callback_id : option string) : M unit :=
  if negb (truthy teamId) || negb (truthy taskId) then ret tt else
  task <- dbGetTaskById teamId taskId ;;
  match task with
  | None => ret tt
  | Some task =>
    if negb (requester_user_id task =? actor)%string then
      safeEphemeral (opt_or (channel_id task) actor) actor
        "🥺 取り下げできるのは依頼者だけだよ…！"
    else
      cancelled <- dbCancelTask e teamId taskId actor ;;
      match cancelled with
      | None => ret tt
      | Some cancelled =>
        if is_list_detail callback_id then ret tt
        else refresh_card e teamId cancelled (CancelledCard (title cancelled))
      end
  end.

(** [app.action("status_select")]: [nextStatus] is
    [action?.selected_option?.value]. *)
Definition status_select (e : env) (teamId taskId : string)
  (nextStatus : option string) (actor : string) (callback_id : option string)
  : M unit :=
  if negb (truthy teamId) || negb (truthy taskId) || negb (truthy_opt nextStatus)
  then ret tt else
  let nextStatus := opt_or nextStatus "" in
  task <- dbGetTaskById teamId taskId ;;
  match task with
  | None => ret tt
  | Some task =>
    if is_broadcast task then
      safeEphemeral (opt_or (channel_id task) actor) actor
        "🥺 複数タスクのステータスは自動で進むよ（全員完了→確認待ち→依頼者の確認完了）"
    else if negb (requester_user_id task =? actor)%string
            && negb (eqb_opt (assignee_id task) actor) then
      safeEphemeral (opt_or (channel_id task) actor) actor
        "🥺 ステータス変更できるのは依頼者か対応者だけだよ…！"
    else
      updated <- dbUpdateStatus e teamId taskId nextStatus ;;
      match updated with
      | None => ret tt
      | Some updated =>
        if is_list_detail callback_id then ret tt
        else
          refresh_card e teamId updated (TaskCard updated) ;;;
          if (nextStatus =? "waiting")%string then
            postDM KWaiting (requester_user_id updated) updated
          else if (nextStatus =? "done")%string then
            forM (uniq (requester_user_id updated :: opt_list (assignee_id updated)))
              (fun uid => postDM KCompleted uid updated)
          else ret tt
      end
  end.

(** The answer a view handler gives to [ack]. *)
Inductive ack_response := AckOk | AckErrors | AckUpdate.

Definition canEditTask (t : task) (actor : string) : bool :=
  (negb (is_broadcast t)
   && ((actor =? requester_user_id t)%string || eqb_opt (assignee_id t) actor))
  || (is_broadcast t && (actor =? requester_user_id t)%string).

Definition js_of_opt (o : option string) : js string :=
  match o with Some s => Val s | None => Null end.

(** [app.view("edit_task_modal")]: [nextAssignee] is [selected_user || null],
    [nextDue] is [selected_date || null], [nextContent] the trimmed text. *)
Definition edit_task_modal (e : env) (teamId taskId actor : string)
  (nextAssignee nextDue : option string) (nextContent : string) : M ack_response :=
  if negb (truthy nextContent) then ret AckErrors else
  before <- dbGetTaskById teamId taskId ;;
  match before with
  | None => ret AckUpdate
  | Some before =>
    if negb (canEditTask before actor) then ret AckUpdate
    else if negb (is_broadcast before) && negb (truthy_opt nextAssignee)
    then ret AckUpdate
    else
      let patchAssigneeId :=
        if is_broadcast before then Null else js_of_opt nextAssignee in
      let patchAssigneeDept :=
        if is_broadcast before then Null
        else js_of_opt (resolveDeptForUser e (opt_or nextAssignee "")) in
      updated <- dbUpdateTaskContent e teamId taskId
                   (mkPatch patchAssigneeId patchAssigneeDept
                            (js_of_opt nextDue) (Val nextContent)) ;;
      match updated with
      | None => ret AckUpdate
      | Some updated =>
        when (truthy_opt (channel_id updated) && truthy_opt (message_ts updated))
          (when (not_dm (channel_id updated))
             (upsertThreadCard e teamId (opt_or (channel_id updated) "")
                (opt_or (message_ts updated) "") None (TaskCard updated) ;;;
              ret tt) ;;;
           emit (EditNotice (opt_or (channel_id updated) "")
                            (opt_or (message_ts updated) "") actor)) ;;;
        ret AckUpdate
      end
  end.

(** *** Creation *)

(** What the creation modal submits.  [mi_status_choice] is the status
    select of the older modal; the handler no longer reads it. *)
Record modal_input := mkModalInput {
  mi_teamId : string;
  mi_channelId : string;                  (* meta.channelId || "" *)
  mi_msgTs : string;                      (* meta.msgTs || "" *)
  mi_requester : option string;           (* meta.requesterUserId *)
  mi_messageText : string;                (* meta.messageTextPretty || meta.messageText || "" *)
  mi_desc : option string;                (* trimmed description input *)
  mi_selected_users : list string;
  mi_selected_group_options : list (option string);
  mi_due : option string;
  mi_status_choice : option string
}.

(** [expandTargetsFromGroups]: the member set and the handles, in order. *)
Fixpoint expand_groups (e : env) (groupIds : list string) (users handles : list string)
  : list string * list string :=
  match groupIds with
  | [] => (users, handles)
  | gid :: r =>
    let handle := opt_or (subteam_handle e gid) gid in
    let users' := match group_members e gid with
                  | Some us => set_add_all users us
                  | None => users
                  end in
    expand_groups e r users' (handles ++ [handle])
  end.

Definition expandTargetsFromGroups (e : env) (groupIds : list string)
  : list string * list string :=
  expand_groups e groupIds [] [].

(** [String(h).replace(/^@/, "")]. *)
Definition strip_at (h : string) : string :=
  match h with
  | String "@"%char r => r
  | _ => h
  end.

(** The [created] object after [created.total_count = total;
    created.completed_count = 0]. *)
Definition local_counts (total : Z) (t : task) : task :=
  mkTask (id t) (team_id t) (channel_id t) (message_ts t)
    (source_permalink t) (title t) (description t)
    (requester_user_id t) (created_by_user_id t)
    (assignee_id t) (assignee_label t) (status t)
    (due_date t) (requester_dept t) (assignee_dept t) (task_type t)
    (broadcast_group_handle t) (broadcast_group_id t)
    (Some total) (Some 0) (notified_at t)
    (created_at t) (updated_at t) (completed_at t)
    (cancelled_at t) (cancelled_by_user_id t).

(** The group ids of the submitted modal:
    [selectedGroupOptions.map((o) => o?.value).filter(Boolean)]. *)
Definition selected_groups (i : modal_input) : list string :=
  filter truthy (flat_map opt_list (mi_selected_group_options i)).

(** [targetList]: the selected users, then the members of the selected
    groups, each once. *)
Definition resolved_targets (e : env) (i : modal_input) : list string :=
  set_add_all (set_add_all [] (mi_selected_users i))
    (fst (expandTargetsFromGroups e (selected_groups i))).

(** [app.view("task_modal")] after the validation of the assignees. *)
Definition task_modal_create (e : env) (actorUserId : string) (i : modal_input)
  : M ack_response :=
  let teamId := mi_teamId i in
  let channelId := mi_channelId i in
  let parentTs := mi_msgTs i in
  let description := opt_or (mi_desc i) (mi_messageText i) in
  let title := generateTitleCandidate e description in
  let selectedUsers := mi_selected_users i in
  let selectedGroupIds := selected_groups i in
  let due := match mi_due i with Some d => or_null d | None => None end in
  let status := "in_progress" in
  let requesterUserId := opt_or (mi_requester i) actorUserId in
  let groupHandles := snd (expandTargetsFromGroups e selectedGroupIds) in
  let targetList := resolved_targets e i in
  let isPersonal :=
    (length targetList =? 1)%nat && (length selectedGroupIds =? 0)%nat in
  let taskType := if isPersonal then "personal" else "broadcast" in
  let labelParts :=
    map (fun h => "@" ++ strip_at h)%string groupHandles
    ++ map (fun u => "@" ++ display_name e u)%string selectedUsers in
  let assigneeLabelRaw := String.concat " " labelParts in
  let requesterDept := resolveDeptForUser e requesterUserId in
  let personalAssigneeId := if isPersonal then hd_error targetList else None in
  let assigneeDept :=
    if isPersonal then resolveDeptForUser e (opt_or personalAssigneeId "")
    else None in
  let permalink :=
    if truthy channelId && truthy parentTs then permalink e else "" in
  let taskId := uuid_task e in
  created <- dbCreateTask e
    (mkTask taskId teamId (or_null channelId) (or_null parentTs)
       (or_null permalink) title description
       requesterUserId actorUserId
       personalAssigneeId (or_null assigneeLabelRaw)
       status due requesterDept assigneeDept
       (Some taskType)
       (option_map (fun h => "@" ++ h)%string (hd_error groupHandles))
       (hd_error selectedGroupIds)
       (if (taskType =? "broadcast")%string
        then Some (Z.of_nat (length targetList)) else None)
       (Some 0) None
       0 0 None None None) ;;
  created <-
    (if (taskType =? "broadcast")%string then
       dbInsertTaskTargets teamId taskId targetList ;;;
       total <- dbCountTargets teamId taskId ;;
       dbUpdateBroadcastCounts e teamId taskId 0 (Some total) ;;;
       ret (local_counts total created)
     else ret created) ;;
  (if (taskType =? "personal")%string then
     match personalAssigneeId with
     | Some to =>
       when (truthy to && negb (to =? actorUserId)%string)
         (notifyTaskSimpleDM KAssigned to created)
     | None => ret tt
     end
   else
     forM (filter (fun u => truthy u && negb (u =? actorUserId)%string) targetList)
       (fun uid => notifyTaskSimpleDM KAssigned uid created)) ;;;
  when (truthy_opt (channel_id created) && truthy_opt (message_ts created))
    (when (not_dm (channel_id created))
       (upsertThreadCard e teamId channelId parentTs None (TaskCard created) ;;;
        ret tt)) ;;;
  ret AckOk.

(** [app.view("task_modal")]: a submission without any assignee is answered
    with the modal's error display and goes no further. *)
Definition task_modal (e : env) (actorUserId : string) (i : modal_input)
  : M ack_response :=
  match mi_selected_users i, selected_groups i with
  | [], [] => ret AckErrors
  | _, _ => task_modal_create e actorUserId i
  end.

(** The payload of the reaction prompt's "create" button. *)
Record reaction_payload := mkReactionPayload {
  rp_teamId : string;
  rp_channelId : string;
  rp_msgTs : string;
  rp_requester : option string;
  rp_assignee : option string;
  rp_dueYmd : option string;
  rp_messageText : string;
  rp_threadTs : option string
}.

(** [app.action("reaction_task_confirm_create")]; [today] is
    [slackDateYmd(new Date())]. *)
Definition reaction_task_confirm_create (e : env) (actorUserId today : string)
  (p : reaction_payload) : M unit :=
  let teamId := rp_teamId p in
  let channelId := rp_channelId p in
  let msgTs := rp_msgTs p in
  let requesterUserId := opt_or (rp_requester p) actorUserId in
  let assigneeId := opt_or (rp_assignee p) actorUserId in
  let dueYmd := opt_or (rp_dueYmd p) today in
  let rawText := rp_messageText p in
  if negb (truthy teamId) || negb (truthy channelId) || negb (truthy msgTs)
     || negb (truthy actorUserId) then ret tt else
  existing <- dbGetTaskBySource teamId channelId msgTs ;;
  if truthy_opt (option_map id existing) then ret tt else
  let prettyText := prettify e rawText in
  let title := generateTitleCandidate e (or_str prettyText rawText) in
  let requesterDept := resolveDeptForUser e requesterUserId in
  let assigneeDept := resolveDeptForUser e assigneeId in
  let taskId := uuid_task e in
  let taskType := "personal" in
  let status := "in_progress" in
  let description := or_str prettyText rawText in
  created <- dbCreateTask e
    (mkTask taskId teamId (Some channelId) (Some msgTs)
       (or_null (permalink e)) title description
       requesterUserId actorUserId
       (Some assigneeId) None
       status (Some dueYmd) requesterDept assigneeDept
       (Some taskType) None None None (Some 0) None
       0 0 None None None) ;;
  when (negb (String.prefix "D" channelId))
    (upsertThreadCard e teamId channelId msgTs
       (Some (opt_or (rp_threadTs p) msgTs)) (TaskCard created) ;;; ret tt).

(** [app.event("reaction_added")] once the reacted message has been read:
    [threadRootTs] and [previewText] come from the Slack API. *)
Definition reaction_added (e : env) (is_task_reaction : bool)
  (teamId channelId msgTs actorUserId threadRootTs previewText : string) : M unit :=
  if negb is_task_reaction then ret tt else
  if negb (truthy teamId) || negb (truthy channelId) || negb (truthy msgTs)
     || negb (truthy actorUserId) then ret tt else
  existingCard <- dbGetThreadCard teamId channelId msgTs ;;
  if truthy_opt (option_map tc_card_ts existingCard) then ret tt else
  existingTask <- dbGetTaskBySource teamId channelId msgTs ;;
  if truthy_opt (option_map id existingTask) then
    safeEphemeral channelId actorUserId "✅ それ、もうタスク化済みだよ〜！"
  else
    when (negb (String.prefix "D" channelId))
      (upsertThreadCard e teamId channelId msgTs (Some threadRootTs)
         (PromptCard previewText) ;;; ret tt).

(** *** The daily due-date reminder *)

Fixpoint insert_by_created (t : task) (l : list task) : list task :=
  match l with
  | [] => [t]
  | u :: r => if created_at u <=? created_at t then u :: insert_by_created t r
              else t :: l
  end.

Definition order_by_created (l : list task) : list task :=
  fold_left (fun acc t => insert_by_created t acc) l [].

Definition due_for_reminder (today : string) (t : task) : bool :=
  eqb_opt (due_date t) today
  && negb (includes ["done"; "cancelled"] (status t))
  && match notified_at t with None => true | Some _ => false end
  && match task_type t with None => true | Some ty => (ty =? "personal")%string end.

Definition runDueNotifyJob (e : env) (today : string) : M unit :=
  due <- query (fun d =>
    firstn 500 (order_by_created (filter (due_for_reminder today) (tasks d)))) ;;
  forM due (fun t =>
    postDM KDueToday (requester_user_id t) t ;;;
    postDM KDueToday (opt_or (assignee_id t) "") t ;;;
    exec (set_tasks (map (fun u =>
      if task_key (team_id t) (id t) u then with_notified e u else u)))).

(** ** Runs of the application *)

(** One handler run. *)
Inductive request :=
| TaskModal (actor : string) (i : modal_input)
| ReactionAdded (is_task_reaction : bool)
    (teamId channelId msgTs actor threadRootTs previewText : string)
| ReactionCreate (actor today : string) (p : reaction_payload)
| CompleteTask (teamId taskId actor : string) (callback_id : option string)
| ConfirmBroadcastDone (teamId taskId actor : string) (src : option (string * string))
| CancelTask (teamId taskId actor : string) (callback_id : option string)
| StatusSelect (teamId taskId : string) (nextStatus : option string)
    (actor : string) (callback_id : option string)
| EditTaskModal (teamId taskId actor : string) (nextAssignee nextDue : option string)
    (nextContent : string)
| DueNotifyJob (today : string).

Definition dispatch (e : env) (r : request) : M unit :=
  match r with
  | TaskModal actor i => task_modal e actor i ;;; ret tt
  | ReactionAdded b teamId channelId msgTs actor root preview =>
    reaction_added e b teamId channelId msgTs actor root preview
  | ReactionCreate actor today p => reaction_task_confirm_create e actor today p
  | CompleteTask teamId taskId actor cb => complete_task e teamId taskId actor cb
  | ConfirmBroadcastDone teamId taskId actor src =>
    confirm_broadcast_done e teamId taskId actor src
  | CancelTask teamId taskId actor cb => cancel_task e teamId taskId actor cb
  | StatusSelect teamId taskId st actor cb =>
    status_select e teamId taskId st actor cb
  | EditTaskModal teamId taskId actor a d c =>
    edit_task_modal e teamId taskId actor a d c ;;; ret tt
  | DueNotifyJob today => runDueNotifyJob e today
  end.

Definition handle (e : env) (r : request) (w : world) : world :=
  snd (dispatch e r w).

(** Handler runs one after the other, each with its own surroundings. *)
Fixpoint run (rs : list (env * request)) (w : world) : world :=
  match rs with
  | [] => w
  | (e, r) :: rest => run rest (handle e r w)
  end.

Definition empty_db : db := mkDb [] [] [] [].
Definition initial : world := mkWorld empty_db [].


(** * Specification-side definitions *)

(** ** The derived state of a broadcast task *)

Inductive derived_state := SOpen | SInProgress | SWaiting | SDone | SCancelled.

(** The label each state is shown with. *)
Definition state_label (s : derived_state) : string :=
  match s with
  | SOpen => "未着手"
  | SInProgress => "対応中"
  | SWaiting => "確認待ち"
  | SDone => "完了"
  | SCancelled => "取り下げ"
  end.

(** The derived state in the specification's words: a terminal status
    wins; otherwise the counts decide. *)
Definition derived_state_spec (st : string) (totalCount completedCount : Z)
  : derived_state :=
  if (st =? "done")%string then SDone
  else if (st =? "cancelled")%string then SCancelled
  else if (0 <? totalCount) && (totalCount <=? completedCount) then SWaiting
  else if 0 <? completedCount then SInProgress
  else SOpen.

(** What [COALESCE($n, column)] makes of a patch field. *)
Definition first_non_null {A} (p : js A) (old : option A) : option A :=
  match p with Val v => Some v | Undefined | Null => old end.


(** ** Frames and invariants of monadic programs *)

Definition tasks_of (w : world) : list task := tasks (w_db w).
Definition targets_of (w : world) : list member_row := task_targets (w_db w).
Definition completions_of (w : world) : list member_row := task_completions (w_db w).
Definition cards_of (w : world) : list thread_card := thread_cards (w_db w).

(** The program leaves the projection [proj] of the world as it was. *)
Definition keeps {X A} (proj : world -> X) (m : M A) : Prop :=
  forall w, proj (snd (m w)) = proj w.

(** The program maintains the invariant [I]. *)
Definition preserves {A} (I : world -> Prop) (m : M A) : Prop :=
  forall w, I w -> I (snd (m w)).

(** Running the card refresh protocol for one key several times; each run
    has its own surroundings, thread parent and card content. *)
Fixpoint refresh_n (teamId channelId parentTs : string)
  (rs : list (env * option string * blocks)) (w : world) : world :=
  match rs with
  | [] => w
  | (e, threadTs, b) :: rest =>
    refresh_n teamId channelId parentTs rest
      (snd (upsertThreadCard e teamId channelId parentTs threadTs b w))
  end.

(** At most one [thread_cards] row for every key. *)
Definition cards_unique (l : list thread_card) : Prop :=
  forall teamId channelId parentTs,
    (length (filter (card_key teamId channelId parentTs) l) <= 1)%nat.

(** *** The all-done notification *)

(** The request sent to the requester once every target has completed. *)
Definition is_confirm (teamId taskId : string) (ev : event) : bool :=
  match ev with
  | DM KConfirmRequest _ t i => ((t =? teamId) && (i =? taskId))%string
  | _ => false
  end.

(** How many such requests the log holds for one task. *)
Definition confirm_count (teamId taskId : string) (log : list event) : nat :=
  length (filter (is_confirm teamId taskId) log).

Definition confirms (teamId taskId : string) (w : world) : nat :=
  confirm_count teamId taskId (w_log w).

(** [task.total_count || (await dbCountTargets(teamId, taskId))]. *)
Definition effective_total (teamId taskId : string) (t : task) (w : world) : Z :=
  match total_count t with
  | Some n => if n =? 0 then count_members teamId taskId (targets_of w) else n
  | None => count_members teamId taskId (targets_of w)
  end.

(** The number of completion rows re-counted after [userId]'s completion
    has been recorded. *)
Definition recount (teamId taskId userId : string) (w : world) : Z :=
  count_members teamId taskId (insert_member teamId taskId userId (completions_of w)).

(** The condition under which [complete_task] hands the task over to the
    requester: [doneCount >= total && total > 0]. *)
Definition all_done (teamId taskId userId : string) (t : task) (w : world) : bool :=
  (recount teamId taskId userId w >=? effective_total teamId taskId t w)
  && (effective_total teamId taskId t w >? 0).

(** The ephemeral (error) messages in the log. *)
Definition is_ephemeral (ev : event) : bool :=
  match ev with Ephemeral _ _ _ => true | _ => false end.

Definition ephemerals (w : world) : list event := filter is_ephemeral (w_log w).

Definition is_some {A} (o : option A) : bool :=
  match o with Some _ => true | None => false end.

(** The task found under a key carries [notified_at]. *)
Definition notified_first (teamId taskId : string) (w : world) : bool :=
  match find (task_key teamId taskId) (tasks_of w) with
  | Some t => is_some (notified_at t)
  | None => false
  end.

(** No request has been sent for the task, or one has and [notified_at]
    records it. *)
Definition notify_inv (teamId taskId : string) (w : world) : Prop :=
  confirms teamId taskId w = 0%nat
  \/ (confirms teamId taskId w = 1%nat /\ notified_first teamId taskId w = true).

(** An update that keeps a row's key and never unsets [notified_at]. *)
Definition keeps_notified (g : task -> task) : Prop :=
  forall t, team_id (g t) = team_id t /\ id (g t) = id t
            /\ (is_some (notified_at t) = true -> is_some (notified_at (g t)) = true).

(** The unique constraint on (task_id, user_id) of a member table. *)
Definition members_unique (l : list member_row) : Prop :=
  forall taskId userId,
    (length (filter (member_key taskId userId) l) <= 1)%nat.

(** Every completion row belongs to a user with a target row for the task. *)
Definition completions_within_targets (w : world) : Prop :=
  forall r, In r (completions_of w) ->
    existsb (fun x => member_of (m_team_id r) (m_task_id r) x
                      && (m_user_id x =? m_user_id r)%string) (targets_of w) = true.

(** ** Example data *)

Definition env0 : env :=
  mkEnv 100 "task-9" "card-1" (Some "1700.0001") "https://example.invalid/p"
    (fun g => if (g =? "G1")%string then Some ["UB"; "UC"] else None)
    (fun _ => None) (fun u => u) (fun _ => None) (fun s => s) (fun s => s).

(** A personal task of requester UR for assignee UX. *)
Definition personal0 : task :=
  mkTask "task-1" "T1" (Some "C1") (Some "1600.0001") None
    "spec review" "spec review" "UR" "UR" (Some "UX") None
    "waiting" (Some "2026-04-25") None None (Some "personal") None None
    None (Some 0) None 10 10 None None None.

(** A broadcast task of requester UR for the targets UA, UB, UC. *)
Definition broadcast0 (st : string) : task :=
  mkTask "task-2" "T1" (Some "C1") (Some "1600.0002") None
    "fill in the form" "fill in the form" "UR" "UR" None (Some "@all")
    st None None None (Some "broadcast") None None
    (Some 3) (Some 0) None 20 20 None None None.

Definition targets0 : list member_row :=
  [mkMember "task-2" "T1" "UA"; mkMember "task-2" "T1" "UB";
   mkMember "task-2" "T1" "UC"].

(** A store with both tasks, the broadcast task in status [st] and with the
    completion rows [done]; no thread card yet. *)
Definition world0 (st : string) (done : list member_row) : world :=
  mkWorld (mkDb [personal0; broadcast0 st] targets0 done []) [].


(** * Further definitions: invariants, views and the Home filters

    The rest of the development covers more of the same program: what
    holds of the tables after any handler runs, what single handlers do on
    their refusing and on their succeeding paths, and the parts that do not
    write the database: the display helpers [noMention], [statusLabel] and
    [statusSelectElement], the buttons of [buildDetailModalView], the lists
    of [open_progress_modal], the recipients of [comment_modal], and the
    in-memory [homeState] map with the Home actions that write it (the map
    is an association list with one entry for every key).

    Two conventions of the first part are lifted where a property depends
    on them.  Handlers there run one after the other; [proc] gives a
    handler as the sequence of its awaited calls, so that two handlers can
    overlap ([complete_task_steps]).  Calls to the Slack client there
    always return; [reaction_task_confirm_create_try] and
    [status_select_try] take the calls that can throw and end the handler
    early as arguments. *)

(** ** Properties of every task row *)

(** Every row of [tasks] satisfies [P]. *)
Definition all_tasks (P : task -> Prop) (w : world) : Prop :=
  Forall P (tasks_of w).

(** A done task carries the time it was completed. *)
Definition done_stamped (t : task) : Prop :=
  status t = "done" -> completed_at t <> None.

(** What a later version [u] of a row [t] must still have: the columns
    written at creation, and every stamp that was set. *)
Definition row_kept (t u : task) : Prop :=
  id u = id t /\ team_id u = team_id t
  /\ channel_id u = channel_id t /\ message_ts u = message_ts t
  /\ source_permalink u = source_permalink t /\ title u = title t
  /\ requester_user_id u = requester_user_id t
  /\ created_by_user_id u = created_by_user_id t
  /\ assignee_label u = assignee_label t
  /\ requester_dept u = requester_dept t
  /\ task_type u = task_type t
  /\ broadcast_group_handle u = broadcast_group_handle t
  /\ broadcast_group_id u = broadcast_group_id t
  /\ created_at u = created_at t
  /\ (is_some (completed_at t) = true -> is_some (completed_at u) = true)
  /\ (is_some (cancelled_at t) = true -> is_some (cancelled_at u) = true)
  /\ (is_some (notified_at t) = true -> is_some (notified_at u) = true).

(** The rows [l0] are still the first rows of [tasks], in the same order,
    each kept in the sense above. *)
Definition rows_kept (l0 : list task) (w : world) : Prop :=
  exists l extra, tasks_of w = l ++ extra /\ Forall2 row_kept l0 l.

(** The stored progress counter is zero. *)
Definition counter_zero (t : task) : Prop := completed_count t = Some 0.

(** ** The source message of a task *)

(** The [WHERE] clause of [dbGetTaskBySource]. *)
Definition from_source (teamId channelId messageTs : string) (t : task) : bool :=
  (team_id t =? teamId)%string
  && eqb_opt (channel_id t) channelId
  && eqb_opt (message_ts t) messageTs.

(** Every stored task has a non-empty id. *)
Definition ids_truthy (w : world) : Prop :=
  forall t, In t (tasks_of w) -> truthy (id t) = true.

(** ** The daily reminder *)

(** What [runDueNotifyJob] does for one due task. *)
Definition remind (e : env) (t : task) : M unit :=
  postDM KDueToday (requester_user_id t) t ;;;
  postDM KDueToday (opt_or (assignee_id t) "") t ;;;
  exec (set_tasks (map (fun u =>
    if task_key (team_id t) (id t) u then with_notified e u else u))).

(** How a row [r] stored after the reminders for [due] relates to the row
    [u] it was: as it was, and not one of the reminded tasks, or stamped
    as notified. *)
Definition reminded (due : list task) (u r : task) : Prop :=
  (r = u /\ forall t, In t due -> task_key (team_id t) (id t) u = false)
  \/ is_some (notified_at r) = true.

(** ** Stored thread cards *)

(** A card row points at a posted message and is not in a DM. *)
Definition card_ok (c : thread_card) : Prop :=
  truthy (tc_card_ts c) = true /\ String.prefix "D" (tc_channel_id c) = false.

Definition cards_ok (w : world) : Prop := Forall card_ok (cards_of w).

(** ** Which request writes what *)

Definition is_task_modal (r : request) : bool :=
  match r with TaskModal _ _ => true | _ => false end.

Definition is_complete_task (r : request) : bool :=
  match r with CompleteTask _ _ _ _ => true | _ => false end.

Definition creates_task (r : request) : bool :=
  match r with TaskModal _ _ | ReactionCreate _ _ _ => true | _ => false end.

(** The workspace a request comes from; the daily job serves them all. *)
Definition request_team (r : request) : option string :=
  match r with
  | TaskModal _ i => Some (mi_teamId i)
  | ReactionAdded _ teamId _ _ _ _ _ => Some teamId
  | ReactionCreate _ _ p => Some (rp_teamId p)
  | CompleteTask teamId _ _ _ => Some teamId
  | ConfirmBroadcastDone teamId _ _ _ => Some teamId
  | CancelTask teamId _ _ _ => Some teamId
  | StatusSelect teamId _ _ _ _ => Some teamId
  | EditTaskModal teamId _ _ _ _ _ => Some teamId
  | DueNotifyJob _ => None
  end.

(** The rows of the four tables that belong to other workspaces than
    [teamId]. *)
Definition foreign_tasks (teamId : string) (w : world) : list task :=
  filter (fun t => negb (team_id t =? teamId)%string) (tasks_of w).

Definition foreign_targets (teamId : string) (w : world) : list member_row :=
  filter (fun r => negb (m_team_id r =? teamId)%string) (targets_of w).

Definition foreign_completions (teamId : string) (w : world) : list member_row :=
  filter (fun r => negb (m_team_id r =? teamId)%string) (completions_of w).

Definition foreign_cards (teamId : string) (w : world) : list thread_card :=
  filter (fun c => negb (tc_team_id c =? teamId)%string) (cards_of w).

(** ** Direct messages *)

(** An assignment notice addressed to [u]. *)
Definition assigned_dm_to (u : string) (ev : event) : bool :=
  match ev with
  | DM KAssigned x _ _ => (x =? u)%string
  | _ => false
  end.

Definition assigned_dms_to (u : string) (w : world) : list event :=
  filter (assigned_dm_to u) (w_log w).

(** ** Display helpers *)

(** [String(s).replace(/@/g, "＠")]: every at sign becomes the full-width
    one.  Strings are held as UTF-8, where the byte of an at sign occurs
    only as the at sign. *)
Fixpoint replace_at (s : string) : string :=
  match s with
  | EmptyString => EmptyString
  | String c r =>
    if Ascii.eqb c "@"%char then ("＠" ++ replace_at r)%string
    else String c (replace_at r)
  end.

(** [noMention(s)]; [None] is a missing value. *)
Definition noMention (s : option string) : string :=
  match s with
  | Some s => if truthy s then replace_at s else ""
  | None => ""
  end.

Definition deptLabel (dept_key : option string) : string :=
  if truthy_opt dept_key then noMention (Some ("@" ++ opt_or dept_key "")%string)
  else "未設定".

(** [assigneeDisplay(task)] of a broadcast task; for a personal task the
    assignee is a mention. *)
Definition assigneeDisplay (t : task) : string :=
  if is_broadcast t then noMention (Some (opt_or (assignee_label t) "（複数対象）"))
  else ("<@" ++ match assignee_id t with Some a => a | None => "null" end ++ ">")%string.

(** The at sign occurs in a string. *)
Fixpoint has_at (s : string) : bool :=
  match s with
  | EmptyString => false
  | String c r => Ascii.eqb c "@"%char || has_at r
  end.

(** ** The status select element *)

Definition STATUS_SELECT_OPTIONS : list (string * string) :=
  [ ("in_progress", "進行中"); ("waiting", "確認待ち"); ("done", "完了") ].

(** A [static_select]: the option shown and the options offered, each a
    value with its text. *)
Record select_element := mkSelect {
  initial_option : string * string;
  options : list (string * string)
}.

Definition statusSelectElement (currentStatus : string) : select_element :=
  let normalized :=
    if (currentStatus =? "open")%string then "in_progress" else currentStatus in
  let cur :=
    match find (fun o => (fst o =? normalized)%string) STATUS_SELECT_OPTIONS with
    | Some o => o
    | None => hd ("", "") STATUS_SELECT_OPTIONS
    end in
  mkSelect cur STATUS_SELECT_OPTIONS.

(** ** The filters of the Home tab *)

(** One user's filters. *)
Record home_state := mkHome {
  viewKey : string;
  scopeKey : string;
  personalScopeKey : string;
  assigneeUserId : option string;
  deptKey : string;
  broadcastScopeKey : string
}.

(** The object handed to [setHomeState]: only some keys are present. *)
Record home_patch := mkHomePatch {
  n_viewKey : option string;
  n_scopeKey : option string;
  n_personalScopeKey : option string;
  n_assigneeUserId : option (option string);
  n_deptKey : option string;
  n_broadcastScopeKey : option string
}.

(** The [homeState] map, keyed by team and user. *)
Definition home_store : Type := list (string * home_state).

Definition home_key (teamId userId : string) : string :=
  (teamId ++ ":" ++ userId)%string.

Definition home_lookup (k : string) (s : home_store) : option home_state :=
  option_map snd (find (fun p => (fst p =? k)%string) s).

Definition home_put (k : string) (v : home_state) (s : home_store) : home_store :=
  (k, v) :: filter (fun p => negb (fst p =? k)%string) s.

Definition home_default (userId : string) : home_state :=
  mkHome "all" "active" "to_me" (Some userId) "all" "to_me".

Definition getHomeState (store : home_store) (teamId userId : string) : home_state :=
  let s := match home_lookup (home_key teamId userId) store with
           | Some s => s
           | None => home_default userId
           end in
  mkHome "all" (scopeKey s)
    (or_str (broadcastScopeKey s) (or_str (personalScopeKey s) "to_me"))
    (assigneeUserId s) (deptKey s)
    (or_str (broadcastScopeKey s) "to_me").

(** [{ ...old, ...next }] on one key. *)
Definition spread {A} (next : option A) (old : A) : A :=
  match next with Some v => v | None => old end.

Definition setHomeState (store : home_store) (teamId userId : string)
  (next : home_patch) : home_store :=
  let old := getHomeState store teamId userId in
  let merged :=
    mkHome "all"
      (spread (n_scopeKey next) (scopeKey old))
      (spread (n_personalScopeKey next) (personalScopeKey old))
      (spread (n_assigneeUserId next) (assigneeUserId old))
      (spread (n_deptKey next) (deptKey old))
      (spread (n_broadcastScopeKey next) (broadcastScopeKey old)) in
  let merged :=
    if truthy (broadcastScopeKey merged)
    then mkHome (viewKey merged) (scopeKey merged) (broadcastScopeKey merged)
           (assigneeUserId merged) (deptKey merged) (broadcastScopeKey merged)
    else merged in
  home_put (home_key teamId userId) merged store.

(** The Home handlers, as far as they write the filters; [selected] is
    [body.actions?.[0]?.selected_option?.value]. *)
Inductive home_request :=
| AppHomeOpened
| HomeViewSelect
| HomePersonAssigneeSelect (selected : option string)
| HomePersonAssigneeClear
| HomeScopeSelect (selected : option string)
| HomeDeptSelect (selected : option string)
| HomeBroadcastScopeSelect (selected : option string)
| HomeResetFilters
| HomePersonalScopeSelect (selected : option string).

Definition reset_patch (userId : string) : home_patch :=
  mkHomePatch (Some "all") (Some "active") (Some "to_me") (Some (Some userId))
    (Some "all") (Some "to_me").

Definition home_handle (teamId userId : string) (r : home_request)
  (store : home_store) : home_store :=
  match r with
  | AppHomeOpened =>
    match home_lookup (home_key teamId userId) store with
    | Some _ => store
    | None => setHomeState store teamId userId (reset_patch userId)
    end
  | HomeViewSelect =>
    setHomeState store teamId userId
      (mkHomePatch (Some "all") None None None None None)
  | HomePersonAssigneeSelect selected =>
    setHomeState store teamId userId
      (mkHomePatch None None None (Some (Some (opt_or selected userId))) None None)
  | HomePersonAssigneeClear =>
    setHomeState store teamId userId
      (mkHomePatch None None None (Some None) None None)
  | HomeScopeSelect selected =>
    setHomeState store teamId userId
      (mkHomePatch None (Some (opt_or selected "active")) None None None None)
  | HomeDeptSelect selected =>
    setHomeState store teamId userId
      (mkHomePatch None None None (Some None) (Some (opt_or selected "all")) None)
  | HomeBroadcastScopeSelect selected =>
    let selected := opt_or selected "to_me" in
    setHomeState store teamId userId
      (mkHomePatch (Some "all") None (Some selected) None
         (if (selected =? "all")%string then None else Some "all")
         (Some selected))
  | HomeResetFilters =>
    setHomeState store teamId userId (reset_patch userId)
  | HomePersonalScopeSelect selected =>
    let selected := opt_or selected "to_me" in
    if (selected =? "all")%string then
      setHomeState store teamId userId
        (mkHomePatch None None (Some "all") None None None)
    else
      setHomeState store teamId userId
        (mkHomePatch None None (Some selected) (Some (Some userId)) (Some "all") None)
  end.

(** Home requests of several users, one after the other. *)
Fixpoint home_run (rs : list (string * string * home_request)) (store : home_store)
  : home_store :=
  match rs with
  | [] => store
  | (teamId, userId, r) :: rest => home_run rest (home_handle teamId userId r store)
  end.

(** What every stored filter state looks like: the view is fixed, and
    one range serves both lists. *)
Definition home_ok (st : home_state) : Prop :=
  viewKey st = "all"
  /\ truthy (broadcastScopeKey st) = true
  /\ personalScopeKey st = broadcastScopeKey st.

Definition store_ok (s : home_store) : Prop :=
  forall k st, home_lookup k s = Some st -> home_ok st.

(** ** Progress of a broadcast task *)

Definition dbHasUserCompleted (teamId taskId userId : string) : M bool :=
  query (fun d => existsb (fun r => member_of teamId taskId r
                                    && (m_user_id r =? userId)%string)
                    (task_completions d)).

(** [ORDER BY user_id], taken in the byte order of the ids. *)
Fixpoint insert_id (x : string) (l : list string) : list string :=
  match l with
  | [] => [x]
  | y :: r => if String.leb x y then x :: l else y :: insert_id x r
  end.

Definition order_by_user_id (l : list string) : list string :=
  fold_right insert_id [] l.

(** The two lists of [open_progress_modal]: the targets who have
    completed, and those who have not. *)
Definition progress_lists (teamId taskId : string) : M (list string * list string) :=
  query (fun d =>
    let targets :=
      filter truthy (order_by_user_id
        (map m_user_id (filter (member_of teamId taskId) (task_targets d)))) in
    let doneSet :=
      filter truthy (order_by_user_id
        (map m_user_id (filter (member_of teamId taskId) (task_completions d)))) in
    (filter (fun u => includes doneSet u) targets,
     filter (fun u => negb (includes doneSet u)) targets)).

(** Every target row names a user. *)
Definition targets_named (w : world) : Prop :=
  forall r, In r (targets_of w) -> truthy (m_user_id r) = true.

(** A broadcast task for UA, UB and the group G1 (UB, UC) is created from
    a message, and UA completes it. *)
Definition run0 : list (env * request) :=
  [ (env0, TaskModal "UR"
             (mkModalInput "T1" "C1" "1600.0009" None "please" (Some "fill in")
                ["UA"; "UB"] [Some "G1"] (Some "2026-04-30") None));
    (env0, CompleteTask "T1" "task-9" "UA" None) ].

(** ** What the detail modal offers *)

(** The [action_id]s of the buttons [buildDetailModalView] puts into the
    modal, in the order of its blocks; [origin] is "thread" when the modal
    was opened from a thread card. *)
Definition detail_actions (teamId : string) (t : task) (viewerUserId origin : string)
  : M (list string) :=
  let isBroadcast := eqb_opt (task_type t) "broadcast" in
  let isReadOnly := (origin =? "thread")%string in
  let canCompletePersonal :=
    negb isBroadcast
    && ((viewerUserId =? requester_user_id t)%string
        || eqb_opt (assignee_id t) viewerUserId) in
  let open := negb (status t =? "done")%string
              && negb (status t =? "cancelled")%string in
  let complete :=
    if negb isBroadcast then
      if canCompletePersonal && open then ["complete_task"] else []
    else [] in
  let edit :=
    if negb isReadOnly then
      let canEditTask :=
        (negb isBroadcast
         && ((viewerUserId =? requester_user_id t)%string
             || eqb_opt (assignee_id t) viewerUserId))
        || (isBroadcast && (viewerUserId =? requester_user_id t)%string) in
      if canEditTask then ["open_edit_task_modal"] else []
    else [] in
  let comment := if negb isReadOnly then ["open_comment_modal"] else [] in
  if negb isReadOnly && isBroadcast then
    isTarget <- dbIsUserTarget teamId (id t) viewerUserId ;;
    already <- dbHasUserCompleted teamId (id t) viewerUserId ;;
    let mine :=
      if isTarget && negb already && open then ["complete_task"]
      else if isTarget && already then ["noop"]
      else [] in
    let whole :=
      if open then
        "confirm_broadcast_done"
        :: (if (requester_user_id t =? viewerUserId)%string
            then ["cancel_task"] else [])
      else [] in
    ret (complete ++ edit ++ comment ++ mine ++ ["open_progress_modal"] ++ whole)
  else
    ret (complete ++ edit ++ comment).

(** ** Who hears of a comment *)

(** The recipients [comment_modal] sends its DM to: the mentioned users,
    or else requester and assignee, never the commenter. *)
Definition comment_recipients (mentionUserIds : list string) (actor : string)
  (t : task) : list string :=
  let mentioned :=
    set_add_all []
      (filter (fun uid => truthy uid && negb (uid =? actor)%string) mentionUserIds) in
  match mentioned with
  | [] =>
    let requester := requester_user_id t in
    let r1 :=
      if truthy requester && negb (requester =? actor)%string
      then [requester] else [] in
    match assignee_id t with
    | Some assignee =>
      if negb (eqb_opt (task_type t) "broadcast")
         && truthy assignee && negb (assignee =? actor)%string
      then set_add_all r1 [assignee] else r1
    | None => r1
    end
  | _ => mentioned
  end.

(** ** Completion notices *)

Definition is_completed_dm (ev : event) : bool :=
  match ev with DM KCompleted _ _ _ => true | _ => false end.

Definition completed_dms (w : world) : list event :=
  filter is_completed_dm (w_log w).

(** ** Direct messages in the log *)

Definition is_dm (ev : event) : bool :=
  match ev with DM _ _ _ _ => true | _ => false end.

Definition dms (w : world) : list event := filter is_dm (w_log w).

(** The notices that go with a change of status to [s] of the task [t]. *)
Definition status_notices (s : string) (t : task) : list event :=
  if (s =? "waiting")%string then
    if truthy (requester_user_id t)
    then [DM KWaiting (requester_user_id t) (team_id t) (id t)] else []
  else if (s =? "done")%string then
    map (fun u => DM KCompleted u (team_id t) (id t))
      (uniq (requester_user_id t :: opt_list (assignee_id t)))
  else [].


(** ** Handlers that overlap *)

(** A handler as the sequence of its awaited calls.  [Await m k] runs the
    call [m] and goes on with [k]; between two awaited calls of one handler
    the calls of other handlers may run.  Each awaited call of a handler's
    body that reads or writes the store or sends a message is one step; a
    helper that awaits in turn ([upsertThreadCard]) is taken as one step,
    which only leaves out interleavings. *)
Inductive proc (A : Type) : Type :=
| Finished (a : A)
| Await {X : Type} (m : M X) (k : X -> proc A).
Arguments Finished {A} a.
Arguments Await {A X} m k.

(** The handler runs from its first call to its end with nothing in
    between. *)
Fixpoint finish {A} (p : proc A) (w : world) : A * world :=
  match p with
  | Finished a => (a, w)
  | Await m k => let (x, w') := m w in finish (k x) w'
  end.

(** One awaited call of a handler; a finished handler stays as it is. *)
Definition advance {A} (p : proc A) (w : world) : proc A * world :=
  match p with
  | Finished a => (Finished a, w)
  | Await m k => let (x, w') := m w in (k x, w')
  end.

Definition finished {A} (p : proc A) : bool :=
  match p with Finished _ => true | Await _ _ => false end.

(** Two handlers in flight; the schedule says whose call runs next
    ([true] for the first). *)
Fixpoint interleave {A} (schedule : list bool) (p q : proc A) (w : world)
  : proc A * proc A * world :=
  match schedule with
  | [] => (p, q, w)
  | true :: rest => let (p', w') := advance p w in interleave rest p' q w'
  | false :: rest => let (q', w') := advance q w in interleave rest p q' w'
  end.

Fixpoint await_all {X A} (l : list X) (f : X -> M unit) (k : proc A) : proc A :=
  match l with
  | [] => k
  | x :: r => Await (f x) (fun _ => await_all r f k)
  end.

(** [app.action("complete_task")] by its awaited calls. *)
Definition complete_task_steps (e : env) (teamId taskId actor : string)
  (callback_id : option string) : proc unit :=
  if negb (truthy teamId) || negb (truthy taskId) then Finished tt else
  Await (dbGetTaskById teamId taskId) (fun task =>
  match task with
  | None => Finished tt
  | Some task =>
    if is_broadcast task then
      Await (dbIsUserTarget teamId taskId actor) (fun isTarget =>
      if negb isTarget then
        Await (safeEphemeral (opt_or (channel_id task) actor) actor
                 "🥺 このタスクの対象者じゃないみたい…！")
          (fun _ => Finished tt)
      else
        Await (dbUpsertCompletion teamId taskId actor) (fun _ =>
        let card :=
          if truthy_opt (channel_id task) && truthy_opt (message_ts task) then
            Await (dbGetTaskById teamId taskId) (fun refreshed =>
            match refreshed with
            | None => Finished tt
            | Some refreshed =>
              if not_dm (channel_id refreshed) then
                Await (upsertThreadCard e teamId (opt_or (channel_id refreshed) "")
                         (opt_or (message_ts refreshed) "") None
                         (TaskCard refreshed))
                  (fun _ => Finished tt)
              else Finished tt
            end)
          else Finished tt in
        let counted (total : Z) :=
          Await (dbCountCompletions teamId taskId) (fun doneCount =>
          if (doneCount >=? total) && (total >? 0) then
            Await (dbGetTaskById teamId taskId) (fun fresh =>
            match fresh with
            | None => card
            | Some fresh =>
              let notify :=
                match notified_at fresh with
                | Some _ => card
                | None =>
                  Await (mark_notified_if_null e teamId taskId) (fun _ =>
                  Await (postRequesterConfirmDM teamId taskId
                           (requester_user_id fresh)) (fun _ =>
                  Await (dbListTargetUserIds teamId taskId) (fun _ => card)))
                end in
              if negb (includes ["waiting"; "done"; "cancelled"] (status fresh))
              then Await (dbUpdateStatus e teamId taskId "waiting")
                     (fun _ => notify)
              else notify
            end)
          else card) in
        match total_count task with
        | Some n =>
          if n =? 0 then Await (dbCountTargets teamId taskId) counted
          else counted n
        | None => Await (dbCountTargets teamId taskId) counted
        end))
    else
      Await (dbUpdateStatus e teamId taskId "done") (fun updated =>
      match updated with
      | None => Finished tt
      | Some updated =>
        await_all (uniq (requester_user_id updated :: opt_list (assignee_id updated)))
          (fun uid => notifyTaskSimpleDM KCompleted uid updated)
          (if is_list_detail callback_id then Finished tt
           else Await (refresh_card e teamId updated (DoneCard (title updated)))
                  (fun _ => Finished tt))
      end)
  end).

(** The schedule in which two handlers take turns, [n] calls each. *)
Fixpoint taking_turns (n : nat) : list bool :=
  match n with
  | O => []
  | S k => true :: false :: taking_turns k
  end.

(** The broadcast task of UR with the completion of UA recorded: UB and UC
    are still to complete. *)
Definition world_one_done : world :=
  world0 "in_progress" [mkMember "task-2" "T1" "UA"].

(** ** Slack calls that throw *)

(** [reaction_task_confirm_create] with the calls that can end it early.
    Between the search for an existing task and [dbCreateTask] the handler
    awaits [prettifySlackText], [prettifyUserMentions] and
    [resolveDeptForUser], which call the Slack client outside any try of
    their own; [lookups = false] is one of them throwing.  [card = false]
    is [upsertThreadCard] throwing.  The handler's outer catch turns either
    into its end.  With both [true] this is the handler above. *)
Definition reaction_task_confirm_create_try (lookups card : bool) (e : env)
  (actorUserId today : string) (p : reaction_payload) : M unit :=
  let teamId := rp_teamId p in
  let channelId := rp_channelId p in
  let msgTs := rp_msgTs p in
  let requesterUserId := opt_or (rp_requester p) actorUserId in
  let assigneeId := opt_or (rp_assignee p) actorUserId in
  let dueYmd := opt_or (rp_dueYmd p) today in
  let rawText := rp_messageText p in
  if negb (truthy teamId) || negb (truthy channelId) || negb (truthy msgTs)
     || negb (truthy actorUserId) then ret tt else
  existing <- dbGetTaskBySource teamId channelId msgTs ;;
  if truthy_opt (option_map id existing) then ret tt else
  if negb lookups then ret tt else
  let prettyText := prettify e rawText in
  let title := generateTitleCandidate e (or_str prettyText rawText) in
  let requesterDept := resolveDeptForUser e requesterUserId in
  let assigneeDept := resolveDeptForUser e assigneeId in
  let taskId := uuid_task e in
  let taskType := "personal" in
  let status := "in_progress" in
  let description := or_str prettyText rawText in
  created <- dbCreateTask e
    (mkTask taskId teamId (Some channelId) (Some msgTs)
       (or_null (permalink e)) title description
       requesterUserId actorUserId
       (Some assigneeId) None
       status (Some dueYmd) requesterDept assigneeDept
       (Some taskType) None None None (Some 0) None
       0 0 None None None) ;;
  when (negb (String.prefix "D" channelId))
    (if negb card then ret tt else
     upsertThreadCard e teamId channelId msgTs
       (Some (opt_or (rp_threadTs p) msgTs)) (TaskCard created) ;;; ret tt).

(** A card is due for the task: it was made from a message, not in a DM. *)
Definition card_due (t : task) : bool :=
  truthy_opt (channel_id t) && truthy_opt (message_ts t) && not_dm (channel_id t).

(** [status_select] with the calls that can end it early.  After the
    status is stored the handler awaits [client.views.update] and then
    [upsertThreadCard], both inside the handler's one try and before the
    notices: [views = false] and [card = false] are those calls throwing,
    which ends the handler.  With both [true] this is the handler above. *)
Definition status_select_try (views card : bool) (e : env) (teamId taskId : string)
  (nextStatus : option string) (actor : string) (callback_id : option string)
  : M unit :=
  if negb (truthy teamId) || negb (truthy taskId) || negb (truthy_opt nextStatus)
  then ret tt else
  let nextStatus := opt_or nextStatus "" in
  task <- dbGetTaskById teamId taskId ;;
  match task with
  | None => ret tt
  | Some task =>
    if is_broadcast task then
      safeEphemeral (opt_or (channel_id task) actor) actor
        "🥺 複数タスクのステータスは自動で進むよ（全員完了→確認待ち→依頼者の確認完了）"
    else if negb (requester_user_id task =? actor)%string
            && negb (eqb_opt (assignee_id task) actor) then
      safeEphemeral (opt_or (channel_id task) actor) actor
        "🥺 ステータス変更できるのは依頼者か対応者だけだよ…！"
    else
      updated <- dbUpdateStatus e teamId taskId nextStatus ;;
      match updated with
      | None => ret tt
      | Some updated =>
        if is_list_detail callback_id then ret tt
        else if negb views then ret tt
        else if negb card && card_due updated then ret tt
        else
          refresh_card e teamId updated (TaskCard updated) ;;;
          if (nextStatus =? "waiting")%string then
            postDM KWaiting (requester_user_id updated) updated
          else if (nextStatus =? "done")%string then
            forM (uniq (requester_user_id updated :: opt_list (assignee_id updated)))
              (fun uid => postDM KCompleted uid updated)
          else ret tt
      end
  end.
(** * Properties *)

(** ** Running a monadic program *)

Lemma bind_run {A B} (m : M A) (f : A -> M B) (w : world) :
  bind m f w = f (fst (m w)) (snd (m w)).
Proof. unfold bind. destruct (m w); reflexivity. Qed.

Lemma when_true (m : M unit) : when true m = m.
Proof. reflexivity. Qed.

Lemma when_false (m : M unit) : when false m = ret tt.
Proof. reflexivity. Qed.

(** ** The derived state of a broadcast task *)

(** C5. For every task the label computed by [calcBroadcastStateLabel] is
    the label of the derived state: the terminal status when the status is
    done or cancelled, whatever the counts; otherwise waiting when
    totalCount > 0 and completedCount >= totalCount; otherwise in progress
    when completedCount > 0; otherwise open.  The two terminal labels and
    the waiting label are the ones [statusLabel] gives those statuses. *)
Theorem calcBroadcastStateLabel_derived (t : task) :
  calcBroadcastStateLabel (Some t)
  = state_label (derived_state_spec (status t)
                   (Number_or0 (total_count t)) (Number_or0 (completed_count t)))
  /\ state_label SDone = statusLabel "done"
  /\ state_label SCancelled = statusLabel "cancelled"
  /\ state_label SWaiting = statusLabel "waiting".
Proof.
  split; [| repeat split].
  unfold calcBroadcastStateLabel, derived_state_spec. simpl.
  destruct (String.eqb_spec (status t) "cancelled") as [Hc | Hc].
  - rewrite Hc. reflexivity.
  - destruct (status t =? "done")%string; [reflexivity |].
    set (total := Number_or0 (total_count t)).
    set (done := Number_or0 (completed_count t)).
    replace (total >? 0) with (0 <? total) by (rewrite Z.gtb_ltb; reflexivity).
    replace (done >=? total) with (total <=? done) by (rewrite Z.geb_leb; reflexivity).
    replace (done >? 0) with (0 <? done) by (rewrite Z.gtb_ltb; reflexivity).
    destruct ((0 <? total) && (total <=? done)); [reflexivity |].
    destruct (0 <? done); reflexivity.
Qed.

(** ** Content updates *)

Lemma find_map_upd {A} (k : A -> bool) (f : A -> A) (l : list A) :
  (forall x, k (f x) = k x) ->
  find k (map (fun x => if k x then f x else x) l) = option_map f (find k l).
Proof.
  intros Hk. induction l as [| x l IH]; simpl; [reflexivity |].
  destruct (k x) eqn:E.
  - rewrite Hk, E. reflexivity.
  - rewrite E. exact IH.
Qed.

Lemma update_task_run teamId taskId f w :
  update_task teamId taskId f w
  = (option_map f (find (task_key teamId taskId) (tasks (w_db w))),
     mkWorld (set_tasks (map (fun t => if task_key teamId taskId t then f t else t))
                (w_db w)) (w_log w)).
Proof. reflexivity. Qed.

Lemma update_task_stored teamId taskId f w :
  (forall t, task_key teamId taskId (f t) = task_key teamId taskId t) ->
  fst (dbGetTaskById teamId taskId (snd (update_task teamId taskId f w)))
  = fst (update_task teamId taskId f w).
Proof.
  intros Hk. rewrite update_task_run. simpl. apply find_map_upd. exact Hk.
Qed.

(** C9 (as amended). [dbUpdateTaskContent] always overwrites the due date
    with what the patch carries: a date is stored, and both an explicit
    null and an omitted due date clear it.  Assignee, assignee department
    and description are first-non-null-wins: a null or omitted value leaves
    the stored one.  The row returned is the row stored. *)
Theorem dbUpdateTaskContent_fields (e : env) (teamId taskId : string)
  (p : patch) (w : world) (t : task) :
  fst (dbGetTaskById teamId taskId w) = Some t ->
  exists u,
    fst (dbUpdateTaskContent e teamId taskId p w) = Some u
    /\ fst (dbGetTaskById teamId taskId
              (snd (dbUpdateTaskContent e teamId taskId p w))) = Some u
    /\ due_date u = match p_due_date p with
                    | Val d => Some d
                    | Null | Undefined => None
                    end
    /\ assignee_id u = first_non_null (p_assignee_id p) (assignee_id t)
    /\ assignee_dept u = first_non_null (p_assignee_dept p) (assignee_dept t)
    /\ Some (description u)
       = first_non_null (p_description p) (Some (description t))
    /\ status u = status t.
Proof.
  intros Hget. exists (with_content e p t).
  unfold dbUpdateTaskContent.
  rewrite update_task_stored by reflexivity.
  rewrite update_task_run. simpl in *. rewrite Hget. simpl.
  split; [reflexivity |]. split; [reflexivity |].
  unfold first_non_null, COALESCE, nullish_null.
  destruct (p_due_date p), (p_assignee_id p), (p_assignee_dept p),
    (p_description p); repeat split.
Qed.

(** C9 (counterexample). A patch that omits the due date does not leave
    the stored due date: the date 2026-04-25 is cleared. *)
Lemma dbUpdateTaskContent_omitted_due_cleared :
  let p := mkPatch Undefined Undefined Undefined Undefined in
  let w := world0 "in_progress" [] in
  let w' := snd (dbUpdateTaskContent env0 "T1" "task-1" p w) in
  option_map due_date (fst (dbGetTaskById "T1" "task-1" w))
    = Some (Some "2026-04-25")
  /\ option_map due_date (fst (dbGetTaskById "T1" "task-1" w')) = Some None
  /\ option_map due_date (fst (dbGetTaskById "T1" "task-1" w'))
     <> option_map due_date (fst (dbGetTaskById "T1" "task-1" w)).
Proof. vm_compute. repeat split; discriminate. Qed.

(** Clearing the due date of the personal task with an explicit null. *)
Lemma dbUpdateTaskContent_fields_witness :
  fst (dbGetTaskById "T1" "task-1" (world0 "in_progress" [])) = Some personal0
  /\ exists u,
    fst (dbUpdateTaskContent env0 "T1" "task-1"
           (mkPatch Undefined Undefined Null Undefined)
           (world0 "in_progress" [])) = Some u
    /\ fst (dbGetTaskById "T1" "task-1"
              (snd (dbUpdateTaskContent env0 "T1" "task-1"
                      (mkPatch Undefined Undefined Null Undefined)
                      (world0 "in_progress" [])))) = Some u
    /\ due_date u = None
    /\ assignee_id u = Some "UX"
    /\ assignee_dept u = None
    /\ Some (description u) = Some "spec review"
    /\ status u = "waiting".
Proof.
  split; [reflexivity |].
  apply (dbUpdateTaskContent_fields env0 "T1" "task-1"
           (mkPatch Undefined Undefined Null Undefined)
           (world0 "in_progress" []) personal0).
  reflexivity.
Defined.

(** ** Frame rules *)

Section FrameRules.
Context {X : Type} (proj : world -> X).

Lemma keeps_ret {A} (a : A) : keeps proj (ret a).
Proof. intros w. reflexivity. Qed.

Lemma keeps_bind {A B} (m : M A) (f : A -> M B) :
  keeps proj m -> (forall a, keeps proj (f a)) -> keeps proj (bind m f).
Proof.
  intros Hm Hf w. rewrite bind_run. rewrite Hf. apply Hm.
Qed.

Lemma keeps_query {A} (f : db -> A) : keeps proj (query f).
Proof. intros w. reflexivity. Qed.

Lemma keeps_when (b : bool) (m : M unit) : keeps proj m -> keeps proj (when b m).
Proof. intros Hm. destruct b; [exact Hm | apply keeps_ret]. Qed.

Lemma keeps_forM {Y} (l : list Y) (f : Y -> M unit) :
  (forall y, keeps proj (f y)) -> keeps proj (forM l f).
Proof.
  intros Hf. induction l as [| y l IH]; simpl.
  - apply keeps_ret.
  - apply keeps_bind; [apply Hf | intros _; exact IH].
Qed.
End FrameRules.

Section InvariantRules.
Context (I : world -> Prop).

Lemma preserves_ret {A} (a : A) : preserves I (ret a).
Proof. intros w H. exact H. Qed.

Lemma preserves_bind {A B} (m : M A) (f : A -> M B) :
  preserves I m -> (forall a, preserves I (f a)) -> preserves I (bind m f).
Proof.
  intros Hm Hf w H. rewrite bind_run. apply Hf, Hm, H.
Qed.

Lemma preserves_query {A} (f : db -> A) : preserves I (query f).
Proof. intros w H. exact H. Qed.

Lemma preserves_when (b : bool) (m : M unit) :
  preserves I m -> preserves I (when b m).
Proof. intros Hm. destruct b; [exact Hm | apply preserves_ret]. Qed.

Lemma preserves_forM {Y} (l : list Y) (f : Y -> M unit) :
  (forall y, preserves I (f y)) -> preserves I (forM l f).
Proof.
  intros Hf. induction l as [| y l IH]; simpl.
  - apply preserves_ret.
  - apply preserves_bind; [apply Hf | intros _; exact IH].
Qed.
End InvariantRules.

(** Decompose a program along its control structure; what is left are the
    statements that write the projection or touch the invariant. *)
Ltac frame_step :=
  lazymatch goal with
  | |- keeps _ (ret _) => apply keeps_ret
  | |- keeps _ (bind _ _) => apply keeps_bind; [| intros ?]
  | |- keeps _ (when _ _) => apply keeps_when
  | |- keeps _ (forM _ _) => apply keeps_forM; intros ?
  | |- keeps _ (query _) => apply keeps_query
  | |- keeps _ (match ?x with _ => _ end) => destruct x
  | |- preserves _ (ret _) => apply preserves_ret
  | |- preserves _ (bind _ _) => apply preserves_bind; [| intros ?]
  | |- preserves _ (when _ _) => apply preserves_when
  | |- preserves _ (forM _ _) => apply preserves_forM; intros ?
  | |- preserves _ (query _) => apply preserves_query
  | |- preserves _ (match ?x with _ => _ end) => destruct x
  end.

Ltac frame := repeat (cbv zeta; frame_step).

Ltac unfold_handlers :=
  unfold task_modal, task_modal_create, reaction_added, reaction_task_confirm_create,
    complete_task, confirm_broadcast_done, cancel_task, status_select,
    edit_task_modal, runDueNotifyJob.

Lemma preserves_keeps {X A} (proj : world -> X) (P : X -> Prop) (m : M A) :
  keeps proj m -> preserves (fun w => P (proj w)) m.
Proof. intros Hk w H. rewrite Hk. exact H. Qed.

(** ** Thread cards *)

Lemma card_key_eq teamId channelId parentTs c :
  card_key teamId channelId parentTs c = true
  <-> tc_team_id c = teamId /\ tc_channel_id c = channelId
      /\ tc_parent_ts c = parentTs.
Proof.
  unfold card_key. rewrite !andb_true_iff, !String.eqb_eq. tauto.
Qed.

Lemma find_none_filter {A} (k : A -> bool) (l : list A) :
  find k l = None -> filter k l = [].
Proof.
  induction l as [| x l IH]; simpl; [reflexivity |].
  destruct (k x); [discriminate | exact IH].
Qed.

Lemma filter_map_upd {A} (k k' : A -> bool) (f : A -> A) (l : list A) :
  (forall x, k' (f x) = k' x) ->
  filter k' (map (fun x => if k x then f x else x) l)
  = map (fun x => if k x then f x else x) (filter k' l).
Proof.
  intros Hk. induction l as [| x l IH]; simpl; [reflexivity |].
  replace (k' (if k x then f x else x)) with (k' x)
    by (destruct (k x); [rewrite Hk |]; reflexivity).
  destruct (k' x); simpl; rewrite IH; reflexivity.
Qed.

Lemma dbUpsertThreadCard_unique e teamId channelId parentTs cardTs :
  preserves (fun w => cards_unique (cards_of w))
    (dbUpsertThreadCard e teamId channelId parentTs cardTs).
Proof.
  intros w H. unfold dbUpsertThreadCard, dbGetThreadCard.
  rewrite bind_run. simpl.
  destruct (find (card_key teamId channelId parentTs) (thread_cards (w_db w)))
    as [c0 |] eqn:Hfind; simpl; intros t' c' p'.
  - unfold cards_of; simpl. rewrite filter_map_upd by reflexivity.
    rewrite length_map. apply H.
  - unfold cards_of; simpl. rewrite filter_app, length_app. simpl.
    destruct (card_key t' c' p' _) eqn:Hk; simpl.
    + apply card_key_eq in Hk. simpl in Hk. destruct Hk as (-> & -> & ->).
      rewrite (find_none_filter _ _ Hfind). simpl. lia.
    + specialize (H t' c' p'). unfold cards_of in H. lia.
Qed.

Ltac cards_leaf :=
  first [ apply dbUpsertThreadCard_unique
        | apply (preserves_keeps cards_of cards_unique); intros ?; reflexivity ].

Lemma upsertThreadCard_unique e teamId channelId parentTs threadTs b :
  preserves (fun w => cards_unique (cards_of w))
    (upsertThreadCard e teamId channelId parentTs threadTs b).
Proof.
  unfold upsertThreadCard, dbGetThreadCard. frame; cards_leaf.
Qed.

Ltac unfold_store :=
  unfold dbGetTaskById, dbGetTaskBySource, dbUpdateStatus, dbUpdateTaskContent,
    dbCancelTask, dbUpdateBroadcastCounts, dbCreateTask, update_task,
    mark_notified_if_null,
    dbInsertTaskTargets, dbIsUserTarget, dbUpsertCompletion,
    dbCountTargets, dbCountCompletions, dbListTargetUserIds, dbGetThreadCard.

Ltac unfold_messages :=
  unfold safeEphemeral, notifyTaskSimpleDM, postDM, postRequesterConfirmDM.

Lemma dispatch_cards_unique e r :
  preserves (fun w => cards_unique (cards_of w)) (dispatch e r).
Proof.
  destruct r; unfold dispatch; unfold_handlers; unfold refresh_card;
    unfold_store; unfold_messages;
    frame; first [ apply upsertThreadCard_unique | cards_leaf ].
Qed.

Lemma run_cards_unique rs :
  forall w, cards_unique (cards_of w) -> cards_unique (cards_of (run rs w)).
Proof.
  induction rs as [| [e r] rs IH]; simpl; intros w H; [exact H |].
  apply IH, dispatch_cards_unique, H.
Qed.

Lemma upsertThreadCard_edit e teamId channelId parentTs threadTs b w c :
  find (card_key teamId channelId parentTs) (cards_of w) = Some c ->
  truthy (tc_card_ts c) = true ->
  upsertThreadCard e teamId channelId parentTs threadTs b w
  = (Some (tc_card_ts c),
     mkWorld (w_db w) (w_log w ++ [ChatUpdate channelId (tc_card_ts c) b])).
Proof.
  intros Hfind Hts. unfold upsertThreadCard, dbGetThreadCard.
  rewrite bind_run. unfold query. simpl.
  unfold cards_of in Hfind. rewrite !Hfind. simpl. rewrite Hts.
  rewrite bind_run. unfold or_str. rewrite Hts. reflexivity.
Qed.

Lemma upsertThreadCard_post e teamId channelId parentTs threadTs b w ts :
  find (card_key teamId channelId parentTs) (cards_of w) = None ->
  post_ts e = Some ts -> truthy ts = true ->
  upsertThreadCard e teamId channelId parentTs threadTs b w
  = (Some ts,
     mkWorld (set_cards (fun l =>
                l ++ [mkCard (uuid_card e) teamId channelId parentTs ts (now e)])
                (w_db w))
       (w_log w ++ [ChatPostMessage channelId (opt_or threadTs parentTs) b])).
Proof.
  intros Hfind Hpost Hts. unfold upsertThreadCard, dbGetThreadCard.
  rewrite bind_run. unfold query. simpl.
  unfold cards_of in Hfind. rewrite !Hfind. simpl.
  rewrite !bind_run. rewrite Hpost. simpl. rewrite Hts. simpl.
  unfold dbUpsertThreadCard, dbGetThreadCard. rewrite bind_run. simpl.
  rewrite Hfind. unfold or_str. rewrite Hts. reflexivity.
Qed.

Lemma refresh_n_edits teamId channelId parentTs rest : forall w c,
  find (card_key teamId channelId parentTs) (cards_of w) = Some c ->
  truthy (tc_card_ts c) = true ->
  let w' := refresh_n teamId channelId parentTs rest w in
  w_db w' = w_db w
  /\ w_log w' = w_log w
       ++ map (fun r => ChatUpdate channelId (tc_card_ts c) (snd r)) rest.
Proof.
  induction rest as [| [[e th] b] rest IH]; intros w c Hfind Hts; simpl.
  - rewrite app_nil_r. split; reflexivity.
  - rewrite (upsertThreadCard_edit e _ _ _ th b w c Hfind Hts). simpl.
    destruct (IH (mkWorld (w_db w) (w_log w ++ [ChatUpdate channelId (tc_card_ts c) b]))
                c Hfind Hts) as [Hdb Hlog].
    simpl in Hdb, Hlog. rewrite Hdb, Hlog, <- app_assoc. split; reflexivity.
Qed.

Lemma find_app_none {A} (k : A -> bool) (l : list A) (x : A) :
  find k l = None -> k x = true -> find k (l ++ [x]) = Some x.
Proof.
  induction l as [| y l IH]; simpl; intros Hn Hx.
  - rewrite Hx. reflexivity.
  - destruct (k y); [discriminate | apply IH; assumption].
Qed.

Lemma card_key_refl teamId channelId parentTs i ts u :
  card_key teamId channelId parentTs (mkCard i teamId channelId parentTs ts u) = true.
Proof. apply card_key_eq. simpl. repeat split. Qed.

(** C4. Running the refresh protocol N >= 1 times for a key that has no
    [thread_cards] row (Slack answering the post with a message timestamp)
    posts one card message, on the first run, and edits that same message
    on each of the N - 1 later runs; afterwards the key has exactly the row
    written by the first run.  And whatever handlers run, from the empty
    store, no key ever has more than one row. *)
Theorem upsertThreadCard_idempotent (teamId channelId parentTs : string)
  (e1 : env) (th1 : option string) (b1 : blocks) (ts1 : string)
  (rest : list (env * option string * blocks)) (w : world) :
  find (card_key teamId channelId parentTs) (cards_of w) = None ->
  post_ts e1 = Some ts1 ->
  truthy ts1 = true ->
  let w' := refresh_n teamId channelId parentTs ((e1, th1, b1) :: rest) w in
  w_log w' = w_log w
      ++ ChatPostMessage channelId (opt_or th1 parentTs) b1
         :: map (fun r => ChatUpdate channelId ts1 (snd r)) rest
  /\ filter (card_key teamId channelId parentTs) (cards_of w')
     = [mkCard (uuid_card e1) teamId channelId parentTs ts1 (now e1)]
  /\ forall rs, cards_unique (cards_of (run rs initial)).
Proof.
  intros Hnone Hpost Hts. simpl.
  rewrite (upsertThreadCard_post e1 _ _ _ th1 b1 w ts1 Hnone Hpost Hts). simpl.
  set (c := mkCard (uuid_card e1) teamId channelId parentTs ts1 (now e1)).
  set (w1 := mkWorld _ _).
  assert (Hfind : find (card_key teamId channelId parentTs) (cards_of w1) = Some c).
  { unfold w1, cards_of. simpl. apply find_app_none; [exact Hnone |].
    apply card_key_refl. }
  destruct (refresh_n_edits teamId channelId parentTs rest w1 c Hfind Hts)
    as [Hdb Hlog].
  split; [| split].
  - rewrite Hlog. unfold w1. simpl. rewrite <- app_assoc. reflexivity.
  - unfold cards_of. rewrite Hdb. unfold w1. simpl.
    rewrite filter_app. unfold cards_of in Hnone.
    rewrite (find_none_filter _ _ Hnone). simpl.
    unfold c. rewrite card_key_refl. reflexivity.
  - intros rs. apply run_cards_unique. intros t c' p. simpl. lia.
Qed.

(** Three refreshes for the message of the personal task: one post, two
    edits of the posted message, one row. *)
Lemma upsertThreadCard_idempotent_witness :
  let rs := [(env0, None, CancelledCard "spec review");
             (env0, None, DoneCard "spec review")] in
  let w' := refresh_n "T1" "C1" "1600.0001"
              ((env0, None, TaskCard personal0) :: rs) (world0 "open" []) in
  find (card_key "T1" "C1" "1600.0001") (cards_of (world0 "open" [])) = None
  /\ w_log w' = [ChatPostMessage "C1" "1600.0001" (TaskCard personal0);
                 ChatUpdate "C1" "1700.0001" (CancelledCard "spec review");
                 ChatUpdate "C1" "1700.0001" (DoneCard "spec review")]
  /\ filter (card_key "T1" "C1" "1600.0001") (cards_of w')
     = [mkCard "card-1" "T1" "C1" "1600.0001" "1700.0001" 100].
Proof.
  split; [reflexivity |].
  destruct (upsertThreadCard_idempotent "T1" "C1" "1600.0001" env0 None
              (TaskCard personal0) "1700.0001"
              [(env0, None, CancelledCard "spec review");
               (env0, None, DoneCard "spec review")]
              (world0 "open" []) eq_refl eq_refl eq_refl) as (Hlog & Hrow & _).
  split; [exact Hlog | exact Hrow].
Defined.

(** ** What the message and card helpers leave alone *)

Ltac keeps_leaf := solve [intros ?; reflexivity].

Lemma upsertThreadCard_keeps_tasks e teamId channelId parentTs threadTs b :
  keeps tasks_of (upsertThreadCard e teamId channelId parentTs threadTs b).
Proof.
  unfold upsertThreadCard, dbUpsertThreadCard, dbGetThreadCard. frame; keeps_leaf.
Qed.

Lemma upsertThreadCard_keeps_targets e teamId channelId parentTs threadTs b :
  keeps targets_of (upsertThreadCard e teamId channelId parentTs threadTs b).
Proof.
  unfold upsertThreadCard, dbUpsertThreadCard, dbGetThreadCard. frame; keeps_leaf.
Qed.

Lemma refresh_card_keeps_tasks e teamId t b :
  keeps tasks_of (refresh_card e teamId t b).
Proof.
  unfold refresh_card. frame. apply upsertThreadCard_keeps_tasks.
Qed.

Lemma keeps_update_column {X} (g : task -> X) teamId taskId f :
  (forall t, g (f t) = g t) ->
  keeps (fun w => map g (tasks_of w)) (update_task teamId taskId f).
Proof.
  intros Hg w. rewrite update_task_run. unfold tasks_of. simpl.
  rewrite map_map. apply map_ext. intros t.
  destruct (task_key teamId taskId t); [apply Hg | reflexivity].
Qed.

Lemma keeps_column_of_tasks {X A} (g : task -> X) (m : M A) :
  keeps tasks_of m -> keeps (fun w => map g (tasks_of w)) m.
Proof. intros H w. rewrite H. reflexivity. Qed.

(** ** Confirming a broadcast task *)

Lemma getTask_run teamId taskId w :
  dbGetTaskById teamId taskId w = (find (task_key teamId taskId) (tasks (w_db w)), w).
Proof. reflexivity. Qed.

Lemma getTask_find teamId taskId w :
  fst (dbGetTaskById teamId taskId w) = find (task_key teamId taskId) (tasks_of w).
Proof. reflexivity. Qed.

Lemma confirm_tail_keeps_tasks e teamId taskId src (updated : option task) :
  keeps tasks_of
    (match updated with
     | None => ret tt
     | Some updated =>
       targets <- dbListTargetUserIds teamId taskId ;;
       forM (uniq (requester_user_id updated :: targets))
         (fun uid => notifyTaskSimpleDM KCompleted uid updated) ;;;
       refresh_card e teamId updated (TaskCard updated) ;;;
       match src with
       | Some (ch, ts) =>
         when (truthy ch && truthy ts)
           (emit (ChatUpdate ch ts (ConfirmedNote (title updated))))
       | None => ret tt
       end
     end).
Proof.
  unfold_store; unfold_messages. frame;
    first [apply refresh_card_keeps_tasks | keeps_leaf].
Qed.

Lemma confirm_broadcast_done_conflict e teamId taskId actor src w t :
  truthy teamId = true ->
  truthy taskId = true ->
  fst (dbGetTaskById teamId taskId w) = Some t ->
  is_broadcast t = true ->
  includes ["done"; "cancelled"] (status t) = true ->
  let w' := snd (confirm_broadcast_done e teamId taskId actor src w) in
  w_db w' = w_db w
  /\ w_log w' = w_log w
       ++ [Ephemeral (opt_or (channel_id t) actor) actor
             "もう完了（または取り下げ）になってるよ！"].
Proof.
  intros Hteam Htask Hget Hb Hst. rewrite getTask_find in Hget.
  unfold tasks_of in Hget.
  unfold confirm_broadcast_done. rewrite Hteam, Htask. cbn [negb orb].
  rewrite !(bind_run (dbGetTaskById teamId taskId)), !(getTask_run _ _ w).
  cbn [fst snd]. rewrite Hget, Hb. cbn [negb].
  assert (Hincl : includes ["done"; "cancelled"] (status t)
                  = ((status t =? "done") || (status t =? "cancelled"))%string).
  { unfold includes. simpl. rewrite orb_false_r. reflexivity. }
  rewrite <- Hincl, Hst. split; reflexivity.
Qed.

(** C3. [confirm_broadcast_done] asks nothing about who presses the button:
    for every actor, a broadcast task that is neither done nor cancelled is
    stored as done.  On a broadcast task that is already done or cancelled
    the store is left as it is and the actor is told so; a task that is not
    a broadcast task is never changed. *)
Theorem confirm_broadcast_done_any_user (e : env) (teamId taskId actor : string)
  (src : option (string * string)) (w : world) (t : task) :
  truthy teamId = true ->
  truthy taskId = true ->
  fst (dbGetTaskById teamId taskId w) = Some t ->
  let w' := snd (confirm_broadcast_done e teamId taskId actor src w) in
  (is_broadcast t = true ->
   includes ["done"; "cancelled"] (status t) = false ->
   exists t', fst (dbGetTaskById teamId taskId w') = Some t'
              /\ status t' = "done"
              /\ completed_at t' = Some (now e))
  /\ (is_broadcast t = true ->
      includes ["done"; "cancelled"] (status t) = true ->
      w_db w' = w_db w
      /\ w_log w' = w_log w
           ++ [Ephemeral (opt_or (channel_id t) actor) actor
                 "もう完了（または取り下げ）になってるよ！"])
  /\ (is_broadcast t = false -> w' = w).
Proof.
  intros Hteam Htask Hget w'. split; [| split].
  - intros Hb Hst. subst w'. rewrite getTask_find in Hget. unfold tasks_of in Hget.
    unfold confirm_broadcast_done. rewrite Hteam, Htask. cbn [negb orb].
    rewrite !(bind_run (dbGetTaskById teamId taskId)), !(getTask_run _ _ w).
    cbn [fst snd]. rewrite Hget, Hb. cbn [negb].
    assert (Hincl : includes ["done"; "cancelled"] (status t)
                    = ((status t =? "done") || (status t =? "cancelled"))%string).
    { unfold includes. simpl. rewrite orb_false_r. reflexivity. }
    rewrite <- Hincl, Hst. rewrite bind_run.
    exists (with_status e "done" t). split; [| split; reflexivity].
    rewrite getTask_find, confirm_tail_keeps_tasks.
    unfold dbUpdateStatus. rewrite update_task_run. unfold tasks_of. simpl.
    rewrite find_map_upd by reflexivity. rewrite Hget. reflexivity.
  - intros Hb Hst.
    apply (confirm_broadcast_done_conflict e teamId taskId actor src w t);
      assumption.
  - intros Hb. subst w'. rewrite getTask_find in Hget. unfold tasks_of in Hget.
    unfold confirm_broadcast_done. rewrite Hteam, Htask. cbn [negb orb].
    rewrite bind_run, getTask_run. cbn [fst snd]. rewrite Hget, Hb. reflexivity.
Qed.

(** A user who is neither requester nor target confirms the broadcast task. *)
Lemma confirm_broadcast_done_any_user_witness :
  let w := world0 "in_progress" [] in
  let w' := snd (confirm_broadcast_done env0 "T1" "task-2" "UZ" None w) in
  fst (dbGetTaskById "T1" "task-2" w) = Some (broadcast0 "in_progress")
  /\ exists t', fst (dbGetTaskById "T1" "task-2" w') = Some t'
                /\ status t' = "done"
                /\ completed_at t' = Some 100.
Proof.
  split; [reflexivity |].
  exact (proj1 (confirm_broadcast_done_any_user env0 "T1" "task-2" "UZ" None
                  (world0 "in_progress" []) (broadcast0 "in_progress")
                  eq_refl eq_refl eq_refl) eq_refl eq_refl).
Defined.

(** ** Creation *)

Ltac status_leaf :=
  first [ apply keeps_update_column; reflexivity
        | apply keeps_column_of_tasks; apply upsertThreadCard_keeps_tasks
        | keeps_leaf ].

Lemma task_modal_create_statuses e actor i w :
  fst (task_modal_create e actor i w) = AckOk
  /\ map status (tasks_of (snd (task_modal_create e actor i w)))
     = map status (tasks_of w) ++ ["in_progress"].
Proof.
  unfold task_modal_create. cbv zeta.
  rewrite bind_run. cbv beta.
  set (created := fst (dbCreateTask e _ w)).
  set (w1 := snd (dbCreateTask e _ w)).
  assert (H1 : map status (tasks_of w1) = map status (tasks_of w) ++ ["in_progress"]).
  { unfold w1, dbCreateTask, tasks_of. rewrite bind_run. simpl.
    rewrite map_app. reflexivity. }
  rewrite <- H1. clearbody created w1. clear H1.
  split.
  - repeat (rewrite bind_run; cbv beta). reflexivity.
  - revert w1.
    match goal with
    | |- forall w1, _ (_ (snd (?m w1))) = _ =>
      change (keeps (fun w => map status (tasks_of w)) m)
    end.
    unfold dbInsertTaskTargets, dbCountTargets, dbUpdateBroadcastCounts.
    unfold_messages. frame; status_leaf.
Qed.

Lemma reaction_create_statuses e actor today p w :
  let w' := snd (reaction_task_confirm_create e actor today p w) in
  map status (tasks_of w') = map status (tasks_of w)
  \/ map status (tasks_of w') = map status (tasks_of w) ++ ["in_progress"].
Proof.
  unfold reaction_task_confirm_create. cbv zeta.
  destruct (negb (truthy (rp_teamId p)) || _ || _ || _); [left; reflexivity |].
  rewrite bind_run. cbv beta.
  rewrite (surjective_pairing (dbGetTaskBySource _ _ _ w)).
  change (snd (dbGetTaskBySource (rp_teamId p) (rp_channelId p) (rp_msgTs p) w))
    with w.
  cbn [fst snd].
  destruct (truthy_opt _); [left; reflexivity |].
  right. rewrite bind_run. cbv beta.
  set (created := fst (dbCreateTask e _ w)).
  set (w1 := snd (dbCreateTask e _ w)).
  assert (H1 : map status (tasks_of w1) = map status (tasks_of w) ++ ["in_progress"]).
  { unfold w1, dbCreateTask, tasks_of. rewrite bind_run. simpl.
    rewrite map_app. reflexivity. }
  rewrite <- H1. clearbody created w1. clear H1.
  revert w1.
  match goal with
  | |- forall w1, _ (_ (snd (?m w1))) = _ =>
    change (keeps (fun w => map status (tasks_of w)) m)
  end.
  frame; status_leaf.
Qed.

(** C10. Both creation paths store the new task with status in_progress:
    an accepted creation modal adds exactly one row to [tasks], its status
    is in_progress whatever the modal's status choice and whatever the task
    type, and no other row's status changes; a rejected modal adds nothing.
    The reaction shortcut adds nothing or one in_progress row.  So no row
    is created with status open. *)
Theorem created_in_progress (e : env) (actor today : string) (i : modal_input)
  (p : reaction_payload) (w : world) :
  let r := task_modal e actor i w in
  let w2 := snd (reaction_task_confirm_create e actor today p w) in
  map status (tasks_of (snd r))
  = map status (tasks_of w)
      ++ match fst r with AckOk => ["in_progress"] | _ => [] end
  /\ (map status (tasks_of w2) = map status (tasks_of w)
      \/ map status (tasks_of w2) = map status (tasks_of w) ++ ["in_progress"])
  /\ "in_progress" <> "open".
Proof.
  split; [| split; [apply reaction_create_statuses | discriminate]].
  unfold task_modal.
  destruct (mi_selected_users i), (selected_groups i);
    try (destruct (task_modal_create_statuses e actor i w) as [-> ->]; reflexivity).
  simpl. rewrite app_nil_r. reflexivity.
Qed.

(** *** The resolved target set *)

Lemma existsb_eqb_In (x : string) (l : list string) :
  existsb (String.eqb x) l = true <-> In x l.
Proof.
  rewrite existsb_exists. split.
  - intros (y & Hy & E). apply String.eqb_eq in E. subst. exact Hy.
  - intros H. exists x. split; [exact H | apply String.eqb_refl].
Qed.

Lemma set_add_all_In (l : list string) : forall acc x,
  In x (set_add_all acc l) <-> In x acc \/ In x l.
Proof.
  induction l as [| y l IH]; intros acc x; simpl.
  - tauto.
  - rewrite IH. destruct (existsb (String.eqb y) acc) eqn:E.
    + apply existsb_eqb_In in E. split; [tauto |].
      intros [H | [-> | H]]; tauto.
    + rewrite in_app_iff. simpl. tauto.
Qed.

Lemma set_add_all_NoDup (l : list string) : forall acc,
  NoDup acc -> NoDup (set_add_all acc l).
Proof.
  induction l as [| y l IH]; intros acc H; simpl; [exact H |].
  apply IH. destruct (existsb (String.eqb y) acc) eqn:E; [exact H |].
  assert (Hn : ~ In y acc).
  { intros Hin. apply existsb_eqb_In in Hin. congruence. }
  clear E. induction acc as [| a acc IHa]; simpl.
  - constructor; [intros [] | constructor].
  - inversion H as [| ? ? Ha Hacc]; subst. constructor.
    + rewrite in_app_iff. simpl. intros [Hin | [E | []]]; [tauto |].
      subst. apply Hn. left. reflexivity.
    + apply IHa; [exact Hacc | intros Hin; apply Hn; right; exact Hin].
Qed.

Lemma expand_groups_In e (gids : list string) : forall users handles u,
  In u (fst (expand_groups e gids users handles))
  <-> In u users
      \/ exists g us, In g gids /\ group_members e g = Some us /\ In u us.
Proof.
  induction gids as [| g gids IH]; intros users handles u; simpl.
  - split; [tauto | intros [H | (g & us & [] & _)]; exact H].
  - rewrite IH. destruct (group_members e g) as [us |] eqn:Eg.
    + rewrite set_add_all_In. split.
      * intros [[H | H] | (g' & us' & Hg & Hm & Hu)].
        -- left; exact H.
        -- right. exists g, us. tauto.
        -- right. exists g', us'. tauto.
      * intros [H | (g' & us' & [-> | Hg] & Hm & Hu)].
        -- tauto.
        -- rewrite Eg in Hm. injection Hm as <-. tauto.
        -- right. exists g', us'. tauto.
    + split.
      * intros [H | (g' & us' & Hg & Hm & Hu)]; [tauto |].
        right. exists g', us'. tauto.
      * intros [H | (g' & us' & [-> | Hg] & Hm & Hu)]; [tauto | congruence |].
        right. exists g', us'. tauto.
Qed.

Lemma resolved_targets_set e i :
  NoDup (resolved_targets e i)
  /\ forall u, In u (resolved_targets e i)
       <-> In u (mi_selected_users i)
           \/ exists g us, In g (selected_groups i)
                           /\ group_members e g = Some us /\ In u us.
Proof.
  unfold resolved_targets, expandTargetsFromGroups. split.
  - apply set_add_all_NoDup, set_add_all_NoDup. constructor.
  - intros u. rewrite !set_add_all_In, expand_groups_In. simpl. tauto.
Qed.

(** *** The target rows of a new broadcast task *)

Lemma member_of_eq teamId taskId r :
  member_of teamId taskId r = true <-> m_team_id r = teamId /\ m_task_id r = taskId.
Proof. unfold member_of. rewrite andb_true_iff, !String.eqb_eq. tauto. Qed.

Lemma member_key_eq taskId userId r :
  member_key taskId userId r = true <-> m_task_id r = taskId /\ m_user_id r = userId.
Proof. unfold member_key. rewrite andb_true_iff, !String.eqb_eq. tauto. Qed.

Lemma insert_members_fresh teamId taskId (us : list string) : forall l0 done,
  (forall r, In r l0 -> m_task_id r <> taskId) ->
  NoDup (done ++ us) ->
  fold_left (fun acc uid => insert_member teamId taskId uid acc) us
    (l0 ++ map (mkMember taskId teamId) done)
  = l0 ++ map (mkMember taskId teamId) (done ++ us).
Proof.
  induction us as [| u us IH]; intros l0 done Hl0 Hnd; simpl.
  - rewrite app_nil_r. reflexivity.
  - assert (Hex : existsb (member_key taskId u)
                    (l0 ++ map (mkMember taskId teamId) done) = false).
    { apply not_true_is_false. intros Hex. apply existsb_exists in Hex.
      destruct Hex as (r & Hin & Hk). apply member_key_eq in Hk.
      destruct Hk as [Ht Hu]. apply in_app_or in Hin. destruct Hin as [Hin | Hin].
      - exact (Hl0 r Hin Ht).
      - apply in_map_iff in Hin. destruct Hin as (x & <- & Hx). simpl in Hu. subst x.
        apply NoDup_remove_2 in Hnd. apply Hnd. apply in_or_app. left. exact Hx. }
    unfold insert_member at 2. rewrite Hex.
    rewrite <- app_assoc.
    change [mkMember taskId teamId u] with (map (mkMember taskId teamId) [u]).
    rewrite <- map_app.
    rewrite IH; [| exact Hl0 |].
    + rewrite <- app_assoc. reflexivity.
    + rewrite <- app_assoc. exact Hnd.
Qed.

Lemma count_inserted_members teamId taskId (us : list string) (l0 : list member_row) :
  (forall r, In r l0 -> m_task_id r <> taskId) ->
  NoDup us ->
  count_members teamId taskId
    (fold_left (fun acc uid => insert_member teamId taskId uid acc) us l0)
  = Z.of_nat (length us).
Proof.
  intros Hl0 Hnd.
  pose proof (insert_members_fresh teamId taskId us l0 [] Hl0 Hnd) as H.
  simpl in H. rewrite app_nil_r in H. rewrite H.
  unfold count_members. rewrite filter_app, length_app. f_equal.
  replace (filter (member_of teamId taskId) l0) with (@nil member_row).
  - simpl. clear. induction us as [| u us IH]; simpl; [reflexivity |].
    unfold member_of at 1. simpl. rewrite !String.eqb_refl. simpl.
    rewrite IH. reflexivity.
  - symmetry. clear H. induction l0 as [| r l0 IH]; simpl; [reflexivity |].
    destruct (member_of teamId taskId r) eqn:E.
    + apply member_of_eq in E. destruct E as [_ E].
      exfalso. apply (Hl0 r); [left; reflexivity | exact E].
    + apply IH. intros r' Hr'. apply Hl0. right. exact Hr'.
Qed.

Lemma bind_tail {X A B} (proj : world -> X) (m : M A) (f : A -> M B) (w : world) :
  (forall a, keeps proj (f a)) -> proj (snd (bind m f w)) = proj (snd (m w)).
Proof. intros H. rewrite bind_run. apply H. Qed.

Lemma dbCreateTask_run e t w :
  dbCreateTask e t w
  = (inserted_row e t,
     mkWorld (set_tasks (fun l => l ++ [inserted_row e t]) (w_db w)) (w_log w)).
Proof. reflexivity. Qed.

Lemma task_key_refl t : task_key (team_id t) (id t) t = true.
Proof. unfold task_key. rewrite !String.eqb_refl. reflexivity. Qed.

Lemma task_modal_create_stored e actor i w :
  let teamId := mi_teamId i in
  let taskId := uuid_task e in
  let targets := resolved_targets e i in
  let personal :=
    (length targets =? 1)%nat && (length (selected_groups i) =? 0)%nat in
  let w' := snd (task_modal_create e actor i w) in
  find (task_key teamId taskId) (tasks_of w) = None ->
  exists t,
    fst (dbGetTaskById teamId taskId w') = Some t
    /\ task_type t = Some (if personal then "personal" else "broadcast")
    /\ total_count t = (if personal then None else Some (Z.of_nat (length targets)))
    /\ assignee_id t = (if personal then hd_error targets else None).
Proof.
  intros teamId taskId targets personal w' Hfresh. subst w'.
  rewrite getTask_find.
  unfold task_modal_create. cbv zeta.
  fold teamId taskId targets personal.
  match goal with |- context [dbCreateTask e ?t] => set (t0 := t) end.
  rewrite bind_run. cbv beta. rewrite dbCreateTask_run. cbn [fst snd].
  set (row := inserted_row e t0).
  set (w1 := mkWorld _ _).
  assert (Hrow : find (task_key teamId taskId) (tasks_of w1) = Some row).
  { unfold w1, tasks_of. simpl. apply find_app_none; [exact Hfresh |].
    apply (task_key_refl row). }
  rewrite bind_tail.
  2:{ intros c. unfold_messages. frame;
      first [apply upsertThreadCard_keeps_tasks | keeps_leaf]. }
  destruct personal eqn:Ep.
  - change (("personal" =? "broadcast")%string) with false. cbv iota.
    exists row. split; [exact Hrow |]. unfold row, t0. simpl.
    repeat split.
  - change (("broadcast" =? "broadcast")%string) with true. cbv iota.
    rewrite !bind_run. cbv beta.
    unfold dbUpdateBroadcastCounts. rewrite update_task_run. unfold ret.
    unfold tasks_of at 1. cbn [fst snd w_db tasks set_tasks].
    rewrite find_map_upd by reflexivity.
    match goal with
    | |- context [find _ (tasks (w_db (snd (dbCountTargets ?a ?b ?w0))))] =>
      change (tasks (w_db (snd (dbCountTargets a b w0)))) with (tasks_of w0)
    end.
    assert (Hk : keeps tasks_of (dbInsertTaskTargets teamId taskId targets)).
    { unfold dbInsertTaskTargets. frame; keeps_leaf. }
    rewrite Hk, Hrow. cbn [option_map].
    eexists. split; [reflexivity |]. unfold row, t0. simpl. repeat split.
Qed.

Lemma task_modal_create_targets e actor i w :
  let teamId := mi_teamId i in
  let taskId := uuid_task e in
  let targets := resolved_targets e i in
  let personal :=
    (length targets =? 1)%nat && (length (selected_groups i) =? 0)%nat in
  let w' := snd (task_modal_create e actor i w) in
  (forall r, In r (targets_of w) -> m_task_id r <> taskId) ->
  if personal then targets_of w' = targets_of w
  else count_members teamId taskId (targets_of w') = Z.of_nat (length targets).
Proof.
  intros teamId taskId targets personal w' Hfresh. subst w'.
  unfold task_modal_create. cbv zeta.
  fold teamId taskId targets personal.
  match goal with |- context [dbCreateTask e ?t] => set (t0 := t) end.
  rewrite bind_run. cbv beta. rewrite dbCreateTask_run. cbn [fst snd].
  set (row := inserted_row e t0).
  set (w1 := mkWorld _ _).
  assert (H1 : targets_of w1 = targets_of w) by reflexivity.
  rewrite bind_tail.
  2:{ intros c. unfold_messages. frame;
      first [apply upsertThreadCard_keeps_targets | keeps_leaf]. }
  destruct personal eqn:Ep.
  - change (("personal" =? "broadcast")%string) with false. cbv iota.
    exact H1.
  - change (("broadcast" =? "broadcast")%string) with true. cbv iota.
    rewrite !bind_run. cbv beta.
    unfold dbUpdateBroadcastCounts. rewrite update_task_run. unfold ret.
    unfold targets_of at 1. cbn [fst snd w_db task_targets set_tasks].
    unfold dbCountTargets, query. cbn [fst snd].
    unfold dbInsertTaskTargets.
    destruct (resolved_targets_set e i) as [Hnd _]. fold targets in Hnd.
    destruct targets as [| u us] eqn:Et.
    + unfold ret. cbn [snd]. change (task_targets (w_db w1)) with (targets_of w).
      exact (count_inserted_members teamId taskId [] (targets_of w) Hfresh Hnd).
    + unfold exec. cbn [snd w_db task_targets set_targets].
      change (task_targets (w_db w1)) with (targets_of w).
      exact (count_inserted_members teamId taskId (u :: us) (targets_of w) Hfresh Hnd).
Qed.

(** C7. A submission with no individual and no group is rejected and
    changes nothing.  The resolved target set holds each selected user and
    each member of a selected group once.  An accepted submission (with a
    task id not yet in use) stores a task that is personal exactly when the
    target set has one element and no group was selected, with that element
    as assignee and no target rows added; otherwise it is broadcast, its
    totalCount is the size of the target set and it has that many target
    rows. *)
Theorem task_modal_classifies (e : env) (actor : string) (i : modal_input)
  (w : world) :
  let teamId := mi_teamId i in
  let taskId := uuid_task e in
  let targets := resolved_targets e i in
  let r := task_modal e actor i w in
  (mi_selected_users i = [] -> selected_groups i = [] ->
   fst r = AckErrors /\ snd r = w)
  /\ (NoDup targets
      /\ forall u, In u targets
           <-> In u (mi_selected_users i)
               \/ exists g us, In g (selected_groups i)
                               /\ group_members e g = Some us /\ In u us)
  /\ (mi_selected_users i <> [] \/ selected_groups i <> [] ->
      find (task_key teamId taskId) (tasks_of w) = None ->
      (forall m, In m (targets_of w) -> m_task_id m <> taskId) ->
      exists t,
        fst r = AckOk
        /\ fst (dbGetTaskById teamId taskId (snd r)) = Some t
        /\ (task_type t = Some "personal"
            <-> length targets = 1%nat /\ selected_groups i = [])
        /\ (task_type t = Some "personal" ->
            assignee_id t = hd_error targets
            /\ total_count t = None
            /\ targets_of (snd r) = targets_of w)
        /\ (task_type t <> Some "personal" ->
            task_type t = Some "broadcast"
            /\ total_count t = Some (Z.of_nat (length targets))
            /\ count_members teamId taskId (targets_of (snd r))
               = Z.of_nat (length targets))).
Proof.
  intros teamId taskId targets r. split; [| split].
  - intros Hu Hg. subst r. unfold task_modal. rewrite Hu, Hg. split; reflexivity.
  - apply resolved_targets_set.
  - intros Hsome Hfresh Hfresh_targets.
    assert (Hr : r = task_modal_create e actor i w).
    { subst r. unfold task_modal.
      destruct (mi_selected_users i), (selected_groups i); try reflexivity.
      destruct Hsome as [H | H]; contradiction H; reflexivity. }
    rewrite Hr.
    destruct (task_modal_create_stored e actor i w Hfresh)
      as (t & Hget & Htype & Htotal & Hassignee).
    pose proof (task_modal_create_targets e actor i w Hfresh_targets) as Htargets.
    cbv zeta in Htargets.
    fold teamId taskId targets in Htype, Htotal, Hassignee, Htargets.
    exists t. split; [apply task_modal_create_statuses |].
    split; [exact Hget |].
    destruct ((length targets =? 1)%nat && (length (selected_groups i) =? 0)%nat)
      eqn:Ep.
    + apply andb_true_iff in Ep. destruct Ep as [E1 E2].
      apply Nat.eqb_eq in E1. apply Nat.eqb_eq in E2.
      apply length_zero_iff_nil in E2.
      split; [tauto |]. split; [tauto |]. intros Hn. contradiction.
    + assert (Hnot : ~ (length targets = 1%nat /\ selected_groups i = [])).
      { intros [E1 E2]. rewrite E1, E2 in Ep. discriminate Ep. }
      split; [| split].
      * rewrite Htype. split; [discriminate | tauto].
      * rewrite Htype. discriminate.
      * intros _. tauto.
Qed.

(** Two users and a group of two: a broadcast task with three targets
    (UB is both selected and a group member). *)
Lemma task_modal_classifies_witness :
  let i := mkModalInput "T1" "C1" "1600.0009" None "please" (Some "fill in")
             ["UA"; "UB"] [Some "G1"] (Some "2026-04-30") (Some "open") in
  let r := task_modal env0 "UR" i (world0 "open" []) in
  (mi_selected_users i <> [] \/ selected_groups i <> [])
  /\ exists t,
       fst r = AckOk
       /\ fst (dbGetTaskById "T1" "task-9" (snd r)) = Some t
       /\ task_type t = Some "broadcast"
       /\ total_count t = Some 3
       /\ count_members "T1" "task-9" (targets_of (snd r)) = 3.
Proof.
  intros i r.
  assert (Hsome : mi_selected_users i <> [] \/ selected_groups i <> []).
  { left. discriminate. }
  split; [exact Hsome |].
  assert (Hfresh : forall m, In m (targets_of (world0 "open" [])) ->
                             m_task_id m <> uuid_task env0).
  { intros m Hm. simpl in Hm.
    destruct Hm as [<- | [<- | [<- | []]]]; discriminate. }
  destruct (proj2 (proj2 (task_modal_classifies env0 "UR" i (world0 "open" [])))
              Hsome eq_refl Hfresh) as (t & Hack & Hget & Hp & _ & Hb).
  exists t. split; [exact Hack |]. split; [exact Hget |].
  assert (Hnp : task_type t <> Some "personal").
  { intros H. apply Hp in H. destruct H as [H _]. vm_compute in H. discriminate H. }
  destruct (Hb Hnp) as (H1 & H2 & H3).
  split; [exact H1 |]. split; [exact H2 | exact H3].
Defined.

(** ** The all-done notification *)

Lemma confirm_count_app teamId taskId l ev :
  confirm_count teamId taskId (l ++ [ev])
  = (confirm_count teamId taskId l + (if is_confirm teamId taskId ev then 1 else 0))%nat.
Proof.
  unfold confirm_count. rewrite filter_app, length_app. simpl.
  destruct (is_confirm teamId taskId ev); reflexivity.
Qed.

Lemma find_map_keeps_notified k (g : task -> task) (l : list task) :
  keeps_notified g ->
  (forall t, k (g t) = k t) ->
  match find k l with
  | Some t => is_some (notified_at t) = true
  | None => False
  end ->
  match find k (map g l) with
  | Some t => is_some (notified_at t) = true
  | None => False
  end.
Proof.
  intros Hg Hk. induction l as [| t l IH]; simpl; [tauto |].
  rewrite Hk. destruct (k t); [| exact IH].
  apply Hg.
Qed.

Lemma task_key_keeps teamId taskId g :
  keeps_notified g -> forall t, task_key teamId taskId (g t) = task_key teamId taskId t.
Proof.
  intros Hg t. destruct (Hg t) as (H1 & H2 & _). unfold task_key.
  rewrite H1, H2. reflexivity.
Qed.

Lemma notified_first_map teamId taskId g d log log' :
  keeps_notified g ->
  notified_first teamId taskId (mkWorld d log) = true ->
  notified_first teamId taskId (mkWorld (set_tasks (map g) d) log') = true.
Proof.
  intros Hg. unfold notified_first, tasks_of. simpl. intros H.
  pose proof (find_map_keeps_notified (task_key teamId taskId) g (tasks d) Hg
                (task_key_keeps teamId taskId g Hg)) as Hm.
  destruct (find (task_key teamId taskId) (tasks d)); [| discriminate].
  specialize (Hm H).
  destruct (find (task_key teamId taskId) (map g (tasks d))); [exact Hm | contradiction].
Qed.

Lemma preserves_update_tasks teamId taskId g :
  keeps_notified g ->
  preserves (notify_inv teamId taskId) (exec (set_tasks (map g))).
Proof.
  intros Hg w [H0 | [H1 Hn]]; [left; exact H0 | right].
  split; [exact H1 |].
  destruct w as [d log]. apply (notified_first_map teamId taskId g d log log Hg Hn).
Qed.

Lemma preserves_insert_task teamId taskId row :
  preserves (notify_inv teamId taskId) (exec (set_tasks (fun l => l ++ [row]))).
Proof.
  intros w [H0 | [H1 Hn]]; [left; exact H0 | right].
  split; [exact H1 |].
  unfold notified_first, tasks_of in *. simpl.
  destruct (find (task_key teamId taskId) (tasks (w_db w))) as [t |] eqn:E;
    [| discriminate].
  assert (Hf : forall l, find (task_key teamId taskId) l = Some t ->
                         find (task_key teamId taskId) (l ++ [row]) = Some t).
  { induction l as [| x l IH]; simpl; [discriminate |].
    destruct (task_key teamId taskId x); [tauto | exact IH]. }
  rewrite (Hf _ E). exact Hn.
Qed.

Lemma preserves_emit_other teamId taskId ev :
  is_confirm teamId taskId ev = false ->
  preserves (notify_inv teamId taskId) (emit ev).
Proof.
  intros Hev w H. unfold notify_inv, confirms, notified_first, tasks_of in *. simpl.
  rewrite confirm_count_app, Hev, Nat.add_0_r. exact H.
Qed.

Lemma preserves_untouched {A} teamId taskId (m : M A) :
  (forall w, tasks_of (snd (m w)) = tasks_of w /\ w_log (snd (m w)) = w_log w) ->
  preserves (notify_inv teamId taskId) m.
Proof.
  intros Hm w H. destruct (Hm w) as [Ht Hl].
  unfold notify_inv, confirms, notified_first in *. rewrite Ht, Hl. exact H.
Qed.

Ltac keeps_notified_tac :=
  let t := fresh "t" in
  let E := fresh "E" in
  intros t; destruct (notified_at t) eqn:E;
  repeat match goal with
         | |- context [if ?c then _ else _] => destruct c
         end;
  simpl; rewrite ?E; simpl; repeat split; auto.

Ltac notify_leaf :=
  first [ apply preserves_emit_other; reflexivity
        | apply preserves_insert_task
        | apply preserves_update_tasks; keeps_notified_tac
        | apply preserves_untouched; intros ?; split; reflexivity ].

Lemma is_confirm_request teamId taskId u t i :
  is_confirm teamId taskId (DM KConfirmRequest u t i) = true -> t = teamId /\ i = taskId.
Proof.
  simpl. rewrite andb_true_iff, !String.eqb_eq. tauto.
Qed.

Lemma notify_block_inv e teamId' taskId' teamId taskId :
  preserves (notify_inv teamId taskId)
    (fresh <- dbGetTaskById teamId' taskId' ;;
     match fresh with
     | None => ret tt
     | Some fresh =>
       when (negb (includes ["waiting"; "done"; "cancelled"] (status fresh)))
         (dbUpdateStatus e teamId' taskId' "waiting" ;;; ret tt) ;;;
       match notified_at fresh with
       | Some _ => ret tt
       | None =>
         mark_notified_if_null e teamId' taskId' ;;;
         postRequesterConfirmDM teamId' taskId' (requester_user_id fresh)
       end
     end).
Proof.
  intros w Hinv. rewrite bind_run, getTask_run. cbn [fst snd].
  destruct (find (task_key teamId' taskId') (tasks (w_db w))) as [fresh |] eqn:Hf;
    [| exact Hinv].
  rewrite bind_run.
  set (m1 := when _ _).
  assert (Hp1 : preserves (notify_inv teamId taskId) m1).
  { unfold m1. unfold_store. frame; notify_leaf. }
  assert (Hlog1 : w_log (snd (m1 w)) = w_log w).
  { unfold m1. destruct (negb _); reflexivity. }
  assert (Hf1 : exists fresh1, find (task_key teamId' taskId') (tasks_of (snd (m1 w)))
                               = Some fresh1).
  { unfold m1. destruct (negb _).
    - rewrite when_true, bind_run. unfold dbUpdateStatus. rewrite update_task_run.
      unfold ret, tasks_of. simpl. rewrite find_map_upd by reflexivity.
      rewrite Hf. eexists. reflexivity.
    - exists fresh. exact Hf. }
  specialize (Hp1 w Hinv). destruct Hf1 as [fresh1 Hf1].
  set (w1 := snd (m1 w)) in *. clearbody w1. clear m1.
  destruct (notified_at fresh) eqn:Hn; [exact Hp1 |].
  rewrite bind_run.
  set (w2 := snd (mark_notified_if_null e teamId' taskId' w1)).
  assert (Hp2 : notify_inv teamId taskId w2).
  { revert Hp1. unfold w2. generalize w1. 
    change (preserves (notify_inv teamId taskId) (mark_notified_if_null e teamId' taskId')).
    unfold_store. notify_leaf. }
  unfold postRequesterConfirmDM.
  destruct (truthy (requester_user_id fresh)); [| exact Hp2].
  rewrite when_true.
  destruct (is_confirm teamId taskId
              (DM KConfirmRequest (requester_user_id fresh) teamId' taskId')) eqn:Ec.
  - apply is_confirm_request in Ec. destruct Ec as [-> ->].
    right. 
    assert (H0 : confirms teamId taskId w = 0%nat).
    { destruct Hinv as [H0 | [_ Hnf]]; [exact H0 |].
      unfold notified_first, tasks_of in Hnf. rewrite Hf, Hn in Hnf. discriminate Hnf. }
    split.
    + unfold confirms. simpl. rewrite confirm_count_app.
      simpl. rewrite !String.eqb_refl. simpl.
      unfold confirms in H0. rewrite Hlog1, H0. reflexivity.
    + unfold notified_first, tasks_of. simpl.
      rewrite find_map_upd.
      * unfold tasks_of in Hf1. rewrite Hf1. simpl.
        destruct (notified_at fresh1) eqn:E1; [rewrite E1 |]; reflexivity.
      * intros t. destruct (notified_at t); reflexivity.
  - apply (preserves_emit_other teamId taskId _ Ec w2 Hp2).
Qed.

Ltac unfold_cards :=
  unfold refresh_card, upsertThreadCard, dbUpsertThreadCard, dbGetThreadCard.

Lemma dispatch_notify_inv teamId taskId e r :
  preserves (notify_inv teamId taskId) (dispatch e r).
Proof.
  destruct r; unfold dispatch; unfold_handlers;
    repeat (cbv zeta; first [apply notify_block_inv | frame_step]);
    unfold_cards; unfold_store; unfold_messages;
    frame; notify_leaf.
Qed.

Lemma run_notify_inv teamId taskId rs :
  forall w, notify_inv teamId taskId w -> notify_inv teamId taskId (run rs w).
Proof.
  induction rs as [| [e r] rs IH]; simpl; intros w H; [exact H |].
  apply IH. apply dispatch_notify_inv. exact H.
Qed.

Lemma run_confirms_once teamId taskId rs :
  (confirms teamId taskId (run rs initial) <= 1)%nat.
Proof.
  assert (H : notify_inv teamId taskId (run rs initial)).
  { apply run_notify_inv. left. reflexivity. }
  destruct H as [H | [H _]]; rewrite H; lia.
Qed.

(** *** One completion of a broadcast task *)

Lemma total_run teamId taskId task w :
  (match total_count task with
   | Some n => if n =? 0 then dbCountTargets teamId taskId else ret n
   | None => dbCountTargets teamId taskId
   end) w
  = (effective_total teamId taskId task w, w).
Proof.
  unfold effective_total. destruct (total_count task) as [n |]; [| reflexivity].
  destruct (n =? 0); reflexivity.
Qed.

Lemma complete_card_tail_keeps {X} (proj : world -> X) e teamId taskId task :
  (forall ch ts b, keeps proj (emit (ChatUpdate ch ts b))) ->
  (forall ch ts b, keeps proj (emit (ChatPostMessage ch ts b))) ->
  (forall f, keeps proj (exec (set_cards f))) ->
  keeps proj
    (when (truthy_opt (channel_id task) && truthy_opt (message_ts task))
       (refreshed <- dbGetTaskById teamId taskId ;;
        match refreshed with
        | None => ret tt
        | Some refreshed =>
          when (not_dm (channel_id refreshed))
            (upsertThreadCard e teamId (opt_or (channel_id refreshed) "")
               (opt_or (message_ts refreshed) "") None (TaskCard refreshed) ;;;
             ret tt)
        end)).
Proof.
  intros Hupd Hpost Hexec. unfold_cards; unfold_store. frame; auto.
Qed.

Lemma confirms_emit_other teamId taskId ev :
  is_confirm teamId taskId ev = false -> keeps (confirms teamId taskId) (emit ev).
Proof.
  intros H w. unfold confirms. simpl. rewrite confirm_count_app, H. lia.
Qed.

Lemma complete_task_broadcast_run e teamId taskId actor cb w task :
  truthy teamId = true ->
  truthy taskId = true ->
  fst (dbGetTaskById teamId taskId w) = Some task ->
  is_broadcast task = true ->
  fst (dbIsUserTarget teamId taskId actor w) = true ->
  forall (X : Type) (proj : world -> X),
    (forall ch ts b, keeps proj (emit (ChatUpdate ch ts b))) ->
    (forall ch ts b, keeps proj (emit (ChatPostMessage ch ts b))) ->
    (forall f, keeps proj (exec (set_cards f))) ->
    let w2 := mkWorld (set_completions (insert_member teamId taskId actor) (w_db w))
                (w_log w) in
    proj (snd (complete_task e teamId taskId actor cb w))
    = proj (snd (when (all_done teamId taskId actor task w)
                   (fresh <- dbGetTaskById teamId taskId ;;
                    match fresh with
                    | None => ret tt
                    | Some fresh =>
                      when (negb (includes ["waiting"; "done"; "cancelled"]
                                    (status fresh)))
                        (dbUpdateStatus e teamId taskId "waiting" ;;; ret tt) ;;;
                      match notified_at fresh with
                      | Some _ => ret tt
                      | None =>
                        mark_notified_if_null e teamId taskId ;;;
                        postRequesterConfirmDM teamId taskId (requester_user_id fresh)
                      end
                    end) w2)).
Proof.
  intros Hteam Htask Hget Hb Htarget X proj Hupd Hpost Hcards w2.
  rewrite getTask_find in Hget. unfold tasks_of in Hget.
  unfold complete_task. rewrite Hteam, Htask. cbn [negb orb].
  rewrite bind_run, getTask_run. cbn [fst snd]. rewrite Hget, Hb.
  rewrite bind_run.
  change (snd (dbIsUserTarget teamId taskId actor w)) with w.
  rewrite Htarget. cbn [negb].
  rewrite bind_run.
  change (snd (dbUpsertCompletion teamId taskId actor w)) with w2.
  rewrite bind_run, total_run. cbn [fst snd].
  rewrite bind_run.
  change (dbCountCompletions teamId taskId w2)
    with (recount teamId taskId actor w, w2).
  cbn [fst snd].
  change (effective_total teamId taskId task w2)
    with (effective_total teamId taskId task w).
  rewrite bind_tail; [reflexivity |].
  intros _. apply complete_card_tail_keeps; assumption.
Qed.

Lemma ephemerals_emit_other ev :
  is_ephemeral ev = false -> keeps ephemerals (emit ev).
Proof.
  intros H w. unfold ephemerals. simpl. rewrite filter_app. simpl. rewrite H.
  apply app_nil_r.
Qed.

Lemma notify_block_effect e teamId taskId w task :
  find (task_key teamId taskId) (tasks_of w) = Some task ->
  let w' :=
    snd ((fresh <- dbGetTaskById teamId taskId ;;
          match fresh with
          | None => ret tt
          | Some fresh =>
            when (negb (includes ["waiting"; "done"; "cancelled"] (status fresh)))
              (dbUpdateStatus e teamId taskId "waiting" ;;; ret tt) ;;;
            match notified_at fresh with
            | Some _ => ret tt
            | None =>
              mark_notified_if_null e teamId taskId ;;;
              postRequesterConfirmDM teamId taskId (requester_user_id fresh)
            end
          end) w) in
  completions_of w' = completions_of w
  /\ targets_of w' = targets_of w
  /\ ephemerals w' = ephemerals w
  /\ exists t',
      find (task_key teamId taskId) (tasks_of w') = Some t'
      /\ total_count t' = total_count task
      /\ task_type t' = task_type task
      /\ status t' = (if includes ["waiting"; "done"; "cancelled"] (status task)
                      then status task else "waiting")
      /\ is_some (notified_at t') = true
      /\ confirms teamId taskId w'
         = (confirms teamId taskId w
            + if is_some (notified_at task) then 0
              else if truthy (requester_user_id task) then 1 else 0)%nat.
Proof.
  intros Hget w'.
  assert (Heph : ephemerals w' = ephemerals w).
  { unfold w'. generalize w.
    match goal with
    | |- forall w0, ephemerals (snd (?m w0)) = _ => change (keeps ephemerals m)
    end.
    unfold_store; unfold_messages.
    frame; first [apply ephemerals_emit_other; reflexivity | keeps_leaf]. }
  split; [| split; [| split; [exact Heph |]]]; clear Heph; subst w';
  unfold tasks_of in Hget;
  rewrite bind_run, getTask_run; cbn [fst snd]; rewrite Hget;
  rewrite bind_run;
  unfold dbUpdateStatus, mark_notified_if_null, postRequesterConfirmDM;
  (destruct (includes ["waiting"; "done"; "cancelled"] (status task)) eqn:Hst;
    cbn [negb]; [rewrite when_false | rewrite when_true, bind_run, update_task_run];
    unfold ret; cbn [fst snd];
    (destruct (notified_at task) eqn:Hn;
     [| rewrite bind_run;
        destruct (truthy (requester_user_id task)) eqn:Hreq;
        [rewrite when_true | rewrite when_false]]);
    unfold exec, emit, ret, confirms, tasks_of, completions_of, targets_of;
    cbn [fst snd w_db w_log tasks task_completions task_targets set_tasks is_some];
    try reflexivity;
    rewrite ?confirm_count_app; cbn [is_confirm]; rewrite ?String.eqb_refl;
    cbn [andb];
    rewrite ?find_map_upd by (intros t; destruct (notified_at t); reflexivity);
    rewrite ?find_map_upd by reflexivity;
    rewrite Hget; cbn [option_map];
    eexists; (split; [reflexivity |]);
    cbn [with_status status notified_at total_count task_type]; rewrite ?Hn;
    cbn [with_notified with_status status notified_at is_some total_count task_type];
    rewrite ?Hn; repeat split; try reflexivity; lia).
Qed.

Lemma complete_task_effect e teamId taskId actor cb w task :
  truthy teamId = true ->
  truthy taskId = true ->
  fst (dbGetTaskById teamId taskId w) = Some task ->
  is_broadcast task = true ->
  fst (dbIsUserTarget teamId taskId actor w) = true ->
  let w' := snd (complete_task e teamId taskId actor cb w) in
  completions_of w' = insert_member teamId taskId actor (completions_of w)
  /\ targets_of w' = targets_of w
  /\ ephemerals w' = ephemerals w
  /\ exists t',
      find (task_key teamId taskId) (tasks_of w') = Some t'
      /\ total_count t' = total_count task
      /\ task_type t' = task_type task
      /\ if all_done teamId taskId actor task w
         then status t' = (if includes ["waiting"; "done"; "cancelled"] (status task)
                           then status task else "waiting")
              /\ is_some (notified_at t') = true
              /\ confirms teamId taskId w'
                 = (confirms teamId taskId w
                    + if is_some (notified_at task) then 0
                      else if truthy (requester_user_id task) then 1 else 0)%nat
         else tasks_of w' = tasks_of w
              /\ confirms teamId taskId w' = confirms teamId taskId w.
Proof.
  intros Hteam Htask Hget Hb Htarget w'.
  pose proof (complete_task_broadcast_run e teamId taskId actor cb w task
                Hteam Htask Hget Hb Htarget) as Hrun.
  pose proof (Hrun _ (confirms teamId taskId)
                (fun ch ts b =>
                   confirms_emit_other teamId taskId (ChatUpdate ch ts b) eq_refl)
                (fun ch ts b =>
                   confirms_emit_other teamId taskId (ChatPostMessage ch ts b) eq_refl)
                (fun f w0 => eq_refl)) as Hconf.
  pose proof (Hrun _ tasks_of (fun ch ts b w0 => eq_refl)
                (fun ch ts b w0 => eq_refl) (fun f w0 => eq_refl)) as Htasks.
  pose proof (Hrun _ completions_of (fun ch ts b w0 => eq_refl)
                (fun ch ts b w0 => eq_refl) (fun f w0 => eq_refl)) as Hcompl.
  pose proof (Hrun _ targets_of (fun ch ts b w0 => eq_refl)
                (fun ch ts b w0 => eq_refl) (fun f w0 => eq_refl)) as Htarg.
  pose proof (Hrun _ ephemerals
                (fun ch ts b => ephemerals_emit_other (ChatUpdate ch ts b) eq_refl)
                (fun ch ts b => ephemerals_emit_other (ChatPostMessage ch ts b) eq_refl)
                (fun f w0 => eq_refl)) as Heph.
  clear Hrun. cbv zeta in Hconf, Htasks, Hcompl, Htarg, Heph.
  fold w' in Hconf, Htasks, Hcompl, Htarg, Heph.
  set (w2 := mkWorld (set_completions (insert_member teamId taskId actor) (w_db w))
               (w_log w)) in *.
  assert (Hget2 : find (task_key teamId taskId) (tasks_of w2) = Some task)
    by exact Hget.
  pose proof (notify_block_effect e teamId taskId w2 task Hget2) as Heff.
  cbv zeta in Heff.
  rewrite Hcompl, Htarg, Heph, Htasks, Hconf.
  destruct (all_done teamId taskId actor task w).
  - rewrite when_true.
    destruct Heff as (-> & -> & -> & t' & Hf & Htot & Hty & Hs & Hn & Hcount).
    repeat split; try reflexivity.
    exists t'. repeat split; assumption.
  - rewrite when_false. repeat split; try reflexivity.
    exists task. repeat split; try reflexivity. exact Hget2.
Qed.

(** One completion at a time.  When a target completes a broadcast task
    and no other handler runs in between, the completion rows are
    re-counted.  If the count reaches the target count and that is positive,
    the task becomes waiting unless it already is waiting, done or
    cancelled, [notified_at] is set, and the requester is asked to confirm
    in this run exactly when [notified_at] was still unset (and there is a
    requester to ask).  If the count stays below the total, no task row
    changes and nothing is sent.  With handler runs following one another,
    no task's requester is ever asked twice. *)
Theorem complete_task_all_done (e : env) (teamId taskId actor : string)
  (cb : option string) (w : world) (task : task) :
  truthy teamId = true ->
  truthy taskId = true ->
  fst (dbGetTaskById teamId taskId w) = Some task ->
  is_broadcast task = true ->
  fst (dbIsUserTarget teamId taskId actor w) = true ->
  let w' := snd (complete_task e teamId taskId actor cb w) in
  let total := effective_total teamId taskId task w in
  let doneCount := recount teamId taskId actor w in
  fst (dbCountCompletions teamId taskId w') = doneCount
  /\ (total <= doneCount -> 0 < total ->
      exists t',
        fst (dbGetTaskById teamId taskId w') = Some t'
        /\ status t' = (if includes ["waiting"; "done"; "cancelled"] (status task)
                        then status task else "waiting")
        /\ is_some (notified_at t') = true
        /\ confirms teamId taskId w'
           = (confirms teamId taskId w
              + if is_some (notified_at task) then 0
                else if truthy (requester_user_id task) then 1 else 0)%nat)
  /\ (doneCount < total \/ total <= 0 ->
      tasks_of w' = tasks_of w
      /\ confirms teamId taskId w' = confirms teamId taskId w)
  /\ forall rs, (confirms teamId taskId (run rs initial) <= 1)%nat.
Proof.
  intros Hteam Htask Hget Hb Htarget w' total doneCount.
  destruct (complete_task_effect e teamId taskId actor cb w task
              Hteam Htask Hget Hb Htarget)
    as (Hcompl & _ & _ & t' & Hf & _ & _ & Hcase).
  fold w' in Hcompl, Hf, Hcase.
  unfold all_done in Hcase. fold total doneCount in Hcase.
  split; [| split; [| split]].
  - change (fst (dbCountCompletions teamId taskId w'))
      with (count_members teamId taskId (completions_of w')).
    rewrite Hcompl. reflexivity.
  - intros H1 H2.
    assert (Hcond : (doneCount >=? total) && (total >? 0) = true).
    { apply andb_true_iff. split; [apply Z.geb_le | apply Z.gtb_lt]; lia. }
    rewrite Hcond in Hcase. exists t'. rewrite getTask_find. tauto.
  - intros Hlow.
    assert (Hcond : (doneCount >=? total) && (total >? 0) = false).
    { apply andb_false_iff. destruct Hlow as [Hlow | Hlow].
      - left. rewrite Z.geb_leb. apply Z.leb_gt. exact Hlow.
      - right. rewrite Z.gtb_ltb. apply Z.ltb_ge. exact Hlow. }
    rewrite Hcond in Hcase. exact Hcase.
  - intros rs. apply run_confirms_once.
Qed.

(** The third of three targets completes: waiting, notified, one request. *)
Lemma complete_task_all_done_witness :
  let w := world0 "in_progress"
             [mkMember "task-2" "T1" "UA"; mkMember "task-2" "T1" "UB"] in
  let w' := snd (complete_task env0 "T1" "task-2" "UC" None w) in
  fst (dbGetTaskById "T1" "task-2" w) = Some (broadcast0 "in_progress")
  /\ fst (dbIsUserTarget "T1" "task-2" "UC" w) = true
  /\ fst (dbCountCompletions "T1" "task-2" w') = 3
  /\ exists t',
       fst (dbGetTaskById "T1" "task-2" w') = Some t'
       /\ status t' = "waiting"
       /\ is_some (notified_at t') = true
       /\ confirms "T1" "task-2" w' = 1%nat.
Proof.
  intros w w'.
  split; [reflexivity |]. split; [reflexivity |].
  destruct (complete_task_all_done env0 "T1" "task-2" "UC" None w
              (broadcast0 "in_progress") eq_refl eq_refl eq_refl eq_refl eq_refl)
    as (Hcount & Hdone & _).
  split; [exact Hcount |].
  apply Hdone; vm_compute; [discriminate | reflexivity].
Defined.

(** ** Completing twice *)

Lemma existsb_filter_nil {A} (k : A -> bool) (l : list A) :
  existsb k l = false -> filter k l = [].
Proof.
  induction l as [| x l IH]; simpl; [reflexivity |].
  destruct (k x); simpl; [discriminate | exact IH].
Qed.

Lemma existsb_filter_pos {A} (k : A -> bool) (l : list A) :
  existsb k l = true -> (1 <= length (filter k l))%nat.
Proof.
  induction l as [| x l IH]; simpl; [discriminate |].
  destruct (k x); simpl; [lia | exact IH].
Qed.

Lemma member_key_inserted teamId taskId userId :
  member_key taskId userId (mkMember taskId teamId userId) = true.
Proof. unfold member_key. simpl. rewrite !String.eqb_refl. reflexivity. Qed.

Lemma insert_member_exists teamId taskId userId l :
  existsb (member_key taskId userId) (insert_member teamId taskId userId l) = true.
Proof.
  unfold insert_member.
  destruct (existsb (member_key taskId userId) l) eqn:E; [exact E |].
  rewrite existsb_app. simpl. rewrite member_key_inserted.
  rewrite orb_true_r. reflexivity.
Qed.

Lemma insert_member_idem teamId taskId userId l :
  insert_member teamId taskId userId (insert_member teamId taskId userId l)
  = insert_member teamId taskId userId l.
Proof.
  unfold insert_member at 1. rewrite insert_member_exists. reflexivity.
Qed.

Lemma insert_member_one teamId taskId userId l :
  (length (filter (member_key taskId userId) l) <= 1)%nat ->
  length (filter (member_key taskId userId) (insert_member teamId taskId userId l))
  = 1%nat.
Proof.
  intros H. unfold insert_member.
  destruct (existsb (member_key taskId userId) l) eqn:E.
  - apply existsb_filter_pos in E. lia.
  - rewrite filter_app, (existsb_filter_nil _ _ E). simpl.
    rewrite member_key_inserted. reflexivity.
Qed.

Lemma insert_member_unique teamId taskId userId l :
  members_unique l -> members_unique (insert_member teamId taskId userId l).
Proof.
  intros H t u. unfold insert_member.
  destruct (existsb (member_key taskId userId) l) eqn:E; [apply H |].
  rewrite filter_app, length_app. simpl.
  destruct (member_key t u (mkMember taskId teamId userId)) eqn:Ek; simpl.
  - apply member_key_eq in Ek. simpl in Ek. destruct Ek as [-> ->].
    rewrite (existsb_filter_nil _ _ E). simpl. lia.
  - specialize (H t u). lia.
Qed.

Lemma dispatch_completions_unique e r :
  preserves (fun w => members_unique (completions_of w)) (dispatch e r).
Proof.
  destruct r; unfold dispatch; unfold_handlers; unfold_cards; unfold_store;
    unfold_messages; frame;
    first [ intros w H; apply insert_member_unique; exact H
          | apply (preserves_keeps completions_of members_unique);
            intros ?; reflexivity ].
Qed.

Lemma run_completions_unique rs :
  members_unique (completions_of (run rs initial)).
Proof.
  assert (H : forall w, members_unique (completions_of w) ->
                        members_unique (completions_of (run rs w))).
  { induction rs as [| [e r] rs IH]; simpl; intros w Hw; [exact Hw |].
    apply IH, dispatch_completions_unique, Hw. }
  apply H. intros t u. simpl. lia.
Qed.

(** C6. Recording the same completion twice is idempotent.  For a target
    of a broadcast task (the completions table respecting its unique
    constraint, which it does after any handler runs from the empty store):
    after the first [complete_task] there is exactly one completion row for
    (task, user); the second run leaves the completion rows, and so the
    completion count, as they are, sends no error message, and does not
    ask the requester to confirm again. *)
Theorem complete_task_twice (e1 e2 : env) (teamId taskId actor : string)
  (cb1 cb2 : option string) (w : world) (task : task) :
  truthy teamId = true ->
  truthy taskId = true ->
  fst (dbGetTaskById teamId taskId w) = Some task ->
  is_broadcast task = true ->
  fst (dbIsUserTarget teamId taskId actor w) = true ->
  (length (filter (member_key taskId actor) (completions_of w)) <= 1)%nat ->
  let w1 := snd (complete_task e1 teamId taskId actor cb1 w) in
  let w2 := snd (complete_task e2 teamId taskId actor cb2 w1) in
  length (filter (member_key taskId actor) (completions_of w1)) = 1%nat
  /\ completions_of w2 = completions_of w1
  /\ fst (dbCountCompletions teamId taskId w2)
     = fst (dbCountCompletions teamId taskId w1)
  /\ ephemerals w2 = ephemerals w
  /\ confirms teamId taskId w2 = confirms teamId taskId w1
  /\ forall rs, members_unique (completions_of (run rs initial)).
Proof.
  intros Hteam Htask Hget Hb Htarget Huniq w1 w2.
  destruct (complete_task_effect e1 teamId taskId actor cb1 w task
              Hteam Htask Hget Hb Htarget)
    as (Hc1 & Ht1 & He1 & t1 & Hf1 & Htot1 & Hty1 & Hcase1).
  fold w1 in Hc1, Ht1, He1, Hf1, Hcase1.
  assert (Hb1 : is_broadcast t1 = true).
  { unfold is_broadcast in *. rewrite Hty1. exact Hb. }
  assert (Htarget1 : fst (dbIsUserTarget teamId taskId actor w1) = true).
  { unfold dbIsUserTarget, query in *. simpl in *.
    unfold targets_of in Ht1. rewrite Ht1. exact Htarget. }
  destruct (complete_task_effect e2 teamId taskId actor cb2 w1 t1
              Hteam Htask Hf1 Hb1 Htarget1)
    as (Hc2 & _ & He2 & t2 & _ & _ & _ & Hcase2).
  fold w2 in Hc2, He2, Hcase2.
  assert (Hsame : completions_of w2 = completions_of w1).
  { rewrite Hc2, Hc1. apply insert_member_idem. }
  assert (Hall : all_done teamId taskId actor t1 w1
                 = all_done teamId taskId actor task w).
  { unfold all_done, recount, effective_total.
    rewrite Hc1, insert_member_idem, Htot1, Ht1. reflexivity. }
  split; [| split; [| split; [| split; [| split]]]].
  - rewrite Hc1. apply insert_member_one. exact Huniq.
  - exact Hsame.
  - unfold dbCountCompletions, query. simpl.
    change (task_completions (w_db w2)) with (completions_of w2).
    rewrite Hsame. reflexivity.
  - rewrite He2, He1. reflexivity.
  - rewrite Hall in Hcase2.
    destruct (all_done teamId taskId actor task w).
    + destruct Hcase1 as (_ & Hn1 & _). destruct Hcase2 as (_ & _ & Hconf).
      rewrite Hn1 in Hconf. rewrite Hconf. lia.
    + tauto.
  - apply run_completions_unique.
Qed.

(** The last target presses the button twice. *)
Lemma complete_task_twice_witness :
  let w := world0 "in_progress"
             [mkMember "task-2" "T1" "UA"; mkMember "task-2" "T1" "UB"] in
  let w1 := snd (complete_task env0 "T1" "task-2" "UC" None w) in
  let w2 := snd (complete_task env0 "T1" "task-2" "UC" None w1) in
  (length (filter (member_key "task-2" "UC") (completions_of w)) <= 1)%nat
  /\ length (filter (member_key "task-2" "UC") (completions_of w1)) = 1%nat
  /\ completions_of w2 = completions_of w1
  /\ fst (dbCountCompletions "T1" "task-2" w2)
     = fst (dbCountCompletions "T1" "task-2" w1)
  /\ ephemerals w2 = ephemerals w
  /\ confirms "T1" "task-2" w2 = confirms "T1" "task-2" w1.
Proof.
  intros w w1 w2.
  assert (Hu : (length (filter (member_key "task-2" "UC") (completions_of w)) <= 1)%nat).
  { vm_compute. lia. }
  split; [exact Hu |].
  destruct (complete_task_twice env0 env0 "T1" "task-2" "UC" None None w
              (broadcast0 "in_progress") eq_refl eq_refl eq_refl eq_refl eq_refl Hu)
    as (H1 & H2 & H3 & H4 & H5 & _).
  repeat split; assumption.
Defined.

(** ** Terminal tasks *)

(** C2 (counterexample). Done and cancelled tasks still accept changes:
    after the requester cancels a broadcast task, a target's completion is
    recorded (the count goes from 0 to 1) and nothing is reported; on a done
    personal task the requester can still select a status, cancel, and edit
    the content. *)
Lemma terminal_tasks_not_absorbing :
  let w := world0 "in_progress" [] in
  let wc := snd (cancel_task env0 "T1" "task-2" "UR" None w) in
  let w1 := snd (complete_task env0 "T1" "task-2" "UA" None wc) in
  let wd := snd (complete_task env0 "T1" "task-1" "UX" None w) in
  let w2 := snd (status_select env0 "T1" "task-1" (Some "in_progress") "UR" None wd) in
  let w3 := snd (cancel_task env0 "T1" "task-1" "UR" None wd) in
  let w4 := snd (edit_task_modal env0 "T1" "task-1" "UR" (Some "UX") None
                   "changed" wd) in
  (option_map status (fst (dbGetTaskById "T1" "task-2" wc)) = Some "cancelled"
   /\ fst (dbCountCompletions "T1" "task-2" wc) = 0
   /\ fst (dbCountCompletions "T1" "task-2" w1) = 1
   /\ ephemerals w1 = [])
  /\ (option_map status (fst (dbGetTaskById "T1" "task-1" wd)) = Some "done"
      /\ option_map status (fst (dbGetTaskById "T1" "task-1" w2)) = Some "in_progress"
      /\ option_map status (fst (dbGetTaskById "T1" "task-1" w3)) = Some "cancelled"
      /\ option_map description (fst (dbGetTaskById "T1" "task-1" w4)) = Some "changed"
      /\ ephemerals w2 = [] /\ ephemerals w3 = [] /\ ephemerals w4 = []).
Proof. vm_compute. repeat split. Qed.

(** C2 (as amended). For a broadcast task whose status is done or
    cancelled, the status survives confirmation and completion:
    [confirm_broadcast_done] changes nothing in the store and reports the
    conflict, and [complete_task] by a target leaves the status as it is,
    while it still records that target's completion row. *)
Theorem terminal_broadcast_status_kept (e : env) (teamId taskId actor : string)
  (cb : option string) (src : option (string * string)) (w : world) (task : task) :
  truthy teamId = true ->
  truthy taskId = true ->
  fst (dbGetTaskById teamId taskId w) = Some task ->
  is_broadcast task = true ->
  includes ["done"; "cancelled"] (status task) = true ->
  (let w' := snd (confirm_broadcast_done e teamId taskId actor src w) in
   w_db w' = w_db w
   /\ w_log w' = w_log w
        ++ [Ephemeral (opt_or (channel_id task) actor) actor
              "もう完了（または取り下げ）になってるよ！"])
  /\ (fst (dbIsUserTarget teamId taskId actor w) = true ->
      let w' := snd (complete_task e teamId taskId actor cb w) in
      exists t',
        fst (dbGetTaskById teamId taskId w') = Some t'
        /\ status t' = status task
        /\ completions_of w'
           = insert_member teamId taskId actor (completions_of w)).
Proof.
  intros Hteam Htask Hget Hb Hst. split.
  - apply confirm_broadcast_done_conflict; assumption.
  - intros Htarget w'.
    destruct (complete_task_effect e teamId taskId actor cb w task
                Hteam Htask Hget Hb Htarget)
      as (Hc & _ & _ & t' & Hf & _ & _ & Hcase).
    fold w' in Hc, Hf, Hcase.
    assert (Hin : includes ["waiting"; "done"; "cancelled"] (status task) = true).
    { unfold includes in *. simpl in *. rewrite orb_false_r in *.
      rewrite Hst. apply orb_true_r. }
    destruct (all_done teamId taskId actor task w).
    + destruct Hcase as (Hs & _). rewrite Hin in Hs.
      exists t'. rewrite getTask_find. repeat split; assumption.
    + destruct Hcase as (Htasks & _).
      exists task. rewrite getTask_find, Htasks. repeat split; assumption.
Qed.

(** A target completes the cancelled broadcast task: still cancelled, the
    row is there. *)
Lemma terminal_broadcast_status_kept_witness :
  let w := world0 "cancelled" [] in
  let w' := snd (complete_task env0 "T1" "task-2" "UA" None w) in
  fst (dbGetTaskById "T1" "task-2" w) = Some (broadcast0 "cancelled")
  /\ exists t',
       fst (dbGetTaskById "T1" "task-2" w') = Some t'
       /\ status t' = "cancelled"
       /\ completions_of w' = [mkMember "task-2" "T1" "UA"].
Proof.
  intros w w'. split; [reflexivity |].
  exact (proj2 (terminal_broadcast_status_kept env0 "T1" "task-2" "UA" None None w
                  (broadcast0 "cancelled") eq_refl eq_refl eq_refl eq_refl eq_refl)
           eq_refl).
Defined.

(** ** Authorization *)

(** C8 (the failing input). On the personal task of requester UR and
    assignee UX, [complete_task] pressed by a third user UZ sets the status
    to done and reports nothing. *)
Theorem complete_task_personal_third_party :
  let w := world0 "in_progress" [] in
  let w' := snd (complete_task env0 "T1" "task-1" "UZ" None w) in
  fst (dbGetTaskById "T1" "task-1" w) = Some personal0
  /\ is_broadcast personal0 = false
  /\ requester_user_id personal0 <> "UZ"
  /\ assignee_id personal0 <> Some "UZ"
  /\ status personal0 = "waiting"
  /\ option_map status (fst (dbGetTaskById "T1" "task-1" w')) = Some "done"
  /\ ephemerals w' = [].
Proof. vm_compute. repeat split; discriminate. Qed.

(** The personal branch of [complete_task] never looks at the actor. *)
Lemma complete_task_personal_any_actor e teamId taskId actor cb w task :
  truthy teamId = true ->
  truthy taskId = true ->
  fst (dbGetTaskById teamId taskId w) = Some task ->
  is_broadcast task = false ->
  option_map status
    (fst (dbGetTaskById teamId taskId
            (snd (complete_task e teamId taskId actor cb w)))) = Some "done".
Proof.
  intros Hteam Htask Hget Hb. rewrite getTask_find in Hget. unfold tasks_of in Hget.
  unfold complete_task. rewrite Hteam, Htask. cbn [negb orb].
  rewrite bind_run, !(getTask_run _ _ w). cbn [fst snd]. rewrite Hget, Hb.
  rewrite bind_run. unfold dbUpdateStatus. rewrite update_task_run.
  cbn [fst snd]. rewrite Hget. cbn [option_map].
  rewrite getTask_find.
  match goal with
  | |- option_map _ (find _ (tasks_of (snd (?m ?w0)))) = _ =>
    assert (Hk : keeps tasks_of m)
  end.
  { unfold_messages. frame; first [apply refresh_card_keeps_tasks | keeps_leaf]. }
  rewrite Hk. unfold tasks_of. simpl.
  rewrite find_map_upd by reflexivity. rewrite Hget. reflexivity.
Qed.

(** The checks the handlers do make: each rejects before any write;
    [cancel_task], [status_select] and the broadcast branch of
    [complete_task] tell the actor, [edit_task_modal] just stops. *)
Lemma cancel_task_requester_only e teamId taskId actor cb w task :
  truthy teamId = true ->
  truthy taskId = true ->
  fst (dbGetTaskById teamId taskId w) = Some task ->
  requester_user_id task <> actor ->
  let w' := snd (cancel_task e teamId taskId actor cb w) in
  w_db w' = w_db w
  /\ w_log w' = w_log w
       ++ [Ephemeral (opt_or (channel_id task) actor) actor
             "🥺 取り下げできるのは依頼者だけだよ…！"].
Proof.
  intros Hteam Htask Hget Hreq. rewrite getTask_find in Hget. unfold tasks_of in Hget.
  unfold cancel_task. rewrite Hteam, Htask. cbn [negb orb].
  rewrite bind_run, getTask_run. cbn [fst snd]. rewrite Hget.
  apply String.eqb_neq in Hreq. rewrite Hreq. split; reflexivity.
Qed.

Lemma status_select_requester_or_assignee e teamId taskId st actor cb w task :
  truthy teamId = true ->
  truthy taskId = true ->
  truthy_opt st = true ->
  fst (dbGetTaskById teamId taskId w) = Some task ->
  is_broadcast task = false ->
  requester_user_id task <> actor ->
  assignee_id task <> Some actor ->
  let w' := snd (status_select e teamId taskId st actor cb w) in
  w_db w' = w_db w
  /\ w_log w' = w_log w
       ++ [Ephemeral (opt_or (channel_id task) actor) actor
             "🥺 ステータス変更できるのは依頼者か対応者だけだよ…！"].
Proof.
  intros Hteam Htask Hst Hget Hb Hreq Hasg.
  rewrite getTask_find in Hget. unfold tasks_of in Hget.
  unfold status_select. rewrite Hteam, Htask, Hst. cbn [negb orb]. cbv zeta.
  rewrite bind_run, getTask_run. cbn [fst snd]. rewrite Hget, Hb.
  apply String.eqb_neq in Hreq. rewrite Hreq.
  assert (Ha : eqb_opt (assignee_id task) actor = false).
  { unfold eqb_opt. destruct (assignee_id task) as [a |]; [| reflexivity].
    apply String.eqb_neq. congruence. }
  rewrite Ha. split; reflexivity.
Qed.

Lemma edit_task_modal_unauthorized e teamId taskId actor a d c w task :
  truthy c = true ->
  fst (dbGetTaskById teamId taskId w) = Some task ->
  canEditTask task actor = false ->
  snd (edit_task_modal e teamId taskId actor a d c w) = w.
Proof.
  intros Hc Hget Hcan. rewrite getTask_find in Hget. unfold tasks_of in Hget.
  unfold edit_task_modal. rewrite Hc. cbn [negb].
  rewrite bind_run, getTask_run. cbn [fst snd]. rewrite Hget, Hcan. reflexivity.
Qed.

Lemma complete_task_targets_only e teamId taskId actor cb w task :
  truthy teamId = true ->
  truthy taskId = true ->
  fst (dbGetTaskById teamId taskId w) = Some task ->
  is_broadcast task = true ->
  fst (dbIsUserTarget teamId taskId actor w) = false ->
  let w' := snd (complete_task e teamId taskId actor cb w) in
  w_db w' = w_db w
  /\ w_log w' = w_log w
       ++ [Ephemeral (opt_or (channel_id task) actor) actor
             "🥺 このタスクの対象者じゃないみたい…！"].
Proof.
  intros Hteam Htask Hget Hb Htarget.
  rewrite getTask_find in Hget. unfold tasks_of in Hget.
  unfold complete_task. rewrite Hteam, Htask. cbn [negb orb].
  rewrite bind_run, getTask_run. cbn [fst snd]. rewrite Hget, Hb.
  rewrite bind_run.
  change (snd (dbIsUserTarget teamId taskId actor w)) with w.
  rewrite Htarget. split; reflexivity.
Qed.

(** Completion rows stay within the target rows. *)

Lemma insert_member_incl teamId taskId userId l x :
  In x l -> In x (insert_member teamId taskId userId l).
Proof.
  intros H. unfold insert_member.
  destruct (existsb (member_key taskId userId) l); [exact H |].
  apply in_or_app. left. exact H.
Qed.

Lemma insert_members_incl teamId taskId us : forall l x,
  In x l -> In x (fold_left (fun acc uid => insert_member teamId taskId uid acc) us l).
Proof.
  induction us as [| u us IH]; intros l x H; simpl; [exact H |].
  apply IH, insert_member_incl, H.
Qed.

Lemma within_targets_grow (f : list member_row -> list member_row) :
  (forall l x, In x l -> In x (f l)) ->
  preserves completions_within_targets (exec (set_targets f)).
Proof.
  intros Hf w H r Hr. specialize (H r Hr).
  apply existsb_exists in H. destruct H as (x & Hx & Hp).
  apply existsb_exists. exists x. split; [apply Hf; exact Hx | exact Hp].
Qed.

Lemma within_targets_untouched {A} (m : M A) :
  (forall w, completions_of (snd (m w)) = completions_of w
             /\ targets_of (snd (m w)) = targets_of w) ->
  preserves completions_within_targets m.
Proof.
  intros Hm w H r. destruct (Hm w) as [Hc Ht].
  unfold completions_within_targets in H. rewrite Hc, Ht. apply H.
Qed.

Lemma target_guard_preserves teamId taskId userId (m_else rest : M unit) :
  preserves completions_within_targets m_else ->
  preserves completions_within_targets rest ->
  preserves completions_within_targets
    (isTarget <- dbIsUserTarget teamId taskId userId ;;
     if negb isTarget then m_else
     else dbUpsertCompletion teamId taskId userId ;;; rest).
Proof.
  intros Helse Hrest w H. rewrite bind_run.
  change (snd (dbIsUserTarget teamId taskId userId w)) with w.
  destruct (fst (dbIsUserTarget teamId taskId userId w)) eqn:Ht; cbn [negb].
  - rewrite bind_run. apply Hrest.
    intros r Hr. unfold dbUpsertCompletion, completions_of, targets_of in *.
    simpl in *. unfold insert_member in Hr.
    destruct (existsb (member_key taskId userId) (task_completions (w_db w)));
      [apply H; exact Hr |].
    apply in_app_or in Hr. destruct Hr as [Hr | [<- | []]]; [apply H; exact Hr |].
    exact Ht.
  - apply Helse. exact H.
Qed.

Lemma dispatch_within_targets e r :
  preserves completions_within_targets (dispatch e r).
Proof.
  destruct r; unfold dispatch; unfold_handlers;
    repeat (cbv zeta; first [apply target_guard_preserves | frame_step]);
    unfold_cards; unfold_store; unfold_messages; frame;
    first [ apply within_targets_grow; intros ? ?; apply insert_members_incl
          | apply within_targets_untouched; intros ?; split; reflexivity ].
Qed.

Lemma run_within_targets rs : completions_within_targets (run rs initial).
Proof.
  assert (H : forall w, completions_within_targets w ->
                        completions_within_targets (run rs w)).
  { induction rs as [| [e r] rs IH]; simpl; intros w Hw; [exact Hw |].
    apply IH, dispatch_within_targets, Hw. }
  apply H. intros r [].
Qed.

(** * Further properties *)

(** ** Invariants of the task rows *)

Section TaskRowInvariant.
Context (P : task -> Prop).

Lemma all_tasks_update (g : task -> task) :
  (forall t, P t -> P (g t)) ->
  preserves (all_tasks P) (exec (set_tasks (map g))).
Proof.
  intros Hg w H. unfold all_tasks, tasks_of in *. simpl.
  induction H as [| t l Ht Hl IH]; simpl; constructor; auto.
Qed.

Lemma all_tasks_insert (row : task) :
  P row -> preserves (all_tasks P) (exec (set_tasks (fun l => l ++ [row]))).
Proof.
  intros Hrow w H. unfold all_tasks, tasks_of in *. simpl.
  apply Forall_app. split; [exact H | constructor; [exact Hrow | constructor]].
Qed.

Lemma all_tasks_untouched {A} (m : M A) :
  keeps tasks_of m -> preserves (all_tasks P) m.
Proof. intros Hk w H. unfold all_tasks. rewrite Hk. exact H. Qed.

Lemma run_all_tasks :
  (forall e r, preserves (all_tasks P) (dispatch e r)) ->
  forall rs w, all_tasks P w -> all_tasks P (run rs w).
Proof.
  intros Hd rs. induction rs as [| [e r] rs IH]; simpl; intros w H; [exact H |].
  apply IH. apply Hd. exact H.
Qed.
End TaskRowInvariant.

(** Walk a handler down to its statements; a write to [tasks] is left to
    [upd] (an update of the rows under a key) or [ins] (a new row). *)
Ltac task_rows upd ins :=
  unfold dispatch; unfold_handlers; unfold_cards; unfold_store; unfold_messages;
  frame;
  first [ apply all_tasks_untouched; intros ?; reflexivity
        | apply all_tasks_insert; ins
        | apply all_tasks_update;
          let t := fresh "t" in
          let Ht := fresh "Ht" in
          intros t Ht;
          repeat match goal with
                 | |- context [if task_key ?a ?b t then _ else _] =>
                   destruct (task_key a b t)
                 | |- context [match notified_at t with _ => _ end] =>
                   destruct (notified_at t) eqn:?
                 end;
          first [ exact Ht | upd Ht ] ].

Lemma done_stamped_status e st t : done_stamped t -> done_stamped (with_status e st t).
Proof.
  unfold done_stamped. simpl. intros _ H. rewrite H. simpl. discriminate.
Qed.

Lemma dispatch_done_stamped e r :
  preserves (all_tasks done_stamped) (dispatch e r).
Proof.
  destruct r;
    task_rows ltac:(fun Ht => first [ apply done_stamped_status; exact Ht
                                    | intros H; discriminate H
                                    | exact Ht ])
              ltac:(intros H; discriminate H).
Qed.

(** X1. Whatever handlers have run, a task whose status is done has its
    completion time recorded. *)
Theorem done_tasks_are_stamped (rs : list (env * request)) :
  all_tasks done_stamped (run rs initial).
Proof.
  apply run_all_tasks; [exact dispatch_done_stamped | constructor].
Qed.

Lemma dispatch_counter_zero e r :
  preserves (all_tasks counter_zero) (dispatch e r).
Proof.
  destruct r;
    task_rows ltac:(fun Ht => first [ exact Ht | reflexivity ])
              ltac:(reflexivity).
Qed.

(** X2. Whatever handlers have run, the stored [completed_count] of every
    task is 0: recording a completion never writes the counter, the count
    is always taken from the completion rows. *)
Theorem completed_count_stays_zero (rs : list (env * request)) :
  all_tasks counter_zero (run rs initial).
Proof.
  apply run_all_tasks; [exact dispatch_counter_zero | constructor].
Qed.

(** ** Rows are kept *)

Lemma row_kept_refl t : row_kept t t.
Proof. unfold row_kept. repeat split; auto. Qed.

Lemma row_kept_trans t u v : row_kept t u -> row_kept u v -> row_kept t v.
Proof.
  unfold row_kept. intros H1 H2.
  repeat match goal with H : _ /\ _ |- _ => destruct H end.
  repeat split; try congruence; auto.
Qed.

Lemma Forall2_row_kept_refl l : Forall2 row_kept l l.
Proof. induction l; constructor; [apply row_kept_refl | assumption]. Qed.

Lemma rows_kept_update l0 (g : task -> task) :
  (forall t, row_kept t (g t)) ->
  preserves (rows_kept l0) (exec (set_tasks (map g))).
Proof.
  intros Hg w (l & extra & Hl & Hf). exists (map g l), (map g extra).
  unfold tasks_of in *. simpl. rewrite Hl, map_app. split; [reflexivity |].
  clear Hl. induction Hf as [| t u l0 l Htu Hf IH]; simpl; constructor.
  - apply (row_kept_trans t u); [exact Htu | apply Hg].
  - exact IH.
Qed.

Lemma rows_kept_insert l0 (row : task) :
  preserves (rows_kept l0) (exec (set_tasks (fun l => l ++ [row]))).
Proof.
  intros w (l & extra & Hl & Hf). exists l, (extra ++ [row]).
  unfold tasks_of in *. simpl. rewrite Hl, app_assoc. split; [reflexivity | exact Hf].
Qed.

Lemma rows_kept_untouched l0 {A} (m : M A) :
  keeps tasks_of m -> preserves (rows_kept l0) m.
Proof. intros Hk w H. unfold rows_kept in *. rewrite Hk. exact H. Qed.

Ltac row_kept_tac :=
  let t := fresh "t" in
  intros t; unfold row_kept;
  repeat match goal with
         | |- context [if task_key ?a ?b t then _ else _] =>
           destruct (task_key a b t)
         | |- context [match notified_at t with _ => _ end] =>
           destruct (notified_at t) eqn:?
         end;
  simpl; repeat split; auto;
  repeat match goal with
         | |- context [if ?c then _ else _] => destruct c
         end; auto;
  repeat match goal with
         | H : notified_at _ = _ |- _ => rewrite H
         end; auto.

Lemma dispatch_rows_kept l0 e r : preserves (rows_kept l0) (dispatch e r).
Proof.
  destruct r; unfold dispatch; unfold_handlers; unfold_cards; unfold_store;
    unfold_messages; frame;
    first [ apply rows_kept_untouched; intros ?; reflexivity
          | apply rows_kept_insert
          | apply rows_kept_update; row_kept_tac ].
Qed.

(** X3. Tasks are never deleted or reordered, and no handler rewrites what
    creation wrote: after any handlers have run, the rows that were there
    are still the first rows of [tasks], each with the same id, team,
    source message, title, requester, creator, label, type and creation
    time, and with every stamp (completed, cancelled, notified) that was
    set still set. *)
Theorem tasks_rows_kept (rs : list (env * request)) (w : world) :
  rows_kept (tasks_of w) (run rs w).
Proof.
  assert (H : forall l0 w0, rows_kept l0 w0 -> rows_kept l0 (run rs w0)).
  { intros l0. induction rs as [| [e r] rs IH]; simpl; intros w0 H0; [exact H0 |].
    apply IH. apply dispatch_rows_kept. exact H0. }
  apply H. exists (tasks_of w), []. rewrite app_nil_r.
  split; [reflexivity | apply Forall2_row_kept_refl].
Qed.

(** ** Keys of the tables *)

Lemma insert_members_unique teamId taskId us : forall l,
  members_unique l ->
  members_unique (fold_left (fun acc uid => insert_member teamId taskId uid acc) us l).
Proof.
  induction us as [| u us IH]; intros l H; simpl; [exact H |].
  apply IH, insert_member_unique, H.
Qed.

Lemma dispatch_targets_unique e r :
  preserves (fun w => members_unique (targets_of w)) (dispatch e r).
Proof.
  destruct r; unfold dispatch; unfold_handlers; unfold_cards; unfold_store;
    unfold_messages; frame;
    first [ intros w H; apply insert_members_unique; exact H
          | apply (preserves_keeps targets_of members_unique);
            intros ?; reflexivity ].
Qed.

(** X4. After any handlers have run the target table respects its unique
    key: at most one target row for every (task, user), also when a user
    was selected twice, or both selected and a member of a selected
    group. *)
Theorem target_rows_unique (rs : list (env * request)) :
  members_unique (targets_of (run rs initial)).
Proof.
  assert (H : forall w, members_unique (targets_of w) ->
                        members_unique (targets_of (run rs w))).
  { induction rs as [| [e r] rs IH]; simpl; intros w Hw; [exact Hw |].
    apply IH, dispatch_targets_unique, Hw. }
  apply H. intros t u. simpl. lia.
Qed.

(** X5. After any handlers have run every completion row belongs to a user
    who has a target row for the same task and team: only targets get
    their completion recorded. *)
Theorem completions_are_targets (rs : list (env * request)) :
  completions_within_targets (run rs initial).
Proof. apply run_within_targets. Qed.

(** The completion row of UA after the run [run0]. *)
Lemma completions_are_targets_witness :
  completions_of (run run0 initial) = [mkMember "task-9" "T1" "UA"]
  /\ fst (dbIsUserTarget "T1" "task-9" "UA" (run run0 initial)) = true.
Proof.
  split; [reflexivity |].
  apply (completions_are_targets run0 (mkMember "task-9" "T1" "UA")).
  left. reflexivity.
Defined.

(** ** Refusals *)

(** X6. What the handlers refuse, they refuse before writing anything.
    For a stored task: [cancel_task] by anyone but the requester,
    [status_select] on a personal task by anyone but requester and
    assignee, and [complete_task] on a broadcast task by a user without a
    target row each write nothing and answer the actor with one ephemeral
    message; [edit_task_modal] by a user who may not edit (on a personal
    task anyone but requester and assignee, on a broadcast task anyone but
    the requester, a target included) leaves the world as it is. *)
Theorem unauthorized_requests_refused (e : env) (teamId taskId actor : string)
  (cb st a d : option string) (c : string) (w : world) (task : task) :
  truthy teamId = true ->
  truthy taskId = true ->
  fst (dbGetTaskById teamId taskId w) = Some task ->
  (requester_user_id task <> actor ->
   let w' := snd (cancel_task e teamId taskId actor cb w) in
   w_db w' = w_db w
   /\ w_log w' = w_log w
        ++ [Ephemeral (opt_or (channel_id task) actor) actor
              "🥺 取り下げできるのは依頼者だけだよ…！"])
  /\ (truthy_opt st = true ->
      is_broadcast task = false ->
      requester_user_id task <> actor ->
      assignee_id task <> Some actor ->
      let w' := snd (status_select e teamId taskId st actor cb w) in
      w_db w' = w_db w
      /\ w_log w' = w_log w
           ++ [Ephemeral (opt_or (channel_id task) actor) actor
                 "🥺 ステータス変更できるのは依頼者か対応者だけだよ…！"])
  /\ (is_broadcast task = true ->
      fst (dbIsUserTarget teamId taskId actor w) = false ->
      let w' := snd (complete_task e teamId taskId actor cb w) in
      w_db w' = w_db w
      /\ w_log w' = w_log w
           ++ [Ephemeral (opt_or (channel_id task) actor) actor
                 "🥺 このタスクの対象者じゃないみたい…！"])
  /\ (truthy c = true ->
      canEditTask task actor = false ->
      snd (edit_task_modal e teamId taskId actor a d c w) = w).
Proof.
  intros Hteam Htask Hget. split; [| split; [| split]].
  - intros H. apply cancel_task_requester_only; assumption.
  - intros Hst Hb Hr Ha.
    apply status_select_requester_or_assignee; assumption.
  - intros Hb Ht. apply complete_task_targets_only; assumption.
  - intros Hc He. apply (edit_task_modal_unauthorized e teamId taskId actor a d c
                           w task Hc Hget He).
Qed.

(** The assignee UX tries to cancel the personal task of requester UR, and
    a third user UZ to set it to done. *)
Lemma unauthorized_requests_refused_witness :
  let w := world0 "in_progress" [] in
  w_log (snd (cancel_task env0 "T1" "task-1" "UX" None w))
  = [Ephemeral "C1" "UX" "🥺 取り下げできるのは依頼者だけだよ…！"]
  /\ w_db (snd (status_select env0 "T1" "task-1" (Some "done") "UZ" None w)) = w_db w
  /\ snd (edit_task_modal env0 "T1" "task-1" "UZ" None None "new text" w) = w.
Proof.
  cbv zeta. split; [| split].
  - destruct (unauthorized_requests_refused env0 "T1" "task-1" "UX" None
                (Some "done") None None "new text" (world0 "in_progress" [])
                personal0 eq_refl eq_refl eq_refl) as (H & _).
    apply H. discriminate.
  - destruct (unauthorized_requests_refused env0 "T1" "task-1" "UZ" None
                (Some "done") None None "new text" (world0 "in_progress" [])
                personal0 eq_refl eq_refl eq_refl) as (_ & H & _).
    apply H; [reflexivity | reflexivity | discriminate | discriminate].
  - destruct (unauthorized_requests_refused env0 "T1" "task-1" "UZ" None
                (Some "done") None None "new text" (world0 "in_progress" [])
                personal0 eq_refl eq_refl eq_refl) as (_ & _ & _ & H).
    apply H; reflexivity.
Defined.

(** X7. [status_select] on a broadcast task is refused for every actor,
    the requester included, and whatever status was selected: nothing is
    written and the actor gets one ephemeral message. *)
Theorem status_select_refuses_broadcast (e : env) (teamId taskId : string)
  (st : option string) (actor : string) (cb : option string) (w : world)
  (task : task) :
  truthy teamId = true ->
  truthy taskId = true ->
  truthy_opt st = true ->
  fst (dbGetTaskById teamId taskId w) = Some task ->
  is_broadcast task = true ->
  let w' := snd (status_select e teamId taskId st actor cb w) in
  w_db w' = w_db w
  /\ w_log w' = w_log w
       ++ [Ephemeral (opt_or (channel_id task) actor) actor
             "🥺 複数タスクのステータスは自動で進むよ（全員完了→確認待ち→依頼者の確認完了）"].
Proof.
  intros Hteam Htask Hst Hget Hb.
  rewrite getTask_find in Hget. unfold tasks_of in Hget.
  unfold status_select. rewrite Hteam, Htask, Hst. cbn [negb orb]. cbv zeta.
  rewrite bind_run, getTask_run. cbn [fst snd]. rewrite Hget, Hb.
  split; reflexivity.
Qed.

(** The requester UR selects done on their broadcast task. *)
Lemma status_select_refuses_broadcast_witness :
  let w := world0 "in_progress" [] in
  let w' := snd (status_select env0 "T1" "task-2" (Some "done") "UR" None w) in
  requester_user_id (broadcast0 "in_progress") = "UR"
  /\ w_db w' = w_db w
  /\ w_log w' = [Ephemeral "C1" "UR"
                   "🥺 複数タスクのステータスは自動で進むよ（全員完了→確認待ち→依頼者の確認完了）"].
Proof.
  intros w w'. split; [reflexivity |].
  apply (status_select_refuses_broadcast env0 "T1" "task-2" (Some "done") "UR" None w
           (broadcast0 "in_progress") eq_refl eq_refl eq_refl eq_refl eq_refl).
Defined.

(** ** Updates of a missing row *)

Lemma map_unmatched {A} (k : A -> bool) (f : A -> A) (l : list A) :
  find k l = None -> map (fun x => if k x then f x else x) l = l.
Proof.
  induction l as [| x l IH]; simpl; [reflexivity |].
  destruct (k x); [discriminate |]. intros H. rewrite IH by exact H. reflexivity.
Qed.

Lemma update_task_missing teamId taskId f w :
  fst (dbGetTaskById teamId taskId w) = None ->
  update_task teamId taskId f w = (None, w).
Proof.
  intros H. rewrite getTask_find in H. unfold tasks_of in H.
  rewrite update_task_run, H. simpl. unfold set_tasks.
  rewrite (map_unmatched _ _ _ H). destruct w as [[ts tg cp cs] lg]. reflexivity.
Qed.

(** X8. The four updates of a task row, for a (team, id) that has no row:
    each returns null and leaves the world as it is; in particular a task
    id of another team is never touched. *)
Theorem update_of_missing_task (e : env) (teamId taskId st actor : string)
  (p : patch) (done : Z) (total : option Z) (w : world) :
  fst (dbGetTaskById teamId taskId w) = None ->
  dbUpdateStatus e teamId taskId st w = (None, w)
  /\ dbUpdateTaskContent e teamId taskId p w = (None, w)
  /\ dbCancelTask e teamId taskId actor w = (None, w)
  /\ dbUpdateBroadcastCounts e teamId taskId done total w = (None, w).
Proof.
  intros H. repeat split; apply update_task_missing; exact H.
Qed.

(** The personal task of team T1, addressed under team T2. *)
Lemma update_of_missing_task_witness :
  let w := world0 "in_progress" [] in
  fst (dbGetTaskById "T1" "task-1" w) = Some personal0
  /\ dbUpdateStatus env0 "T2" "task-1" "done" w = (None, w)
  /\ dbCancelTask env0 "T2" "task-1" "UR" w = (None, w).
Proof.
  intros w. split; [reflexivity |].
  destruct (update_of_missing_task env0 "T2" "task-1" "done" "UR"
              (mkPatch Undefined Undefined Undefined Undefined) 0 None w eq_refl)
    as (H1 & _ & H3 & _).
  split; [exact H1 | exact H3].
Defined.

(** ** The newest task of a message *)

Lemma latest_In (l : list task) t : latest l = Some t -> In t l.
Proof.
  revert t. induction l as [| x l IH]; simpl; intros t H; [discriminate |].
  destruct (latest l) as [u |].
  - destruct (created_at x <? created_at u); inversion H; subst.
    + right. apply IH. reflexivity.
    + left. reflexivity.
  - inversion H. left. reflexivity.
Qed.

Lemma latest_none (l : list task) : latest l = None <-> l = [].
Proof.
  split; [| intros ->; reflexivity].
  destruct l as [| x l]; [reflexivity |]. simpl.
  destruct (latest l) as [u |]; [destruct (created_at x <? created_at u) |];
    discriminate.
Qed.

Lemma latest_newest (l : list task) t :
  latest l = Some t -> forall u, In u l -> created_at u <= created_at t.
Proof.
  revert t. induction l as [| x l IH]; simpl; intros t H u Hu; [contradiction |].
  destruct (latest l) as [v |] eqn:E.
  - destruct (created_at x <? created_at v) eqn:Hlt; inversion H; subst.
    + apply Z.ltb_lt in Hlt. destruct Hu as [<- | Hu]; [lia |].
      apply (IH t eq_refl u Hu).
    + apply Z.ltb_ge in Hlt. destruct Hu as [<- | Hu]; [lia |].
      specialize (IH v eq_refl u Hu). lia.
  - inversion H; subst. apply latest_none in E. subst l.
    destruct Hu as [<- | []]. lia.
Qed.

(** X9. [dbGetTaskBySource] answers null exactly when no task was made
    from the message; otherwise it answers a stored task of that team,
    channel and message, and no task made from the message is newer. *)
Theorem dbGetTaskBySource_newest (teamId channelId messageTs : string) (w : world) :
  snd (dbGetTaskBySource teamId channelId messageTs w) = w
  /\ match fst (dbGetTaskBySource teamId channelId messageTs w) with
     | None =>
       forall t, In t (tasks_of w) ->
                 from_source teamId channelId messageTs t = false
     | Some t =>
       In t (tasks_of w)
       /\ team_id t = teamId
       /\ channel_id t = Some channelId
       /\ message_ts t = Some messageTs
       /\ forall u, In u (tasks_of w) ->
                    from_source teamId channelId messageTs u = true ->
                    created_at u <= created_at t
     end.
Proof.
  split; [reflexivity |].
  unfold dbGetTaskBySource, query. cbn [fst].
  change (fun t : task => (team_id t =? teamId)%string
                          && eqb_opt (channel_id t) channelId
                          && eqb_opt (message_ts t) messageTs)
    with (from_source teamId channelId messageTs).
  fold (tasks_of w).
  destruct (latest (filter (from_source teamId channelId messageTs) (tasks_of w)))
    as [t |] eqn:E.
  - pose proof (latest_In _ _ E) as Hin. apply filter_In in Hin.
    destruct Hin as [Hin Hsrc]. split; [exact Hin |].
    unfold from_source in Hsrc. apply andb_true_iff in Hsrc.
    destruct Hsrc as [Hsrc Hts]. apply andb_true_iff in Hsrc.
    destruct Hsrc as [Hteam Hch]. apply String.eqb_eq in Hteam.
    unfold eqb_opt in Hch, Hts.
    destruct (channel_id t) as [c |]; [| discriminate].
    destruct (message_ts t) as [m |]; [| discriminate].
    apply String.eqb_eq in Hch, Hts. subst.
    repeat split. intros u Hu Hsrc.
    apply (latest_newest _ _ E). apply filter_In. split; assumption.
  - apply latest_none in E. intros t Hin.
    destruct (from_source teamId channelId messageTs t) eqn:Hs; [| reflexivity].
    assert (Hf : In t (filter (from_source teamId channelId messageTs) (tasks_of w))).
    { apply filter_In. split; assumption. }
    rewrite E in Hf. contradiction.
Qed.

(** ** One task for one reacted message *)

Lemma getBySource_run teamId channelId messageTs w :
  dbGetTaskBySource teamId channelId messageTs w
  = (latest (filter (from_source teamId channelId messageTs) (tasks_of w)), w).
Proof. reflexivity. Qed.

(** The handler stops when the message already has a task. *)
Lemma reaction_create_existing lookups card e actor today p w :
  truthy_opt (option_map id
    (fst (dbGetTaskBySource (rp_teamId p) (rp_channelId p) (rp_msgTs p) w))) = true ->
  snd (reaction_task_confirm_create_try lookups card e actor today p w) = w.
Proof.
  intros H. unfold reaction_task_confirm_create_try. cbv zeta.
  destruct (negb (truthy (rp_teamId p)) || negb (truthy (rp_channelId p))
            || negb (truthy (rp_msgTs p)) || negb (truthy actor));
    [reflexivity |].
  rewrite bind_run. rewrite getBySource_run in *. cbn [fst snd] in *.
  rewrite H. reflexivity.
Qed.

(** A throw of the look-ups ends the handler before anything is written. *)
Lemma reaction_create_thrown card e actor today p w :
  snd (reaction_task_confirm_create_try false card e actor today p w) = w.
Proof.
  unfold reaction_task_confirm_create_try. cbv zeta.
  destruct (negb (truthy (rp_teamId p)) || negb (truthy (rp_channelId p))
            || negb (truthy (rp_msgTs p)) || negb (truthy actor));
    [reflexivity |].
  rewrite bind_run, getBySource_run. cbn [fst snd].
  destruct (truthy_opt _); reflexivity.
Qed.

Lemma upsertThreadCard_keeps_tasks_of e teamId channelId parentTs threadTs b :
  keeps tasks_of (upsertThreadCard e teamId channelId parentTs threadTs b).
Proof. apply upsertThreadCard_keeps_tasks. Qed.

(** X10. Pressing the create button of a reaction prompt twice makes one
    task, provided the look-ups of the first run answer.  In a store whose
    task ids are non-empty, and with a non-empty new id: after a run of
    [reaction_task_confirm_create] whose look-ups between the search and
    the insert ([prettifySlackText], [prettifyUserMentions],
    [resolveDeptForUser]) have answered, the message has a task, whether
    or not the card could be posted; and a further run for the same
    message, by whichever user, whatever else the payload carries and
    whichever of its calls throw, changes nothing.  A run whose look-ups
    throw leaves the world as it is: no task is stored, and the next press
    starts over. *)
Theorem reaction_create_once (e1 e2 : env) (card1 lookups2 card2 : bool)
  (actor1 actor2 today1 today2 : string) (p1 p2 : reaction_payload) (w : world) :
  truthy (rp_teamId p1) = true ->
  truthy (rp_channelId p1) = true ->
  truthy (rp_msgTs p1) = true ->
  truthy actor1 = true ->
  truthy (uuid_task e1) = true ->
  ids_truthy w ->
  rp_teamId p2 = rp_teamId p1 ->
  rp_channelId p2 = rp_channelId p1 ->
  rp_msgTs p2 = rp_msgTs p1 ->
  let w1 := snd (reaction_task_confirm_create_try true card1 e1 actor1 today1 p1 w) in
  (exists t,
     fst (dbGetTaskBySource (rp_teamId p1) (rp_channelId p1) (rp_msgTs p1) w1)
     = Some t)
  /\ (length (tasks_of w1) <= S (length (tasks_of w)))%nat
  /\ snd (reaction_task_confirm_create_try lookups2 card2 e2 actor2 today2 p2 w1) = w1
  /\ snd (reaction_task_confirm_create_try false card1 e1 actor1 today1 p1 w) = w.
Proof.
  intros Hteam Hch Hts Hactor Huuid Hids E1 E2 E3 w1.
  assert (Hmain :
    (exists t,
       fst (dbGetTaskBySource (rp_teamId p1) (rp_channelId p1) (rp_msgTs p1) w1)
       = Some t)
    /\ (length (tasks_of w1) <= S (length (tasks_of w)))%nat
    /\ snd (reaction_task_confirm_create_try lookups2 card2 e2 actor2 today2 p2 w1)
       = w1);
    [| destruct Hmain as (H1 & H2 & H3);
       split; [exact H1 | split; [exact H2 | split; [exact H3 |]]];
       apply reaction_create_thrown].
  destruct (truthy_opt (option_map id
              (fst (dbGetTaskBySource (rp_teamId p1) (rp_channelId p1)
                      (rp_msgTs p1) w)))) eqn:Hex.
  - (* the message has its task already *)
    assert (Hw1 : w1 = w) by (apply reaction_create_existing; exact Hex).
    rewrite Hw1. split; [| split].
    + destruct (fst (dbGetTaskBySource (rp_teamId p1) (rp_channelId p1)
                       (rp_msgTs p1) w)) as [t |]; [| discriminate].
      exists t. reflexivity.
    + lia.
    + apply reaction_create_existing. rewrite E1, E2, E3. exact Hex.
  - (* no task yet: the filter over the stored rows is empty *)
    rewrite getBySource_run in Hex. cbn [fst] in Hex.
    assert (Hnil : filter (from_source (rp_teamId p1) (rp_channelId p1) (rp_msgTs p1))
                     (tasks_of w) = []).
    { destruct (latest (filter (from_source (rp_teamId p1) (rp_channelId p1)
                                  (rp_msgTs p1)) (tasks_of w))) as [t |] eqn:El.
      - apply latest_In, filter_In in El. destruct El as [Hin _].
        simpl in Hex. rewrite (Hids t Hin) in Hex. discriminate.
      - apply latest_none. exact El. }
    assert (Htasks : exists row,
               tasks_of w1 = tasks_of w ++ [row]
               /\ id row = uuid_task e1
               /\ from_source (rp_teamId p1) (rp_channelId p1) (rp_msgTs p1) row
                  = true).
    { subst w1. unfold reaction_task_confirm_create_try. cbv zeta.
      rewrite Hteam, Hch, Hts, Hactor. cbn [negb orb].
      rewrite bind_run, getBySource_run. cbn [fst snd]. rewrite Hnil.
      cbn [latest option_map truthy_opt].
      eexists. split; [| split].
      - rewrite (bind_tail tasks_of).
        + rewrite dbCreateTask_run. unfold tasks_of. simpl. reflexivity.
        + intros a. frame; first [apply upsertThreadCard_keeps_tasks_of | keeps_leaf].
      - reflexivity.
      - unfold from_source, eqb_opt. simpl. rewrite !String.eqb_refl. reflexivity. }
    destruct Htasks as (row & Htasks & Hid & Hsrc).
    assert (Hget : fst (dbGetTaskBySource (rp_teamId p1) (rp_channelId p1)
                          (rp_msgTs p1) w1) = Some row).
    { rewrite getBySource_run. cbn [fst]. rewrite Htasks, filter_app, Hnil.
      simpl. rewrite Hsrc. reflexivity. }
    split; [| split].
    + exists row. exact Hget.
    + rewrite Htasks, length_app. simpl. lia.
    + apply reaction_create_existing. rewrite E1, E2, E3, Hget. simpl.
      rewrite Hid. exact Huuid.
Qed.

(** UX presses the button on a message of channel C9 and every call
    answers; UR presses it again.  Had the look-ups of UX's run thrown,
    the store would hold the two tasks it held before. *)
Lemma reaction_create_once_witness :
  let p := mkReactionPayload "T1" "C9" "1650.0001" (Some "UR") (Some "UX") None
             "please check" None in
  let w := world0 "in_progress" [] in
  let w1 := snd (reaction_task_confirm_create env0 "UX" "2026-04-20" p w) in
  length (tasks_of w1) = 3%nat
  /\ snd (reaction_task_confirm_create env0 "UR" "2026-04-21" p w1) = w1
  /\ snd (reaction_task_confirm_create_try false true env0 "UX" "2026-04-20" p w) = w.
Proof.
  intros p w w1. split; [reflexivity |].
  assert (Hids : ids_truthy w).
  { intros t [<- | [<- | []]]; reflexivity. }
  destruct (reaction_create_once env0 env0 true true true "UX" "UR"
              "2026-04-20" "2026-04-21" p p w
              eq_refl eq_refl eq_refl eq_refl eq_refl Hids eq_refl eq_refl eq_refl)
    as (_ & _ & H2 & H3).
  split; [exact H2 | exact H3].
Defined.

(** ** One prompt for one reacted message *)

Lemma getCard_run teamId channelId parentTs w :
  dbGetThreadCard teamId channelId parentTs w
  = (find (card_key teamId channelId parentTs) (cards_of w), w).
Proof. reflexivity. Qed.

(** The handler stops when the message already has a card. *)
Lemma reaction_added_existing_card e b teamId channelId msgTs actor root preview w c :
  find (card_key teamId channelId msgTs) (cards_of w) = Some c ->
  truthy (tc_card_ts c) = true ->
  snd (reaction_added e b teamId channelId msgTs actor root preview w) = w.
Proof.
  intros Hfind Hts. unfold reaction_added.
  destruct (negb b); [reflexivity |].
  destruct (negb (truthy teamId) || negb (truthy channelId)
            || negb (truthy msgTs) || negb (truthy actor)); [reflexivity |].
  rewrite bind_run, getCard_run. cbn [fst snd]. rewrite Hfind. simpl.
  rewrite Hts. reflexivity.
Qed.

(** X11. One message, one prompt.  When a task reaction is put on a
    message of a channel (not a DM) that has neither a card nor a task,
    and Slack answers the post with a message timestamp,
    [reaction_added] posts the prompt into the thread and stores its card;
    every later [reaction_added] on that message, by anyone, does
    nothing. *)
Theorem reaction_added_prompts_once (e1 e2 : env) (b2 : bool)
  (teamId channelId msgTs actor1 actor2 root1 root2 preview1 preview2 ts : string)
  (w : world) :
  truthy teamId = true ->
  truthy channelId = true ->
  truthy msgTs = true ->
  truthy actor1 = true ->
  String.prefix "D" channelId = false ->
  fst (dbGetThreadCard teamId channelId msgTs w) = None ->
  fst (dbGetTaskBySource teamId channelId msgTs w) = None ->
  post_ts e1 = Some ts ->
  truthy ts = true ->
  let w1 := snd (reaction_added e1 true teamId channelId msgTs actor1 root1
                   preview1 w) in
  w_log w1 = w_log w
             ++ [ChatPostMessage channelId (or_str root1 msgTs) (PromptCard preview1)]
  /\ option_map tc_card_ts (fst (dbGetThreadCard teamId channelId msgTs w1)) = Some ts
  /\ tasks_of w1 = tasks_of w
  /\ snd (reaction_added e2 b2 teamId channelId msgTs actor2 root2 preview2 w1) = w1.
Proof.
  intros Hteam Hch Hmsg Hactor Hdm Hcard Htask Hpost Hts w1.
  rewrite getCard_run in Hcard. cbn [fst] in Hcard.
  rewrite getBySource_run in Htask. cbn [fst] in Htask.
  assert (Hw1 : w1 = mkWorld
             (set_cards (fun l =>
                l ++ [mkCard (uuid_card e1) teamId channelId msgTs ts (now e1)])
                (w_db w))
             (w_log w ++ [ChatPostMessage channelId (or_str root1 msgTs)
                            (PromptCard preview1)])).
  { subst w1. unfold reaction_added. cbn [negb].
    rewrite Hteam, Hch, Hmsg, Hactor. cbn [negb orb].
    rewrite bind_run, getCard_run. cbn [fst snd]. rewrite Hcard.
    cbn [option_map truthy_opt].
    rewrite bind_run, getBySource_run. cbn [fst snd]. rewrite Htask.
    cbn [option_map truthy_opt]. rewrite Hdm. cbn [negb when].
    rewrite bind_run.
    rewrite (upsertThreadCard_post e1 teamId channelId msgTs (Some root1)
               (PromptCard preview1) w ts Hcard Hpost Hts).
    reflexivity. }
  assert (Hfind : find (card_key teamId channelId msgTs) (cards_of w1)
                  = Some (mkCard (uuid_card e1) teamId channelId msgTs ts (now e1))).
  { rewrite Hw1. unfold cards_of. simpl.
    apply find_app_none; [exact Hcard | apply card_key_refl]. }
  split; [| split; [| split]].
  - rewrite Hw1. reflexivity.
  - rewrite getCard_run. cbn [fst]. rewrite Hfind. reflexivity.
  - rewrite Hw1. reflexivity.
  - apply (reaction_added_existing_card e2 b2 teamId channelId msgTs actor2 root2
             preview2 w1 _ Hfind).
    exact Hts.
Qed.

(** UZ reacts to a message of channel C9, then UR reacts to it as well. *)
Lemma reaction_added_prompts_once_witness :
  let w := world0 "in_progress" [] in
  let w1 := snd (reaction_added env0 true "T1" "C9" "1650.0001" "UZ" "1650.0001"
                   "please check" w) in
  w_log w1 = [ChatPostMessage "C9" "1650.0001" (PromptCard "please check")]
  /\ snd (reaction_added env0 true "T1" "C9" "1650.0001" "UR" "1650.0001"
            "please check" w1) = w1.
Proof.
  intros w w1.
  destruct (reaction_added_prompts_once env0 env0 true "T1" "C9" "1650.0001"
              "UZ" "UR" "1650.0001" "1650.0001" "please check" "please check"
              "1700.0001" w
              eq_refl eq_refl eq_refl eq_refl eq_refl eq_refl eq_refl eq_refl eq_refl)
    as (Hlog & _ & _ & Hsecond).
  split; [exact Hlog | exact Hsecond].
Defined.

(** ** The daily reminder *)

Lemma insert_by_created_In t l x :
  In x (insert_by_created t l) <-> x = t \/ In x l.
Proof.
  induction l as [| u l IH]; simpl.
  - split; [intros [H | []]; left; auto | intros [H | []]; left; auto].
  - destruct (created_at u <=? created_at t); simpl; [rewrite IH |]; intuition auto.
Qed.

Lemma order_by_created_In l x : In x (order_by_created l) <-> In x l.
Proof.
  unfold order_by_created.
  assert (H : forall acc, In x (fold_left (fun acc t => insert_by_created t acc) l acc)
                          <-> In x l \/ In x acc).
  { induction l as [| t l IH]; intros acc; simpl; [tauto |].
    rewrite IH, insert_by_created_In. intuition auto. }
  rewrite H. simpl. tauto.
Qed.

Lemma insert_by_created_length t l :
  length (insert_by_created t l) = S (length l).
Proof.
  induction l as [| u l IH]; simpl; [reflexivity |].
  destruct (created_at u <=? created_at t); simpl; [rewrite IH |]; reflexivity.
Qed.

Lemma order_by_created_length l : length (order_by_created l) = length l.
Proof.
  unfold order_by_created.
  assert (H : forall acc,
             length (fold_left (fun acc t => insert_by_created t acc) l acc)
             = (length l + length acc)%nat).
  { induction l as [| t l IH]; intros acc; simpl; [reflexivity |].
    rewrite IH, insert_by_created_length. lia. }
  rewrite H. simpl. lia.
Qed.

Lemma Forall2_map_left {A B} (P Q : A -> B -> Prop) (f : A -> A) (l : list A) :
  forall l', Forall2 P (map f l) l' ->
             (forall a b, P (f a) b -> Q a b) ->
             Forall2 Q l l'.
Proof.
  induction l as [| a l IH]; simpl; intros l' H HPQ; inversion H; subst;
    constructor; auto.
Qed.

Lemma Forall2_right {A B} (P : A -> B -> Prop) (Q : B -> Prop) (l : list A) (l' : list B) :
  Forall2 P l l' -> (forall a b, In a l -> P a b -> Q b) -> Forall Q l'.
Proof.
  intros H. induction H as [| a b l l' Hab H IH]; intros HQ; constructor.
  - apply (HQ a b); [left; reflexivity | exact Hab].
  - apply IH. intros a' b' Hin. apply HQ. right. exact Hin.
Qed.

Lemma remind_tasks e t w :
  tasks_of (snd (remind e t w))
  = map (fun u => if task_key (team_id t) (id t) u then with_notified e u else u)
      (tasks_of w).
Proof.
  unfold remind. rewrite !bind_run.
  assert (Hk : forall k u x, keeps tasks_of (postDM k u x)).
  { intros k u x. unfold postDM. frame. keeps_leaf. }
  unfold tasks_of at 1. simpl. fold (tasks_of (snd (postDM KDueToday
    (opt_or (assignee_id t) "") t (snd (postDM KDueToday (requester_user_id t) t w))))).
  rewrite !Hk. reflexivity.
Qed.

Lemma forM_remind e (due : list task) : forall w,
  Forall2 (reminded due) (tasks_of w) (tasks_of (snd (forM due (remind e) w))).
Proof.
  induction due as [| t due IH]; intros w; simpl.
  - induction (tasks_of w) as [| u l IHl]; constructor; [| exact IHl].
    left. split; [reflexivity | intros ? []].
  - rewrite bind_run. specialize (IH (snd (remind e t w))).
    rewrite remind_tasks in IH at 1.
    apply (Forall2_map_left _ _ _ _ _ IH).
    intros u r [[-> Hno] | Hn].
    + destruct (task_key (team_id t) (id t) u) eqn:Hk.
      * right. reflexivity.
      * left. split; [reflexivity |].
        intros t' [<- | Hin]; [exact Hk | apply Hno; exact Hin].
    + right. exact Hn.
Qed.

Lemma runDueNotifyJob_run e today w :
  runDueNotifyJob e today w
  = forM (firstn 500 (order_by_created
            (filter (due_for_reminder today) (tasks_of w)))) (remind e) w.
Proof. reflexivity. Qed.

Lemma notified_not_due today r :
  is_some (notified_at r) = true -> due_for_reminder today r = false.
Proof.
  unfold due_for_reminder. destruct (notified_at r); [| discriminate].
  intros _. rewrite andb_false_r. reflexivity.
Qed.

(** X12. The daily reminder reminds once.  With at most 500 tasks due (the
    job's limit), after [runDueNotifyJob] no stored task is due for a
    reminder any more, and a second run on the same day writes nothing
    and sends nothing. *)
Theorem runDueNotifyJob_reminds_once (e1 e2 : env) (today : string) (w : world) :
  (length (filter (due_for_reminder today) (tasks_of w)) <= 500)%nat ->
  let w1 := snd (runDueNotifyJob e1 today w) in
  filter (due_for_reminder today) (tasks_of w1) = []
  /\ runDueNotifyJob e2 today w1 = (tt, w1).
Proof.
  intros Hlen w1.
  assert (Hnil : filter (due_for_reminder today) (tasks_of w1) = []).
  { subst w1. rewrite runDueNotifyJob_run.
    rewrite firstn_all2 by (rewrite order_by_created_length; exact Hlen).
    pose proof (forM_remind e1
                  (order_by_created (filter (due_for_reminder today) (tasks_of w))) w)
      as H.
    assert (Hall : Forall (fun r => due_for_reminder today r = false)
                     (tasks_of (snd (forM (order_by_created
                        (filter (due_for_reminder today) (tasks_of w)))
                        (remind e1) w)))).
    { apply (Forall2_right _ _ _ _ H). intros u r Hin [[-> Hno] | Hn].
      - destruct (due_for_reminder today u) eqn:Hd; [| reflexivity].
        assert (Hu : In u (order_by_created
                             (filter (due_for_reminder today) (tasks_of w)))).
        { apply order_by_created_In, filter_In. split; assumption. }
        specialize (Hno u Hu). rewrite task_key_refl in Hno. discriminate.
      - apply notified_not_due. exact Hn. }
    clear H. induction Hall as [| r l Hr Hall IH]; simpl; [reflexivity |].
    rewrite Hr. exact IH. }
  split; [exact Hnil |].
  rewrite runDueNotifyJob_run, Hnil. reflexivity.
Qed.

(** The personal task is due on 2026-04-25 and gets its reminder once. *)
Lemma runDueNotifyJob_reminds_once_witness :
  let w := world0 "in_progress" [] in
  let w1 := snd (runDueNotifyJob env0 "2026-04-25" w) in
  w_log w1 = [DM KDueToday "UR" "T1" "task-1"; DM KDueToday "UX" "T1" "task-1"]
  /\ runDueNotifyJob env0 "2026-04-25" w1 = (tt, w1).
Proof.
  intros w w1. split; [reflexivity |].
  refine (proj2 (runDueNotifyJob_reminds_once env0 env0 "2026-04-25" w _)).
  simpl. lia.
Defined.

(** ** Stored thread cards *)

Lemma preserves_bind_val {A B} (I : world -> Prop) (Q : A -> Prop)
  (m : M A) (f : A -> M B) :
  (forall w, I w -> I (snd (m w)) /\ Q (fst (m w))) ->
  (forall a, Q a -> preserves I (f a)) ->
  preserves I (bind m f).
Proof.
  intros Hm Hf w H. rewrite bind_run. destruct (Hm w H) as [H1 H2].
  apply (Hf _ H2), H1.
Qed.

Lemma cards_ok_untouched {A} (m : M A) : keeps cards_of m -> preserves cards_ok m.
Proof. intros Hk w H. unfold cards_ok. rewrite Hk. exact H. Qed.

Lemma dbUpsertThreadCard_ok e teamId channelId parentTs cardTs :
  truthy cardTs = true ->
  String.prefix "D" channelId = false ->
  preserves cards_ok (dbUpsertThreadCard e teamId channelId parentTs cardTs).
Proof.
  intros Hts Hdm w H. unfold dbUpsertThreadCard. rewrite bind_run, getCard_run.
  cbn [fst snd]. unfold cards_ok, cards_of in *.
  destruct (find (card_key teamId channelId parentTs) (thread_cards (w_db w)));
    simpl.
  - induction H as [| c l Hc H IH]; simpl; constructor; [| exact IH].
    destruct (card_key teamId channelId parentTs c); [| exact Hc].
    split; [exact Hts | exact (proj2 Hc)].
  - apply Forall_app. split; [exact H |]. constructor; [| constructor].
    split; [exact Hts | exact Hdm].
Qed.

Lemma upsertThreadCard_ok e teamId channelId parentTs threadTs b :
  String.prefix "D" channelId = false ->
  preserves cards_ok (upsertThreadCard e teamId channelId parentTs threadTs b).
Proof.
  intros Hdm. unfold upsertThreadCard.
  apply preserves_bind; [apply preserves_query | intros existing].
  destruct (truthy_opt (option_map tc_card_ts existing)).
  - frame. apply cards_ok_untouched. keeps_leaf.
  - cbv zeta. apply preserves_bind;
      [apply cards_ok_untouched; keeps_leaf | intros _].
    apply preserves_bind; [| intros _; apply preserves_ret].
    destruct (post_ts e) as [ts |]; simpl; [| apply preserves_ret].
    unfold or_str. destruct (truthy ts) eqn:Hts; simpl; [| apply preserves_ret].
    apply dbUpsertThreadCard_ok; assumption.
Qed.

Lemma not_dm_prefix (ch : option string) :
  not_dm ch = true -> String.prefix "D" (opt_or ch "") = false.
Proof.
  destruct ch as [c |]; simpl; [| reflexivity].
  intros H. apply negb_true_iff in H. unfold or_str.
  destruct (truthy c); [exact H | reflexivity].
Qed.

(** The card refresh of the handlers that act on a stored task. *)
Lemma card_block_ok e teamId (ch : option string) parentTs threadTs b :
  preserves cards_ok
    (when (not_dm ch)
       (upsertThreadCard e teamId (opt_or ch "") parentTs threadTs b ;;; ret tt)).
Proof.
  destruct (not_dm ch) eqn:Hdm; simpl; [| apply preserves_ret].
  apply preserves_bind; [| intros _; apply preserves_ret].
  apply upsertThreadCard_ok, not_dm_prefix, Hdm.
Qed.

(** The card of the reaction handlers. *)
Lemma reaction_block_ok e teamId channelId parentTs threadTs b :
  preserves cards_ok
    (when (negb (String.prefix "D" channelId))
       (upsertThreadCard e teamId channelId parentTs threadTs b ;;; ret tt)).
Proof.
  destruct (String.prefix "D" channelId) eqn:Hdm; simpl; [apply preserves_ret |].
  apply preserves_bind; [| intros _; apply preserves_ret].
  apply upsertThreadCard_ok, Hdm.
Qed.

Ltac cards_ok_walk :=
  repeat (cbv zeta;
          first [ apply card_block_ok | apply reaction_block_ok | frame_step ]);
  unfold_store; unfold_messages; frame;
  apply cards_ok_untouched; keeps_leaf.

Lemma or_null_some s c : or_null s = Some c -> c = s.
Proof. unfold or_null. destruct (truthy s); congruence. Qed.

Lemma task_modal_create_cards_ok e actor i :
  preserves cards_ok (task_modal_create e actor i).
Proof.
  unfold task_modal_create. cbv zeta.
  apply (preserves_bind_val _ (fun c => channel_id c = or_null (mi_channelId i))).
  { intros w H. split; [exact H | reflexivity]. }
  intros created Hc.
  apply (preserves_bind_val _ (fun c => channel_id c = or_null (mi_channelId i))).
  { intros w H. destruct (_ =? "broadcast")%string.
    - split.
      + revert w H.
        match goal with
        | |- forall w, cards_ok w -> cards_ok (snd (?m w)) =>
          change (preserves cards_ok m)
        end.
        unfold_store. frame; apply cards_ok_untouched; keeps_leaf.
      + rewrite !bind_run. exact Hc.
    - split; [exact H | exact Hc]. }
  intros created' Hc'.
  apply preserves_bind.
  { unfold_messages. frame; apply cards_ok_untouched; keeps_leaf. }
  intros _. apply preserves_bind; [| intros _; apply preserves_ret].
  rewrite Hc'. destruct (or_null (mi_channelId i)) as [c |] eqn:Hn;
    [| apply preserves_ret].
  apply or_null_some in Hn. subst c.
  apply preserves_when. apply reaction_block_ok.
Qed.

Lemma dispatch_cards_ok e r : preserves cards_ok (dispatch e r).
Proof.
  destruct r; unfold dispatch.
  - unfold task_modal.
    repeat (cbv zeta; first [ apply task_modal_create_cards_ok | frame_step ]).
  - unfold reaction_added. cards_ok_walk.
  - unfold reaction_task_confirm_create. cards_ok_walk.
  - unfold complete_task, refresh_card. cards_ok_walk.
  - unfold confirm_broadcast_done, refresh_card. cards_ok_walk.
  - unfold cancel_task, refresh_card. cards_ok_walk.
  - unfold status_select, refresh_card. cards_ok_walk.
  - unfold edit_task_modal. cards_ok_walk.
  - unfold runDueNotifyJob. cards_ok_walk.
Qed.

(** X13. After any handlers have run, every stored thread card carries the
    timestamp of a posted message, and none belongs to a DM (a channel id
    starting with D): a card is only stored once Slack has answered the
    post, and never for a DM. *)
Theorem stored_cards_posted_outside_dm (rs : list (env * request)) :
  cards_ok (run rs initial).
Proof.
  assert (H : forall w, cards_ok w -> cards_ok (run rs w)).
  { induction rs as [| [e r] rs IH]; simpl; intros w Hw; [exact Hw |].
    apply IH, dispatch_cards_ok, Hw. }
  apply H. constructor.
Qed.

(** ** Which request writes what *)

Lemma keeps_map_column {X} (g : task -> X) (h : task -> task) :
  (forall t, g (h t) = g t) ->
  keeps (fun w => map g (tasks_of w)) (exec (set_tasks (map h))).
Proof.
  intros Hg w. unfold tasks_of. simpl. rewrite map_map. apply map_ext. exact Hg.
Qed.

Ltac column_leaf :=
  first [ keeps_leaf
        | apply keeps_map_column;
          let t := fresh "t" in
          intros t;
          repeat match goal with
                 | |- context [if task_key ?a ?b t then _ else _] =>
                   destruct (task_key a b t)
                 | |- context [match notified_at t with _ => _ end] =>
                   destruct (notified_at t)
                 end;
          reflexivity ].

(** X14. Which handler writes which table.  Only [task_modal] writes
    target rows; only [complete_task] writes completion rows; and only
    [task_modal] and [reaction_task_confirm_create] add tasks: after any
    other request the stored tasks are the same ids, in the same order. *)
Theorem tables_written_by (e : env) (r : request) (w : world) :
  (is_task_modal r = false -> targets_of (handle e r w) = targets_of w)
  /\ (is_complete_task r = false -> completions_of (handle e r w) = completions_of w)
  /\ (creates_task r = false ->
      map id (tasks_of (handle e r w)) = map id (tasks_of w)).
Proof.
  unfold handle. split; [| split]; intros Hr.
  - revert w. change (keeps targets_of (dispatch e r)).
    destruct r; try discriminate Hr; unfold dispatch; unfold_handlers;
      unfold_cards; unfold_store; unfold_messages; frame; keeps_leaf.
  - revert w. change (keeps completions_of (dispatch e r)).
    destruct r; try discriminate Hr; unfold dispatch; unfold_handlers;
      unfold_cards; unfold_store; unfold_messages; frame; keeps_leaf.
  - revert w. change (keeps (fun w => map id (tasks_of w)) (dispatch e r)).
    destruct r; try discriminate Hr; unfold dispatch; unfold_handlers;
      unfold_cards; unfold_store; unfold_messages; frame; column_leaf.
Qed.

(** The target UA completes the broadcast task: a completion row, but no
    target row and no task is added. *)
Lemma tables_written_by_witness :
  let w := world0 "in_progress" [] in
  let w' := handle env0 (CompleteTask "T1" "task-2" "UA" None) w in
  completions_of w' = [mkMember "task-2" "T1" "UA"]
  /\ targets_of w' = targets_of w
  /\ map id (tasks_of w') = map id (tasks_of w).
Proof.
  intros w w'. split; [reflexivity |].
  destruct (tables_written_by env0 (CompleteTask "T1" "task-2" "UA" None) w)
    as (Ht & _ & Hi).
  split; [exact (Ht eq_refl) | exact (Hi eq_refl)].
Defined.

(** ** Workspaces are kept apart *)

Lemma filter_map_foreign {A} (other k : A -> bool) (f : A -> A) (l : list A) :
  (forall x, k x = true -> other x = false /\ other (f x) = false) ->
  filter other (map (fun x => if k x then f x else x) l) = filter other l.
Proof.
  intros H. induction l as [| x l IH]; simpl; [reflexivity |].
  destruct (k x) eqn:E.
  - destruct (H x E) as [H1 H2]. rewrite H1, H2. exact IH.
  - destruct (other x); rewrite IH; reflexivity.
Qed.

Lemma task_key_team teamId taskId t :
  task_key teamId taskId t = true -> negb (team_id t =? teamId)%string = false.
Proof.
  unfold task_key. intros H. apply andb_true_iff in H. destruct H as [H _].
  rewrite H. reflexivity.
Qed.

Lemma foreign_tasks_update teamId taskId (f : task -> task) :
  (forall t, team_id (f t) = team_id t) ->
  keeps (foreign_tasks teamId)
    (exec (set_tasks (map (fun t => if task_key teamId taskId t then f t else t)))).
Proof.
  intros Hf w. unfold foreign_tasks, tasks_of. simpl.
  apply filter_map_foreign. intros t Hk. rewrite Hf.
  split; apply (task_key_team _ _ _ Hk).
Qed.

Lemma foreign_tasks_insert teamId (row : task) :
  team_id row = teamId ->
  keeps (foreign_tasks teamId) (exec (set_tasks (fun l => l ++ [row]))).
Proof.
  intros Hr w. unfold foreign_tasks, tasks_of. simpl.
  rewrite filter_app. simpl. rewrite Hr, String.eqb_refl. simpl.
  apply app_nil_r.
Qed.

Lemma foreign_insert_member teamId taskId userId l :
  filter (fun r => negb (m_team_id r =? teamId)%string)
    (insert_member teamId taskId userId l)
  = filter (fun r => negb (m_team_id r =? teamId)%string) l.
Proof.
  unfold insert_member. destruct (existsb (member_key taskId userId) l);
    [reflexivity |].
  rewrite filter_app. simpl. rewrite String.eqb_refl. simpl. apply app_nil_r.
Qed.

Lemma foreign_insert_members teamId taskId us : forall l,
  filter (fun r => negb (m_team_id r =? teamId)%string)
    (fold_left (fun acc uid => insert_member teamId taskId uid acc) us l)
  = filter (fun r => negb (m_team_id r =? teamId)%string) l.
Proof.
  induction us as [| u us IH]; intros l; simpl; [reflexivity |].
  rewrite IH. apply foreign_insert_member.
Qed.

Lemma foreign_cards_upsert e teamId channelId parentTs cardTs :
  keeps (foreign_cards teamId) (dbUpsertThreadCard e teamId channelId parentTs cardTs).
Proof.
  intros w. unfold dbUpsertThreadCard. rewrite bind_run, getCard_run.
  cbn [fst snd]. unfold foreign_cards, cards_of.
  destruct (find (card_key teamId channelId parentTs) (thread_cards (w_db w)));
    simpl.
  - apply filter_map_foreign. intros c Hk. apply card_key_eq in Hk.
    destruct Hk as (Hk & _ & _). simpl. rewrite Hk, String.eqb_refl.
    split; reflexivity.
  - rewrite filter_app. simpl. rewrite String.eqb_refl. simpl. apply app_nil_r.
Qed.

Lemma foreign_targets_insert teamId taskId us :
  keeps (foreign_targets teamId)
    (exec (set_targets (fun l =>
       fold_left (fun acc uid => insert_member teamId taskId uid acc) us l))).
Proof.
  intros w. unfold foreign_targets, targets_of. simpl.
  apply foreign_insert_members.
Qed.

Lemma foreign_completions_insert teamId taskId userId :
  keeps (foreign_completions teamId)
    (exec (set_completions (insert_member teamId taskId userId))).
Proof.
  intros w. unfold foreign_completions, completions_of. simpl.
  apply foreign_insert_member.
Qed.

Ltac foreign_leaf :=
  first [ keeps_leaf
        | apply foreign_cards_upsert
        | unfold dbUpsertThreadCard, dbGetThreadCard; frame; keeps_leaf
        | apply foreign_tasks_insert; reflexivity
        | apply foreign_tasks_update; intros ?; reflexivity
        | apply foreign_targets_insert
        | apply foreign_completions_insert
        | intros ?; unfold foreign_tasks, tasks_of; simpl;
          apply filter_map_foreign;
          let t := fresh "t" in let Hk := fresh "Hk" in
          intros t Hk; destruct (notified_at t);
          split; apply (task_key_team _ _ _ Hk) ].

Ltac foreign_walk :=
  unfold dispatch; unfold_handlers; unfold refresh_card, upsertThreadCard;
  unfold_store; unfold_messages; frame; foreign_leaf.

(** X15. A request of one workspace leaves the rows of every other
    workspace as they are, in all four tables, also when it names a task
    id, a user or a message of another workspace. *)
Theorem other_workspaces_untouched (e : env) (r : request) (teamId : string)
  (w : world) :
  request_team r = Some teamId ->
  foreign_tasks teamId (handle e r w) = foreign_tasks teamId w
  /\ foreign_targets teamId (handle e r w) = foreign_targets teamId w
  /\ foreign_completions teamId (handle e r w) = foreign_completions teamId w
  /\ foreign_cards teamId (handle e r w) = foreign_cards teamId w.
Proof.
  intros Hr. unfold handle. repeat split; revert w.
  - change (keeps (foreign_tasks teamId) (dispatch e r)).
    destruct r; inversion Hr; subst; foreign_walk.
  - change (keeps (foreign_targets teamId) (dispatch e r)).
    destruct r; inversion Hr; subst; foreign_walk.
  - change (keeps (foreign_completions teamId) (dispatch e r)).
    destruct r; inversion Hr; subst; foreign_walk.
  - change (keeps (foreign_cards teamId) (dispatch e r)).
    destruct r; inversion Hr; subst; foreign_walk.
Qed.

(** A CancelTask of workspace T2 that names a task id of workspace T1. *)
Lemma other_workspaces_untouched_witness :
  let w := world0 "in_progress" [] in
  let w' := handle env0 (CancelTask "T2" "task-1" "UR" None) w in
  foreign_tasks "T2" w = [personal0; broadcast0 "in_progress"]
  /\ foreign_tasks "T2" w' = foreign_tasks "T2" w.
Proof.
  intros w w'. split; [reflexivity |].
  exact (proj1 (other_workspaces_untouched env0
                  (CancelTask "T2" "task-1" "UR" None) "T2" w eq_refl)).
Defined.

(** ** Nobody is notified of their own request *)

Lemma assigned_emit_other u ev :
  assigned_dm_to u ev = false -> keeps (assigned_dms_to u) (emit ev).
Proof.
  intros H w. unfold assigned_dms_to. simpl. rewrite filter_app. simpl.
  rewrite H. apply app_nil_r.
Qed.

Lemma assigned_untouched u {A} (m : M A) :
  keeps w_log m -> keeps (assigned_dms_to u) m.
Proof. intros H w. unfold assigned_dms_to. rewrite H. reflexivity. Qed.

Lemma notify_other_keeps actor to (t : task) :
  keeps (assigned_dms_to actor)
    (when (truthy to && negb (to =? actor)%string)
       (notifyTaskSimpleDM KAssigned to t)).
Proof.
  destruct (truthy to); simpl; [| apply keeps_ret].
  destruct (to =? actor)%string eqn:E; simpl; [apply keeps_ret |].
  unfold notifyTaskSimpleDM. apply keeps_when.
  apply assigned_emit_other. exact E.
Qed.

Lemma notify_others_keeps actor (l : list string) (t : task) :
  keeps (assigned_dms_to actor)
    (forM (filter (fun u => truthy u && negb (u =? actor)%string) l)
       (fun uid => notifyTaskSimpleDM KAssigned uid t)).
Proof.
  induction l as [| u l IH]; simpl; [apply keeps_ret |].
  destruct (truthy u); simpl; [| exact IH].
  destruct (u =? actor)%string eqn:E; simpl; [exact IH |].
  apply keeps_bind; [| intros _; exact IH].
  unfold notifyTaskSimpleDM. apply keeps_when.
  apply assigned_emit_other. exact E.
Qed.

(** X16. [task_modal] never sends the creator an assignment notice: when
    the creator assigns the task to themselves, or is among the targets
    or in a selected group, the notice to them is left out. *)
Theorem task_modal_spares_creator (e : env) (actor : string) (i : modal_input)
  (w : world) :
  assigned_dms_to actor (snd (task_modal e actor i w)) = assigned_dms_to actor w.
Proof.
  revert w. change (keeps (assigned_dms_to actor) (task_modal e actor i)).
  unfold task_modal, task_modal_create.
  repeat (cbv zeta;
          first [ apply notify_other_keeps | apply notify_others_keeps | frame_step ]);
    unfold_cards; unfold_store; frame;
    first [ apply assigned_untouched; keeps_leaf
          | apply assigned_emit_other; reflexivity ].
Qed.

(** ** Sets of users *)

(** X17. [uniq] keeps exactly the non-empty entries of its argument, each
    once. *)
Theorem uniq_set (l : list string) :
  NoDup (uniq l)
  /\ forall x, In x (uniq l) <-> In x l /\ x <> "".
Proof.
  unfold uniq. split.
  - apply set_add_all_NoDup. constructor.
  - intros x. rewrite set_add_all_In, filter_In. unfold truthy.
    rewrite negb_true_iff, String.eqb_neq. simpl. tauto.
Qed.

Lemma expand_groups_handles e (gids : list string) : forall users handles,
  snd (expand_groups e gids users handles)
  = handles ++ map (fun g => opt_or (subteam_handle e g) g) gids.
Proof.
  induction gids as [| g gids IH]; intros users handles; simpl.
  - symmetry. apply app_nil_r.
  - rewrite IH, <- app_assoc. reflexivity.
Qed.

Lemma expand_groups_NoDup e (gids : list string) : forall users handles,
  NoDup users -> NoDup (fst (expand_groups e gids users handles)).
Proof.
  induction gids as [| g gids IH]; intros users handles H; simpl; [exact H |].
  apply IH. destruct (group_members e g); [apply set_add_all_NoDup |]; exact H.
Qed.

(** X18. [expandTargetsFromGroups] returns every member of the groups
    whose members Slack lists, each once, and no one else; and one handle
    for every group, in the order given, the group id standing in for a
    handle that is not known.  A group whose members cannot be listed
    adds nobody but keeps its handle. *)
Theorem expandTargetsFromGroups_members (e : env) (groupIds : list string) :
  NoDup (fst (expandTargetsFromGroups e groupIds))
  /\ (forall u, In u (fst (expandTargetsFromGroups e groupIds))
        <-> exists g us, In g groupIds /\ group_members e g = Some us /\ In u us)
  /\ snd (expandTargetsFromGroups e groupIds)
     = map (fun g => opt_or (subteam_handle e g) g) groupIds.
Proof.
  unfold expandTargetsFromGroups. split; [| split].
  - apply expand_groups_NoDup. constructor.
  - intros u. rewrite expand_groups_In. simpl. tauto.
  - apply expand_groups_handles.
Qed.

(** ** Display helpers *)

Lemma replace_at_clean s : has_at (replace_at s) = false.
Proof.
  induction s as [| c s IH]; cbn [replace_at has_at]; [reflexivity |].
  destruct (Ascii.eqb c "@"%char) eqn:E.
  - exact IH.
  - cbn [has_at]. rewrite E. exact IH.
Qed.

Lemma replace_at_id s : has_at s = false -> replace_at s = s.
Proof.
  induction s as [| c s IH]; cbn [replace_at has_at]; [reflexivity |].
  destruct (Ascii.eqb c "@"%char); cbn [orb]; [discriminate |].
  intros H. rewrite IH by exact H. reflexivity.
Qed.

(** X19. No mention survives [noMention]: its result holds no at sign,
    text without an at sign passes unchanged, and so a second pass
    changes nothing.  The department label and the assignee shown for a
    broadcast task therefore never mention anyone. *)
Theorem noMention_no_at (s : option string) (t : task) :
  has_at (noMention s) = false
  /\ noMention (Some (noMention s)) = noMention s
  /\ (forall x, has_at x = false -> noMention (Some x) = x)
  /\ has_at (deptLabel s) = false
  /\ (is_broadcast t = true -> has_at (assigneeDisplay t) = false).
Proof.
  assert (H1 : forall o, has_at (noMention o) = false).
  { intros [x |]; simpl; [| reflexivity].
    destruct (truthy x); [apply replace_at_clean | reflexivity]. }
  assert (H3 : forall x, has_at x = false -> noMention (Some x) = x).
  { intros x Hx. simpl. unfold truthy.
    destruct (String.eqb_spec x ""); simpl; [congruence |].
    apply replace_at_id. exact Hx. }
  split; [apply H1 |]. split; [apply H3, H1 |]. split; [exact H3 |]. split.
  - unfold deptLabel. destruct (truthy_opt s); [apply H1 | reflexivity].
  - intros Hb. unfold assigneeDisplay. rewrite Hb. apply H1.
Qed.

(** The label of the broadcast task of requester UR. *)
Lemma noMention_no_at_witness :
  assigneeDisplay (broadcast0 "in_progress") = "＠all"
  /\ has_at (assigneeDisplay (broadcast0 "in_progress")) = false.
Proof.
  split; [reflexivity |].
  exact (proj2 (proj2 (proj2 (proj2
           (noMention_no_at None (broadcast0 "in_progress"))))) eq_refl).
Defined.

(** ** Status labels *)

Ltac string_cases s :=
  repeat match goal with
         | |- context [String.eqb ?a s] =>
           destruct (String.eqb_spec a s); [subst s |]
         | |- context [String.eqb s ?a] =>
           destruct (String.eqb_spec s a); [subst s |]
         end.

(** X20. [statusLabel] gives every option of [STATUS_OPTIONS] its text,
    gives open and in_progress the same text, and never gives an empty
    label: an unknown status is shown as it is, a missing one as a dash. *)
Theorem statusLabel_labels (s : string) :
  (forall v t, In (v, t) STATUS_OPTIONS -> statusLabel v = t)
  /\ statusLabel "open" = statusLabel "in_progress"
  /\ statusLabel "cancelled" = "取り下げ"
  /\ statusLabel s <> "".
Proof.
  split; [| split; [reflexivity | split; [reflexivity |]]].
  - intros v t [H | [H | [H | [H | []]]]]; inversion H; reflexivity.
  - unfold statusLabel.
    destruct (String.eqb_spec s "open"); [subst; discriminate |].
    destruct (String.eqb_spec s "in_progress"); [subst; discriminate |].
    cbn [orb STATUS_OPTIONS find fst snd].
    destruct (String.eqb_spec "open" s); [discriminate |].
    destruct (String.eqb_spec "in_progress" s); [discriminate |].
    destruct (String.eqb_spec "waiting" s); [discriminate |].
    destruct (String.eqb_spec "done" s); [discriminate |].
    destruct (String.eqb_spec s "cancelled"); [discriminate |].
    unfold or_str, truthy. destruct (String.eqb_spec s ""); cbn [negb].
    + discriminate.
    + assumption.
Qed.

(** X21. The status select element offers exactly in progress, waiting
    and done.  The option it shows is always one of those it offers,
    with the text [statusLabel] gives its value: the task's status when
    that is one of the three, and in progress for open and for any other
    status (a cancelled task included). *)
Theorem statusSelectElement_initial (currentStatus : string) :
  let el := statusSelectElement currentStatus in
  map fst (options el) = ["in_progress"; "waiting"; "done"]
  /\ In (initial_option el) (options el)
  /\ snd (initial_option el) = statusLabel (fst (initial_option el))
  /\ fst (initial_option el)
     = (if includes ["in_progress"; "waiting"; "done"] currentStatus
        then currentStatus else "in_progress").
Proof.
  unfold statusSelectElement, includes.
  cbn [options initial_option STATUS_SELECT_OPTIONS find fst snd hd existsb map].
  split; [reflexivity |].
  destruct (String.eqb_spec currentStatus "open") as [-> | Hopen].
  - split; [left; reflexivity | split; reflexivity].
  - destruct (String.eqb_spec "in_progress" currentStatus) as [<- | H1].
    { split; [left; reflexivity | split; reflexivity]. }
    destruct (String.eqb_spec "waiting" currentStatus) as [<- | H2].
    { split; [right; left; reflexivity | split; reflexivity]. }
    destruct (String.eqb_spec "done" currentStatus) as [<- | H3].
    { split; [right; right; left; reflexivity | split; reflexivity]. }
    split; [left; reflexivity | split; [reflexivity |]].
    destruct (String.eqb_spec currentStatus "in_progress"); [congruence |].
    destruct (String.eqb_spec currentStatus "waiting"); [congruence |].
    destruct (String.eqb_spec currentStatus "done"); [congruence |].
    reflexivity.
Qed.

(** ** The filters of the Home tab *)

Lemma home_lookup_put_same k v s : home_lookup k (home_put k v s) = Some v.
Proof. unfold home_lookup, home_put. simpl. rewrite String.eqb_refl. reflexivity. Qed.

Lemma home_lookup_put_other k k' v s :
  k <> k' -> home_lookup k' (home_put k v s) = home_lookup k' s.
Proof.
  intros Hk. unfold home_lookup, home_put. simpl.
  destruct (String.eqb_spec k k') as [E | _]; [contradiction |].
  f_equal. induction s as [| [a st] s IH]; simpl; [reflexivity |].
  destruct (String.eqb_spec a k) as [-> | Ha]; simpl.
  - destruct (String.eqb_spec k k'); [contradiction | exact IH].
  - destruct (String.eqb_spec a k'); [reflexivity | exact IH].
Qed.

Lemma or_str_truthy a b : truthy b = true -> truthy (or_str a b) = true.
Proof. intros H. unfold or_str. destruct (truthy a) eqn:E; assumption. Qed.

Lemma opt_or_truthy o b : truthy b = true -> truthy (opt_or o b) = true.
Proof. intros H. destruct o; simpl; [apply or_str_truthy |]; exact H. Qed.

Lemma or_str_same a b : truthy a = true -> or_str a b = a.
Proof. intros H. unfold or_str. rewrite H. reflexivity. Qed.

(** What [getHomeState] answers right after [setHomeState]. *)
Lemma get_after_set store teamId userId next :
  match n_broadcastScopeKey next with Some b => truthy b = true | None => True end ->
  let old := getHomeState store teamId userId in
  let range := spread (n_broadcastScopeKey next) (broadcastScopeKey old) in
  getHomeState (setHomeState store teamId userId next) teamId userId
  = mkHome "all"
      (spread (n_scopeKey next) (scopeKey old))
      range
      (spread (n_assigneeUserId next) (assigneeUserId old))
      (spread (n_deptKey next) (deptKey old))
      range.
Proof.
  intros Hb old range.
  assert (Hr : truthy range = true).
  { subst range. destruct (n_broadcastScopeKey next); simpl; [exact Hb |].
    apply or_str_truthy. reflexivity. }
  unfold setHomeState. fold old. cbv zeta. cbn [broadcastScopeKey].
  fold range. rewrite Hr.
  unfold getHomeState at 1. rewrite home_lookup_put_same.
  cbn [viewKey scopeKey personalScopeKey assigneeUserId deptKey broadcastScopeKey].
  rewrite !(or_str_same range) by exact Hr. reflexivity.
Qed.

Lemma setHomeState_ok store teamId userId next :
  match n_broadcastScopeKey next with Some b => truthy b = true | None => True end ->
  store_ok store -> store_ok (setHomeState store teamId userId next).
Proof.
  intros Hb Hs k st Hk.
  destruct (String.eqb_spec (home_key teamId userId) k) as [<- | Hne].
  - unfold setHomeState in Hk. rewrite home_lookup_put_same in Hk.
    cbv zeta in Hk. cbn [broadcastScopeKey] in Hk.
    assert (Hr : truthy (spread (n_broadcastScopeKey next)
                           (broadcastScopeKey (getHomeState store teamId userId)))
                 = true).
    { destruct (n_broadcastScopeKey next); simpl; [exact Hb |].
      apply or_str_truthy. reflexivity. }
    rewrite Hr in Hk. inversion Hk; subst st. repeat split. exact Hr.
  - unfold setHomeState in Hk. rewrite home_lookup_put_other in Hk by exact Hne.
    apply (Hs k st Hk).
Qed.

Lemma home_handle_ok teamId userId r store :
  store_ok store -> store_ok (home_handle teamId userId r store).
Proof.
  intros Hs. destruct r; simpl;
    try (apply setHomeState_ok; [simpl; try exact I; try reflexivity | exact Hs]).
  - destruct (home_lookup (home_key teamId userId) store); [exact Hs |].
    apply setHomeState_ok; [reflexivity | exact Hs].
  - apply opt_or_truthy. reflexivity.
  - destruct (opt_or selected "to_me" =? "all")%string;
      (apply setHomeState_ok; [exact I | exact Hs]).
Qed.

Lemma home_run_ok rs : forall store, store_ok store -> store_ok (home_run rs store).
Proof.
  induction rs as [| [[t u] r] rs IH]; simpl; intros store Hs; [exact Hs |].
  apply IH, home_handle_ok, Hs.
Qed.

(** X22. The filters of the Home tab, whatever Home requests users have
    sent: for every user the view is "all", the range is never empty, and
    the personal range is the broadcast range; a user never seen has the
    defaults, and [home_reset_filters] gives a user exactly those. *)
Theorem home_filters_normal (rs : list (string * string * home_request))
  (teamId userId : string) :
  let store := home_run rs [] in
  home_ok (getHomeState store teamId userId)
  /\ getHomeState [] teamId userId = home_default userId
  /\ getHomeState (home_handle teamId userId HomeResetFilters store) teamId userId
     = home_default userId.
Proof.
  intros store. split; [| split].
  - assert (Hs : store_ok store).
    { apply home_run_ok. intros k st Hk. discriminate Hk. }
    unfold getHomeState.
    destruct (home_lookup (home_key teamId userId) store) as [st |] eqn:E.
    + destruct (Hs _ _ E) as (Hv & Hb & Hp).
      cbn [viewKey personalScopeKey broadcastScopeKey].
      rewrite !(or_str_same (broadcastScopeKey st)) by exact Hb.
      repeat split. exact Hb.
    + repeat split.
  - reflexivity.
  - cbn [home_handle]. rewrite get_after_set by reflexivity. reflexivity.
Qed.

(** X23. The personal range selector has no effect of its own: after
    [home_personal_scope_select], whatever was selected and whatever the
    stored filters were, both ranges are the broadcast range the user had
    before, and the state filter is unchanged; only choosing a range
    other than "all" resets the department and assignee filters. *)
Theorem home_personal_scope_select_inert (store : home_store)
  (teamId userId : string) (selected : option string) :
  let old := getHomeState store teamId userId in
  let new := getHomeState
               (home_handle teamId userId (HomePersonalScopeSelect selected) store)
               teamId userId in
  broadcastScopeKey new = broadcastScopeKey old
  /\ personalScopeKey new = broadcastScopeKey old
  /\ scopeKey new = scopeKey old
  /\ (deptKey new = deptKey old
      \/ (opt_or selected "to_me" <> "all" /\ deptKey new = "all"
          /\ assigneeUserId new = Some userId)).
Proof.
  intros old new. subst new. cbn [home_handle]. cbv zeta.
  destruct (String.eqb_spec (opt_or selected "to_me") "all") as [E | E];
    rewrite get_after_set by exact I; fold old; cbn;
    repeat split; auto.
Qed.

(** ** Progress of a broadcast task *)

Lemma insert_id_In x l y : In y (insert_id x l) <-> y = x \/ In y l.
Proof.
  induction l as [| z l IH]; simpl.
  - split; [intros [H | []]; left; auto | intros [H | []]; left; auto].
  - destruct (String.leb x z); simpl; [| rewrite IH]; intuition auto.
Qed.

Lemma order_by_user_id_In l y : In y (order_by_user_id l) <-> In y l.
Proof.
  induction l as [| x l IH]; simpl; [tauto |].
  rewrite insert_id_In, IH. intuition auto.
Qed.

Lemma insert_id_length x l : length (insert_id x l) = S (length l).
Proof.
  induction l as [| z l IH]; simpl; [reflexivity |].
  destruct (String.leb x z); simpl; [| rewrite IH]; reflexivity.
Qed.

Lemma order_by_user_id_length l : length (order_by_user_id l) = length l.
Proof.
  induction l as [| x l IH]; simpl; [reflexivity |].
  rewrite insert_id_length, IH. reflexivity.
Qed.

Lemma insert_id_NoDup x l : ~ In x l -> NoDup l -> NoDup (insert_id x l).
Proof.
  induction l as [| z l IH]; simpl; intros Hx Hl.
  - constructor; [intros [] | constructor].
  - destruct (String.leb x z).
    + constructor; [exact Hx | exact Hl].
    + inversion Hl as [| ? ? Hz Hl']; subst. constructor.
      * rewrite insert_id_In. intros [-> | H]; [apply Hx; left; reflexivity |].
        contradiction.
      * apply IH; [intros H; apply Hx; right; exact H | exact Hl'].
Qed.

Lemma order_by_user_id_NoDup l : NoDup l -> NoDup (order_by_user_id l).
Proof.
  induction l as [| x l IH]; simpl; intros H; [constructor |].
  inversion H as [| ? ? Hx Hl]; subst.
  apply insert_id_NoDup; [rewrite order_by_user_id_In; exact Hx | apply IH, Hl].
Qed.

Lemma filter_all {A} (f : A -> bool) (l : list A) :
  (forall x, In x l -> f x = true) -> filter f l = l.
Proof.
  induction l as [| x l IH]; simpl; intros H; [reflexivity |].
  rewrite (H x) by (left; reflexivity). rewrite IH; [reflexivity |].
  intros y Hy. apply H. right. exact Hy.
Qed.

Lemma filter_split_length {A} (f : A -> bool) (l : list A) :
  (length (filter f l) + length (filter (fun x => negb (f x)) l))%nat = length l.
Proof.
  induction l as [| x l IH]; simpl; [reflexivity |].
  destruct (f x); simpl; lia.
Qed.

Lemma NoDup_filter_keep {A} (f : A -> bool) (l : list A) :
  NoDup l -> NoDup (filter f l).
Proof.
  induction 1 as [| x l Hx Hl IH]; simpl; [constructor |].
  destruct (f x); [| exact IH]. constructor; [| exact IH].
  intros H. apply filter_In in H. apply Hx, H.
Qed.

(** The users of one task's rows are distinct under the unique key. *)
Lemma member_users_NoDup teamId taskId l :
  members_unique l ->
  NoDup (map m_user_id (filter (member_of teamId taskId) l)).
Proof.
  induction l as [| r l IH]; simpl; intros H; [constructor |].
  assert (Hl : members_unique l).
  { intros t u. specialize (H t u). simpl in H.
    destruct (member_key t u r); simpl in H; lia. }
  destruct (member_of teamId taskId r) eqn:Hr; [| apply IH, Hl].
  simpl. constructor; [| apply IH, Hl].
  intros Hin. apply in_map_iff in Hin. destruct Hin as (x & Hux & Hx).
  apply filter_In in Hx. destruct Hx as [Hx Hmx].
  apply member_of_eq in Hr, Hmx. destruct Hr as [_ Hr], Hmx as [_ Hmx].
  specialize (H (m_task_id r) (m_user_id r)). simpl in H.
  assert (Hrr : member_key (m_task_id r) (m_user_id r) r = true).
  { apply member_key_eq. split; reflexivity. }
  rewrite Hrr in H. simpl in H.
  assert (Hxx : member_key (m_task_id r) (m_user_id r) x = true).
  { apply member_key_eq. split; congruence. }
  assert (Hpos : (0 < length (filter (member_key (m_task_id r) (m_user_id r)) l))%nat).
  { clear -Hx Hxx. induction l as [| y l IH]; [contradiction |]. simpl.
    destruct Hx as [-> | Hx]; [rewrite Hxx; simpl; lia |].
    destruct (member_key _ _ y); simpl; [lia | apply IH, Hx]. }
  lia.
Qed.

Lemma run_targets_unique rs : members_unique (targets_of (run rs initial)).
Proof.
  assert (H : forall w, members_unique (targets_of w) ->
                        members_unique (targets_of (run rs w))).
  { induction rs as [| [e r] rs IH]; simpl; intros w Hw; [exact Hw |].
    apply IH, dispatch_targets_unique, Hw. }
  apply H. intros t u. simpl. lia.
Qed.

Lemma includes_In l x : includes l x = true <-> In x l.
Proof. apply existsb_eqb_In. Qed.

(** The counting argument, for any store with the three properties the
    handlers maintain. *)
Lemma progress_counts teamId taskId w :
  members_unique (targets_of w) ->
  members_unique (completions_of w) ->
  completions_within_targets w ->
  targets_named w ->
  let done := fst (fst (progress_lists teamId taskId w)) in
  let todo := snd (fst (progress_lists teamId taskId w)) in
  Z.of_nat (length done + length todo) = fst (dbCountTargets teamId taskId w)
  /\ Z.of_nat (length done) = fst (dbCountCompletions teamId taskId w).
Proof.
  intros Ht Hc Hin Hnamed.
  unfold progress_lists, dbCountTargets, dbCountCompletions, query, count_members.
  cbn [fst snd]. fold (targets_of w) (completions_of w).
  set (TU := map m_user_id (filter (member_of teamId taskId) (targets_of w))).
  set (CU := map m_user_id (filter (member_of teamId taskId) (completions_of w))).
  assert (HTU : forall u, In u TU -> truthy u = true).
  { intros u Hu. apply in_map_iff in Hu. destruct Hu as (r & <- & Hr).
    apply filter_In in Hr. apply Hnamed, Hr. }
  assert (Hincl : forall u, In u CU -> In u TU).
  { intros u Hu. apply in_map_iff in Hu. destruct Hu as (r & <- & Hr).
    apply filter_In in Hr. destruct Hr as [Hr Hm].
    specialize (Hin r Hr). apply existsb_exists in Hin.
    destruct Hin as (x & Hx & Hp). apply andb_true_iff in Hp.
    destruct Hp as [Hp Hu]. apply String.eqb_eq in Hu. rewrite <- Hu.
    apply member_of_eq in Hm. destruct Hm as [Hm1 Hm2].
    rewrite Hm1, Hm2 in Hp.
    apply in_map. apply filter_In. split; assumption. }
  assert (HCU : forall u, In u CU -> truthy u = true).
  { intros u Hu. apply HTU, Hincl, Hu. }
  rewrite (filter_all truthy (order_by_user_id TU))
    by (intros u Hu; apply HTU, (proj1 (order_by_user_id_In _ _)), Hu).
  rewrite (filter_all truthy (order_by_user_id CU))
    by (intros u Hu; apply HCU, (proj1 (order_by_user_id_In _ _)), Hu).
  split.
  - rewrite filter_split_length, order_by_user_id_length.
    unfold TU. rewrite length_map. reflexivity.
  - f_equal.
    transitivity (length CU); [| unfold CU; apply length_map].
    assert (NT : NoDup (order_by_user_id TU)).
    { apply order_by_user_id_NoDup, member_users_NoDup, Ht. }
    assert (NC : NoDup CU) by (apply member_users_NoDup, Hc).
    apply Nat.le_antisymm.
    + apply NoDup_incl_length; [apply NoDup_filter_keep, NT |].
      intros u Hu. apply filter_In in Hu. destruct Hu as [_ Hu].
      apply (proj1 (includes_In _ _)) in Hu.
      apply (proj1 (order_by_user_id_In _ _)) in Hu. exact Hu.
    + apply NoDup_incl_length; [exact NC |].
      intros u Hu. apply filter_In. split.
      * apply (proj2 (order_by_user_id_In _ _)), Hincl, Hu.
      * apply (proj2 (includes_In _ _)), (proj2 (order_by_user_id_In _ _)), Hu.
Qed.

(** X24. The progress modal counts what [complete_task] counts.  After
    any handlers have run, and with every target row naming a user, the
    users [open_progress_modal] lists as done are as many as the task has
    completion rows, and done and not done together as many as it has
    target rows: so the list of those not done is empty exactly when the
    completions have reached the targets. *)
Theorem progress_modal_counts (rs : list (env * request)) (teamId taskId : string) :
  let w := run rs initial in
  targets_named w ->
  let done := fst (fst (progress_lists teamId taskId w)) in
  let todo := snd (fst (progress_lists teamId taskId w)) in
  Z.of_nat (length done + length todo) = fst (dbCountTargets teamId taskId w)
  /\ Z.of_nat (length done) = fst (dbCountCompletions teamId taskId w)
  /\ (todo = [] <->
      fst (dbCountCompletions teamId taskId w) >= fst (dbCountTargets teamId taskId w)).
Proof.
  intros w Hnamed done todo.
  destruct (progress_counts teamId taskId w (run_targets_unique rs)
              (run_completions_unique rs) (run_within_targets rs) Hnamed)
    as [H1 H2].
  fold done todo in H1, H2. split; [exact H1 | split; [exact H2 |]].
  rewrite <- H1, <- H2. split.
  - intros ->. simpl. lia.
  - intros H. destruct todo; [reflexivity | simpl in H; lia].
Qed.

(** Three targets, one of them done. *)
Lemma progress_modal_counts_witness :
  let w := run run0 initial in
  fst (progress_lists "T1" "task-9" w) = (["UA"], ["UB"; "UC"])
  /\ fst (dbCountTargets "T1" "task-9" w) = 3
  /\ fst (dbCountCompletions "T1" "task-9" w) = 1.
Proof.
  cbv zeta. split; [reflexivity |].
  assert (Hnamed : targets_named (run run0 initial)).
  { intros r Hr. vm_compute in Hr.
    destruct Hr as [<- | [<- | [<- | []]]]; reflexivity. }
  destruct (progress_modal_counts run0 "T1" "task-9" Hnamed) as (H1 & H2 & _).
  split; [rewrite <- H1 | rewrite <- H2]; reflexivity.
Defined.

(** ** What the detail modal offers *)

(** X25. The buttons of the detail modal.  The modal is built without
    writing anything, and for every task, viewer and origin: cancel is
    offered only to the requester, and only on a broadcast task; the
    forced completion of a broadcast task is offered to every viewer;
    editing is offered exactly to those [edit_task_modal] accepts;
    completing is offered on a personal task to requester and assignee,
    on a broadcast task to a target who has not completed yet; none of
    cancel, forced completion and completing is offered once the task is
    done or cancelled; and a modal opened from a thread offers nothing
    but the completion of a personal task. *)
Theorem detail_modal_offers (teamId : string) (t : task)
  (viewerUserId origin : string) (w : world) :
  let acts := fst (detail_actions teamId t viewerUserId origin w) in
  let open := negb (includes ["done"; "cancelled"] (status t)) in
  let shown := negb (origin =? "thread")%string in
  snd (detail_actions teamId t viewerUserId origin w) = w
  /\ includes acts "cancel_task"
     = shown && is_broadcast t && open
       && (requester_user_id t =? viewerUserId)%string
  /\ includes acts "confirm_broadcast_done" = shown && is_broadcast t && open
  /\ includes acts "open_edit_task_modal" = shown && canEditTask t viewerUserId
  /\ includes acts "open_comment_modal" = shown
  /\ includes acts "complete_task"
     = open
       && (if is_broadcast t
           then shown
                && fst (dbIsUserTarget teamId (id t) viewerUserId w)
                && negb (fst (dbHasUserCompleted teamId (id t) viewerUserId w))
           else (viewerUserId =? requester_user_id t)%string
                || eqb_opt (assignee_id t) viewerUserId).
Proof.
  unfold detail_actions, canEditTask, is_broadcast, includes,
    dbIsUserTarget, dbHasUserCompleted, query, bind, ret.
  cbv zeta. cbn [existsb].
  rewrite (String.eqb_sym (requester_user_id t) viewerUserId).
  destruct (eqb_opt (task_type t) "broadcast");
    destruct (origin =? "thread")%string;
    destruct (viewerUserId =? requester_user_id t)%string;
    destruct (eqb_opt (assignee_id t) viewerUserId);
    destruct (status t =? "done")%string;
    destruct (status t =? "cancelled")%string;
    cbn [negb andb orb fst snd app];
    try (destruct (existsb _ (task_targets (w_db w)));
         destruct (existsb _ (task_completions (w_db w)));
         cbn [negb andb orb fst snd app]);
    repeat split; reflexivity.
Qed.

(** ** Who hears of a comment *)

(** X26. Who [comment_modal] sends its DM to.  When somebody other than
    the commenter is mentioned, the recipients are exactly the mentioned
    users, without the commenter and without empty ids.  When nobody else
    is mentioned, they are exactly the requester and, on a personal task
    only, the assignee, again without the commenter and without empty
    ids.  In both cases nobody is in the list twice. *)
Theorem comment_recipients_others (mentionUserIds : list string) (actor : string)
  (t : task) :
  let r := comment_recipients mentionUserIds actor t in
  let other u := u <> "" /\ u <> actor in
  NoDup r
  /\ ~ In actor r
  /\ ~ In "" r
  /\ ((exists m, In m mentionUserIds /\ other m) ->
      forall u, In u r <-> In u mentionUserIds /\ other u)
  /\ (~ (exists m, In m mentionUserIds /\ other m) ->
      forall u, In u r <->
        other u /\ (u = requester_user_id t
                    \/ (assignee_id t = Some u /\ is_broadcast t = false))).
Proof.
  intros r other.
  set (keep := fun uid => truthy uid && negb (uid =? actor)%string).
  assert (Hkeep : forall u, keep u = true <-> other u).
  { intros u. unfold keep, truthy, other.
    rewrite andb_true_iff, !negb_true_iff, !String.eqb_neq. tauto. }
  assert (Hm : forall u, In u (set_add_all [] (filter keep mentionUserIds))
                         <-> In u mentionUserIds /\ other u).
  { intros u. rewrite set_add_all_In, filter_In, Hkeep. simpl. tauto. }
  assert (Hnd : NoDup (set_add_all [] (filter keep mentionUserIds))).
  { apply set_add_all_NoDup. constructor. }
  (* the list used when nobody else is mentioned *)
  set (r1 := if keep (requester_user_id t) then [requester_user_id t] else []).
  set (fallback :=
         match assignee_id t with
         | Some assignee =>
           if negb (eqb_opt (task_type t) "broadcast") && truthy assignee
              && negb (assignee =? actor)%string
           then set_add_all r1 [assignee] else r1
         | None => r1
         end).
  assert (H1 : NoDup r1 /\ forall u, In u r1 <-> u = requester_user_id t /\ other u).
  { unfold r1. destruct (keep (requester_user_id t)) eqn:Ek.
    - split; [constructor; [intros [] | constructor] |].
      intros u. simpl. apply Hkeep in Ek. split.
      + intros [<- | []]. tauto.
      + intros [-> _]. left. reflexivity.
    - split; [constructor |]. intros u. simpl. split; [intros [] |].
      intros [-> Ho]. apply Hkeep in Ho. congruence. }
  destruct H1 as [N1 I1].
  assert (Hf : NoDup fallback
               /\ forall u, In u fallback <->
                    other u /\ (u = requester_user_id t
                                \/ (assignee_id t = Some u
                                    /\ is_broadcast t = false))).
  { unfold fallback, is_broadcast. destruct (assignee_id t) as [a |].
    - rewrite <- andb_assoc. fold (keep a).
      destruct (eqb_opt (task_type t) "broadcast"); cbn [negb andb].
      + split; [exact N1 |]. intros u. rewrite I1. split; [tauto |].
        intros [Ho [-> | [_ Hd]]]; [tauto | discriminate].
      + destruct (keep a) eqn:Eka.
        * apply Hkeep in Eka. split; [apply set_add_all_NoDup, N1 |].
          intros u. rewrite set_add_all_In, I1. simpl. split.
          -- intros [[-> Ho] | [<- | []]]; [tauto |].
             split; [exact Eka | right; split; reflexivity].
          -- intros [Ho [-> | [Ha _]]]; [tauto |].
             injection Ha as ->. tauto.
        * split; [exact N1 |]. intros u. rewrite I1. split; [tauto |].
          intros [Ho [-> | [Ha _]]]; [tauto |].
          injection Ha as ->. apply Hkeep in Ho. congruence.
    - split; [exact N1 |]. intros u. rewrite I1. split; [tauto |].
      intros [Ho [-> | [Ha _]]]; [tauto | discriminate]. }
  destruct Hf as [Nf If].
  assert (Hr : r = match set_add_all [] (filter keep mentionUserIds) with
                   | [] => fallback
                   | _ => set_add_all [] (filter keep mentionUserIds)
                   end) by reflexivity.
  destruct (set_add_all [] (filter keep mentionUserIds)) as [| m ms] eqn:E.
  - (* nobody else is mentioned *)
    assert (Hnone : ~ (exists m, In m mentionUserIds /\ other m)).
    { intros (m & Hin). apply Hm in Hin. exact Hin. }
    rewrite Hr. split; [exact Nf |]. split; [| split; [| split]].
    + intros H. apply If in H. unfold other in H. tauto.
    + intros H. apply If in H. unfold other in H. tauto.
    + intros Hex. contradiction.
    + intros _. exact If.
  - (* the mentioned users *)
    rewrite Hr. split; [exact Hnd |]. split; [| split; [| split]].
    + intros H. apply Hm in H. unfold other in H. tauto.
    + intros H. apply Hm in H. unfold other in H. tauto.
    + intros _. exact Hm.
    + intros Hno. exfalso. apply Hno. exists m. apply Hm. left. reflexivity.
Qed.

(** A comment by UZ on the personal task of requester UR and assignee UX:
    without a mention both are told; with UA mentioned (twice, next to the
    commenter) only UA is. *)
Lemma comment_recipients_others_witness :
  comment_recipients [] "UZ" personal0 = ["UR"; "UX"]
  /\ comment_recipients ["UA"; "UZ"; "UA"] "UZ" personal0 = ["UA"]
  /\ In "UX" (comment_recipients [] "UZ" personal0)
  /\ In "UA" (comment_recipients ["UA"; "UZ"; "UA"] "UZ" personal0).
Proof.
  split; [reflexivity |]. split; [reflexivity |]. split.
  - destruct (comment_recipients_others [] "UZ" personal0) as (_ & _ & _ & _ & H).
    apply H.
    + intros (m & [] & _).
    + split; [split; discriminate |]. right. split; reflexivity.
  - destruct (comment_recipients_others ["UA"; "UZ"; "UA"] "UZ" personal0)
      as (_ & _ & _ & H & _).
    apply H.
    + exists "UA". split; [left; reflexivity | split; discriminate].
    + split; [left; reflexivity | split; discriminate].
Defined.

(** ** Completion notices *)

Lemma completed_emit_other ev :
  is_completed_dm ev = false -> keeps completed_dms (emit ev).
Proof.
  intros H w. unfold completed_dms. simpl. rewrite filter_app. simpl.
  rewrite H. apply app_nil_r.
Qed.

Lemma completed_untouched {A} (m : M A) : keeps w_log m -> keeps completed_dms m.
Proof. intros H w. unfold completed_dms. rewrite H. reflexivity. Qed.

Lemma refresh_card_keeps_completed e teamId t b :
  keeps completed_dms (refresh_card e teamId t b).
Proof.
  unfold_cards. frame;
    first [ apply completed_untouched; keeps_leaf
          | apply completed_emit_other; reflexivity ].
Qed.

Lemma forM_notify_log (k : dm_kind) (t : task) (l : list string) : forall w,
  truthy (team_id t) = true ->
  truthy (id t) = true ->
  (forall u, In u l -> truthy u = true) ->
  snd (forM l (fun uid => notifyTaskSimpleDM k uid t) w)
  = mkWorld (w_db w) (w_log w ++ map (fun u => DM k u (team_id t) (id t)) l).
Proof.
  intros w Ht Hi. revert w. induction l as [| u l IH]; intros w Hl; simpl.
  - rewrite app_nil_r. destruct w. reflexivity.
  - rewrite bind_run. rewrite IH by (intros x Hx; apply Hl; right; exact Hx).
    unfold notifyTaskSimpleDM. rewrite (Hl u) by (left; reflexivity).
    rewrite Ht, Hi. simpl. rewrite <- app_assoc. reflexivity.
Qed.

Lemma completed_dms_map teamId taskId (l : list string) :
  filter is_completed_dm (map (fun u => DM KCompleted u teamId taskId) l)
  = map (fun u => DM KCompleted u teamId taskId) l.
Proof.
  induction l as [| u l IH]; simpl; [reflexivity |]. rewrite IH. reflexivity.
Qed.

Lemma task_key_eq teamId taskId t :
  task_key teamId taskId t = true <-> team_id t = teamId /\ id t = taskId.
Proof. unfold task_key. rewrite andb_true_iff, !String.eqb_eq. tauto. Qed.

Lemma uniq_truthy l u : In u (uniq l) -> truthy u = true.
Proof.
  unfold uniq. rewrite set_add_all_In, filter_In. simpl. tauto.
Qed.

(** X27. A forced completion tells everybody once.  When
    [confirm_broadcast_done] completes a broadcast task, the completion
    notice goes to the requester and to every target, one DM each, also to
    a requester who is a target as well; nobody else gets one. *)
Theorem confirm_broadcast_done_notifies_once (e : env) (teamId taskId actor : string)
  (src : option (string * string)) (w : world) (t : task) :
  truthy teamId = true ->
  truthy taskId = true ->
  fst (dbGetTaskById teamId taskId w) = Some t ->
  is_broadcast t = true ->
  includes ["done"; "cancelled"] (status t) = false ->
  let to := uniq (requester_user_id t :: fst (dbListTargetUserIds teamId taskId w)) in
  completed_dms (snd (confirm_broadcast_done e teamId taskId actor src w))
  = completed_dms w ++ map (fun u => DM KCompleted u teamId taskId) to
  /\ NoDup to
  /\ forall u, In u to <->
       u <> "" /\ (u = requester_user_id t
                   \/ In u (fst (dbListTargetUserIds teamId taskId w))).
Proof.
  intros Hteam Htask Hget Hb Hst to. split; [| split].
  - rewrite getTask_find in Hget. unfold tasks_of in Hget.
    pose proof (find_some _ _ Hget) as [_ Hkey]. apply task_key_eq in Hkey.
    destruct Hkey as [Hkt Hki].
    unfold confirm_broadcast_done. rewrite Hteam, Htask. cbn [negb orb].
    rewrite !(bind_run (dbGetTaskById teamId taskId)), !(getTask_run _ _ w).
    cbn [fst snd]. rewrite Hget, Hb. cbn [negb].
    assert (Hincl : includes ["done"; "cancelled"] (status t)
                    = ((status t =? "done") || (status t =? "cancelled"))%string).
    { unfold includes. simpl. rewrite orb_false_r. reflexivity. }
    rewrite <- Hincl, Hst. rewrite bind_run.
    unfold dbUpdateStatus. rewrite update_task_run. cbn [fst snd].
    rewrite Hget. cbn [option_map].
    rewrite bind_run.
    match goal with
    | |- context [snd (dbListTargetUserIds teamId taskId ?w1)] =>
      change (snd (dbListTargetUserIds teamId taskId w1)) with w1;
      change (fst (dbListTargetUserIds teamId taskId w1))
        with (fst (dbListTargetUserIds teamId taskId w))
    end.
    fold to. rewrite bind_run.
    match goal with
    | |- completed_dms (snd (?tail ?w2)) = _ =>
      assert (Hk : keeps completed_dms tail)
    end.
    { apply keeps_bind; [apply refresh_card_keeps_completed | intros _].
      destruct src as [[ch ts] |]; [| apply keeps_ret].
      apply keeps_when, completed_emit_other. reflexivity. }
    rewrite Hk. rewrite forM_notify_log.
    + unfold completed_dms. cbn [w_log team_id id with_status].
      rewrite filter_app, Hkt, Hki. f_equal. apply completed_dms_map.
    + cbn [team_id with_status]. rewrite Hkt. exact Hteam.
    + cbn [id with_status]. rewrite Hki. exact Htask.
    + intros u Hu. apply (uniq_truthy _ _ Hu).
  - unfold to, uniq. apply set_add_all_NoDup. constructor.
  - intros u. unfold to, uniq. rewrite set_add_all_In, filter_In. unfold truthy.
    rewrite negb_true_iff, String.eqb_neq. simpl.
    split; [intros [[] | [[<- | H] Hu]]; tauto | intros [Hu [-> | H]]; tauto].
Qed.

(** The requester UR confirms the broadcast task of UA, UB and UC. *)
Lemma confirm_broadcast_done_notifies_once_witness :
  let w := world0 "waiting" [] in
  completed_dms (snd (confirm_broadcast_done env0 "T1" "task-2" "UR" None w))
  = [DM KCompleted "UR" "T1" "task-2"; DM KCompleted "UA" "T1" "task-2";
     DM KCompleted "UB" "T1" "task-2"; DM KCompleted "UC" "T1" "task-2"].
Proof.
  intros w.
  exact (proj1 (confirm_broadcast_done_notifies_once env0 "T1" "task-2" "UR" None w
                  (broadcast0 "waiting") eq_refl eq_refl eq_refl eq_refl eq_refl)).
Defined.

(** ** What an edit leaves alone *)

Lemma edit_tail_keeps_tasks e teamId actor (updated : option task) :
  keeps tasks_of
    (match updated with
     | None => ret AckUpdate
     | Some updated =>
       when (truthy_opt (channel_id updated) && truthy_opt (message_ts updated))
         (when (not_dm (channel_id updated))
            (upsertThreadCard e teamId (opt_or (channel_id updated) "")
               (opt_or (message_ts updated) "") None (TaskCard updated) ;;;
             ret tt) ;;;
          emit (EditNotice (opt_or (channel_id updated) "")
                           (opt_or (message_ts updated) "") actor)) ;;;
       ret AckUpdate
     end).
Proof.
  frame; first [apply upsertThreadCard_keeps_tasks | keeps_leaf].
Qed.

(** X28. What [edit_task_modal] leaves alone.  It never changes the
    status of any task, so a done or cancelled task stays done or
    cancelled when edited; empty content is answered with the error
    display and nothing else happens; on a broadcast task it changes
    nobody's assignee or assignee department, whatever was submitted; and
    on a personal task a submission without an assignee changes
    nothing. *)
Theorem edit_task_modal_scope (e : env) (teamId taskId actor : string)
  (a d : option string) (c : string) (w : world) :
  let r := edit_task_modal e teamId taskId actor a d c w in
  map status (tasks_of (snd r)) = map status (tasks_of w)
  /\ (c = "" -> r = (AckErrors, w))
  /\ (forall t, fst (dbGetTaskById teamId taskId w) = Some t ->
        (is_broadcast t = true ->
         map assignee_id (tasks_of (snd r)) = map assignee_id (tasks_of w)
         /\ map assignee_dept (tasks_of (snd r)) = map assignee_dept (tasks_of w))
        /\ (is_broadcast t = false -> truthy_opt a = false -> snd r = w)).
Proof.
  intros r. subst r. split; [| split].
  - revert w.
    change (keeps (fun w => map status (tasks_of w))
              (edit_task_modal e teamId taskId actor a d c)).
    unfold edit_task_modal. unfold_cards. unfold_store. frame; column_leaf.
  - intros ->. reflexivity.
  - intros t Hget. rewrite getTask_find in Hget. unfold tasks_of in Hget.
    unfold edit_task_modal.
    destruct (truthy c); cbn [negb]; [| split; intros; [split |]; reflexivity].
    rewrite bind_run, getTask_run. cbn [fst snd]. rewrite Hget.
    destruct (canEditTask t actor); cbn [negb];
      [| split; intros; [split |]; reflexivity].
    split.
    + intros Hb. rewrite Hb. cbn [negb andb].
      split.
      * rewrite (bind_tail (fun w => map assignee_id (tasks_of w))).
        -- unfold dbUpdateTaskContent. apply keeps_update_column.
           intros x. reflexivity.
        -- intros u. apply keeps_column_of_tasks, edit_tail_keeps_tasks.
      * rewrite (bind_tail (fun w => map assignee_dept (tasks_of w))).
        -- unfold dbUpdateTaskContent. apply keeps_update_column.
           intros x. reflexivity.
        -- intros u. apply keeps_column_of_tasks, edit_tail_keeps_tasks.
    + intros Hb Ha. rewrite Hb, Ha. reflexivity.
Qed.

(** ** Cancelling and changing the status *)

Lemma dms_emit_other ev : is_dm ev = false -> keeps dms (emit ev).
Proof.
  intros H w. unfold dms. simpl. rewrite filter_app. simpl. rewrite H.
  apply app_nil_r.
Qed.

Lemma dms_untouched {A} (m : M A) : keeps w_log m -> keeps dms m.
Proof. intros H w. unfold dms. rewrite H. reflexivity. Qed.

Lemma ephemerals_untouched {A} (m : M A) : keeps w_log m -> keeps ephemerals m.
Proof. intros H w. unfold ephemerals. rewrite H. reflexivity. Qed.

Lemma refresh_card_keeps_dms e teamId t b : keeps dms (refresh_card e teamId t b).
Proof.
  unfold_cards. frame;
    first [ apply dms_untouched; keeps_leaf | apply dms_emit_other; reflexivity ].
Qed.

Lemma refresh_card_keeps_ephemerals e teamId t b :
  keeps ephemerals (refresh_card e teamId t b).
Proof.
  unfold_cards. frame;
    first [ apply ephemerals_untouched; keeps_leaf
          | apply ephemerals_emit_other; reflexivity ].
Qed.

(** X29. [cancel_task] pressed by the requester cancels the task whatever
    its status and type: the stored task is cancelled, with the time and
    the requester recorded, nothing else about it changes, no target and
    no completion row is touched, and nobody is sent a DM or an error. *)
Theorem cancel_task_by_requester (e : env) (teamId taskId actor : string)
  (cb : option string) (w : world) (t : task) :
  truthy teamId = true ->
  truthy taskId = true ->
  fst (dbGetTaskById teamId taskId w) = Some t ->
  requester_user_id t = actor ->
  let w' := snd (cancel_task e teamId taskId actor cb w) in
  fst (dbGetTaskById teamId taskId w') = Some (with_cancel e actor t)
  /\ status (with_cancel e actor t) = "cancelled"
  /\ cancelled_at (with_cancel e actor t) = Some (now e)
  /\ cancelled_by_user_id (with_cancel e actor t) = Some actor
  /\ completed_at (with_cancel e actor t) = completed_at t
  /\ targets_of w' = targets_of w
  /\ completions_of w' = completions_of w
  /\ dms w' = dms w
  /\ ephemerals w' = ephemerals w.
Proof.
  intros Hteam Htask Hget Hreq w'.
  rewrite getTask_find in Hget. unfold tasks_of in Hget.
  assert (Hw' : w' = snd ((if is_list_detail cb then ret tt
                           else refresh_card e teamId (with_cancel e actor t)
                                  (CancelledCard (title (with_cancel e actor t))))
                            (mkWorld
                               (set_tasks (map (fun x =>
                                  if task_key teamId taskId x
                                  then with_cancel e actor x else x)) (w_db w))
                               (w_log w)))).
  { subst w'. unfold cancel_task. rewrite Hteam, Htask. cbn [negb orb].
    rewrite bind_run, getTask_run. cbn [fst snd]. rewrite Hget.
    rewrite Hreq, String.eqb_refl. cbn [negb].
    rewrite bind_run. unfold dbCancelTask. rewrite update_task_run.
    cbn [fst snd]. rewrite Hget. reflexivity. }
  assert (Hk : forall X (proj : world -> X),
             (forall t0 b, keeps proj (refresh_card e teamId t0 b)) ->
             proj w' = proj (mkWorld
                               (set_tasks (map (fun x =>
                                  if task_key teamId taskId x
                                  then with_cancel e actor x else x)) (w_db w))
                               (w_log w))).
  { intros X proj Hp. rewrite Hw'. destruct (is_list_detail cb); [reflexivity |].
    apply Hp. }
  split; [| repeat split].
  - rewrite getTask_find.
    rewrite (Hk _ tasks_of) by (intros; apply refresh_card_keeps_tasks).
    unfold tasks_of. simpl. rewrite find_map_upd by reflexivity.
    rewrite Hget. reflexivity.
  - rewrite (Hk _ targets_of); [reflexivity |].
    intros. unfold_cards. frame; keeps_leaf.
  - rewrite (Hk _ completions_of); [reflexivity |].
    intros. unfold_cards. frame; keeps_leaf.
  - rewrite (Hk _ dms); [reflexivity |]. intros. apply refresh_card_keeps_dms.
  - rewrite (Hk _ ephemerals); [reflexivity |].
    intros. apply refresh_card_keeps_ephemerals.
Qed.

(** The requester UR cancels the broadcast task that is already done. *)
Lemma cancel_task_by_requester_witness :
  let w := world0 "done" [] in
  let w' := snd (cancel_task env0 "T1" "task-2" "UR" None w) in
  option_map status (fst (dbGetTaskById "T1" "task-2" w')) = Some "cancelled"
  /\ dms w' = [].
Proof.
  cbv zeta.
  destruct (cancel_task_by_requester env0 "T1" "task-2" "UR" None
              (world0 "done" []) (broadcast0 "done")
              eq_refl eq_refl eq_refl eq_refl)
    as (Hget & _ & _ & _ & _ & _ & _ & Hdms & _).
  cbv zeta in Hget, Hdms.
  split; [rewrite Hget; reflexivity | exact Hdms].
Defined.

Lemma forM_postDM_log (k : dm_kind) (t : task) (l : list string) : forall w,
  (forall u, In u l -> truthy u = true) ->
  snd (forM l (fun uid => postDM k uid t) w)
  = mkWorld (w_db w) (w_log w ++ map (fun u => DM k u (team_id t) (id t)) l).
Proof.
  induction l as [| u l IH]; intros w Hl; simpl.
  - rewrite app_nil_r. destruct w. reflexivity.
  - rewrite bind_run. rewrite IH by (intros x Hx; apply Hl; right; exact Hx).
    unfold postDM. rewrite (Hl u) by (left; reflexivity).
    simpl. rewrite <- app_assoc. reflexivity.
Qed.

Lemma dms_map (k : dm_kind) teamId taskId (l : list string) :
  filter is_dm (map (fun u => DM k u teamId taskId) l)
  = map (fun u => DM k u teamId taskId) l.
Proof.
  induction l as [| u l IH]; simpl; [reflexivity |]. rewrite IH. reflexivity.
Qed.

(** X30. [status_select], sent from a modal by the requester or the
    assignee of a personal task, stores the selected status as it is sent,
    whatever it is, and stamps the completion time when it is done; this
    does not depend on the calls that follow.  The notices do: from the
    detail modal, and provided [client.views.update] and the card refresh
    have answered (or no card was due), a change to waiting tells the
    requester, a change to done tells requester and assignee once each
    (the one who made the change included), and any other status tells
    nobody.  When one of the two calls throws, the status stays stored and
    nobody is told; from the list detail modal nobody is told either. *)
Theorem status_select_by_member (views card : bool) (e : env)
  (teamId taskId s actor c : string) (w : world) (t : task) :
  truthy teamId = true ->
  truthy taskId = true ->
  truthy s = true ->
  fst (dbGetTaskById teamId taskId w) = Some t ->
  is_broadcast t = false ->
  requester_user_id t = actor \/ assignee_id t = Some actor ->
  let w' := snd (status_select_try views card e teamId taskId (Some s) actor
                   (Some c) w) in
  fst (dbGetTaskById teamId taskId w') = Some (with_status e s t)
  /\ status (with_status e s t) = s
  /\ completed_at (with_status e s t)
     = (if (s =? "done")%string then Some (now e) else completed_at t)
  /\ ephemerals w' = ephemerals w
  /\ dms w' = dms w ++ (if (c =? "list_detail_modal")%string then []
                        else if views && (card || negb (card_due t))
                             then status_notices s t
                             else []).
Proof.
  intros Hteam Htask Hs Hget Hb Hauth w'.
  rewrite getTask_find in Hget. unfold tasks_of in Hget.
  set (w1 := mkWorld (set_tasks (map (fun x =>
                 if task_key teamId taskId x then with_status e s x else x))
                 (w_db w)) (w_log w)).
  set (u := with_status e s t).
  set (tail := refresh_card e teamId u (TaskCard u) ;;;
               if (s =? "waiting")%string
               then postDM KWaiting (requester_user_id u) u
               else if (s =? "done")%string
               then forM (uniq (requester_user_id u :: opt_list (assignee_id u)))
                      (fun uid => postDM KCompleted uid u)
               else ret tt).
  assert (Hw' : w' = snd ((if (c =? "list_detail_modal")%string then ret tt
                           else if negb views then ret tt
                           else if negb card && card_due u then ret tt
                           else tail) w1)).
  { subst w'. unfold status_select_try. rewrite Hteam, Htask.
    cbn [truthy_opt]. rewrite Hs. cbn [negb orb]. cbv zeta.
    cbn [opt_or]. rewrite (or_str_same s) by exact Hs.
    rewrite bind_run, getTask_run. cbn [fst snd]. rewrite Hget, Hb.
    assert (Ha : negb (requester_user_id t =? actor)%string
                 && negb (eqb_opt (assignee_id t) actor) = false).
    { destruct Hauth as [<- | Ha].
      - rewrite String.eqb_refl. reflexivity.
      - rewrite Ha. simpl. rewrite String.eqb_refl. apply andb_false_r. }
    rewrite Ha. rewrite bind_run. unfold dbUpdateStatus.
    rewrite update_task_run. cbn [fst snd]. rewrite Hget. reflexivity. }
  assert (Hkt : forall k x, keeps tasks_of (postDM k x u)).
  { intros. unfold postDM. frame. keeps_leaf. }
  assert (Htail_tasks : keeps tasks_of tail).
  { unfold tail. frame;
      first [apply refresh_card_keeps_tasks | apply Hkt | keeps_leaf]. }
  assert (Htail_eph : keeps ephemerals tail).
  { unfold tail, postDM. frame;
      first [ apply refresh_card_keeps_ephemerals
            | apply ephemerals_emit_other; reflexivity
            | keeps_leaf ]. }
  assert (Htail_dms : dms (snd (tail w1)) = dms w ++ status_notices s t).
  { unfold tail. rewrite bind_run.
    assert (Hr : dms (snd (refresh_card e teamId u (TaskCard u) w1)) = dms w)
      by (rewrite refresh_card_keeps_dms; reflexivity).
    set (w2 := snd (refresh_card e teamId u (TaskCard u) w1)) in *.
    unfold status_notices.
    destruct (s =? "waiting")%string.
    - unfold postDM. change (requester_user_id u) with (requester_user_id t).
      destruct (truthy (requester_user_id t)); simpl.
      + unfold dms in *. simpl. rewrite filter_app, Hr. reflexivity.
      + rewrite app_nil_r. exact Hr.
    - destruct (s =? "done")%string.
      + rewrite forM_postDM_log by (intros x Hx; apply (uniq_truthy _ _ Hx)).
        unfold dms in *. simpl. rewrite filter_app, Hr, dms_map. reflexivity.
      + simpl. rewrite app_nil_r. exact Hr. }
  change (card_due u) with (card_due t) in Hw'.
  split; [| split; [reflexivity | split; [reflexivity | split]]].
  - rewrite getTask_find, Hw'.
    assert (Hk : tasks_of (snd ((if (c =? "list_detail_modal")%string then ret tt
                           else if negb views then ret tt
                           else if negb card && card_due t then ret tt
                           else tail) w1)) = tasks_of w1).
    { destruct (c =? "list_detail_modal")%string; [reflexivity |].
      destruct (negb views); [reflexivity |].
      destruct (negb card && card_due t); [reflexivity |].
      apply Htail_tasks. }
    rewrite Hk. unfold w1, tasks_of. simpl.
    rewrite find_map_upd by reflexivity. rewrite Hget. reflexivity.
  - rewrite Hw'.
    destruct (c =? "list_detail_modal")%string; [reflexivity |].
    destruct (negb views); [reflexivity |].
    destruct (negb card && card_due t); [reflexivity |].
    rewrite Htail_eph. reflexivity.
  - rewrite Hw'.
    destruct (c =? "list_detail_modal")%string;
      [unfold dms; simpl; rewrite app_nil_r; reflexivity |].
    destruct views; cbn [negb andb];
      [| unfold dms; simpl; rewrite app_nil_r; reflexivity].
    destruct card; cbn [negb andb orb].
    + exact Htail_dms.
    + destruct (card_due t); cbn [negb].
      * unfold dms. simpl. rewrite app_nil_r. reflexivity.
      * exact Htail_dms.
Qed.

(** The assignee UX sets the personal task to done from the detail modal:
    when the calls answer, requester and assignee are told; when the card
    refresh throws, the task is done all the same and nobody is told. *)
Lemma status_select_by_member_witness :
  let w := world0 "in_progress" [] in
  let w' := snd (status_select env0 "T1" "task-1" (Some "done") "UX"
                   (Some "detail_modal") w) in
  let w'' := snd (status_select_try true false env0 "T1" "task-1" (Some "done")
                    "UX" (Some "detail_modal") w) in
  option_map status (fst (dbGetTaskById "T1" "task-1" w')) = Some "done"
  /\ dms w' = [DM KCompleted "UR" "T1" "task-1"; DM KCompleted "UX" "T1" "task-1"]
  /\ option_map status (fst (dbGetTaskById "T1" "task-1" w'')) = Some "done"
  /\ dms w'' = [].
Proof.
  cbv zeta.
  destruct (status_select_by_member true true env0 "T1" "task-1" "done" "UX"
              "detail_modal" (world0 "in_progress" []) personal0
              eq_refl eq_refl eq_refl eq_refl eq_refl (or_intror eq_refl))
    as (Hget & _ & _ & _ & Hdms).
  destruct (status_select_by_member true false env0 "T1" "task-1" "done" "UX"
              "detail_modal" (world0 "in_progress" []) personal0
              eq_refl eq_refl eq_refl eq_refl eq_refl (or_intror eq_refl))
    as (Hget' & _ & _ & _ & Hdms').
  cbv zeta in Hget, Hdms, Hget', Hdms'.
  split; [change (status_select env0) with (status_select_try true true env0);
          rewrite Hget; reflexivity |].
  split; [exact Hdms |].
  split; [rewrite Hget'; reflexivity | exact Hdms'].
Defined.

(** ** Overlapping completions *)

Lemma finish_await {A X} (m : M X) (k : X -> proc A) (w : world) :
  finish (Await m k) w = finish (k (fst (m w))) (snd (m w)).
Proof. simpl. destruct (m w). reflexivity. Qed.

Lemma finish_await_all {X} (l : list X) (f : X -> M unit) (k : proc unit) :
  forall w, finish (await_all l f k) w = finish k (snd (forM l f w)).
Proof.
  induction l as [| x l IH]; intros w; simpl; [reflexivity |].
  destruct (f x w) as [u w'] eqn:E. rewrite IH. rewrite bind_run, E. reflexivity.
Qed.


Ltac steps :=
  repeat first
    [ match goal with
      | |- context [snd (dbListTargetUserIds ?a ?b ?w)] =>
        change (snd (dbListTargetUserIds a b w)) with w
      end
    | rewrite finish_await
    | rewrite finish_await_all
    | rewrite bind_run
    | progress cbn [finish fst snd]
    | progress unfold when, ret
    | match goal with
      | |- context [match ?x with _ => _ end] => destruct x eqn:?
      end
    | reflexivity ].

(** Run without anything in between, the steps are the handler. *)
Lemma finish_complete_task_steps e teamId taskId actor cb w :
  finish (complete_task_steps e teamId taskId actor cb) w
  = complete_task e teamId taskId actor cb w.
Proof.
  unfold complete_task_steps, complete_task, refresh_card. cbv zeta.
  steps.
Qed.

(** C1 (the failing input). The last two targets of a broadcast task
    complete at the same time.  UA's completion is recorded, the task is in
    progress and [notified_at] is unset; UB and UC press complete, and the
    awaited calls of the two [complete_task] handlers take turns.  Both
    record their completion and count three of three, and both read the
    task, with [notified_at] still unset, before either runs the
    conditional update: the update of the second changes no row, its
    result is not looked at, and the requester is asked to confirm twice.
    Run one after the other, the same two handlers ask once. *)
Theorem complete_task_overlapping_asks_twice :
  let w := world_one_done in
  let p := complete_task_steps env0 "T1" "task-2" "UB" None in
  let q := complete_task_steps env0 "T1" "task-2" "UC" None in
  let one_by_one := snd (finish q (snd (finish p w))) in
  let r := interleave (taking_turns 11) p q w in
  let overlapped := snd r in
  option_map notified_at (fst (dbGetTaskById "T1" "task-2" w)) = Some None
  /\ confirms "T1" "task-2" w = 0%nat
  /\ one_by_one
     = snd (complete_task env0 "T1" "task-2" "UC" None
              (snd (complete_task env0 "T1" "task-2" "UB" None w)))
  /\ confirms "T1" "task-2" one_by_one = 1%nat
  /\ finished (fst (fst r)) = true
  /\ finished (snd (fst r)) = true
  /\ completions_of overlapped = completions_of one_by_one
  /\ option_map status (fst (dbGetTaskById "T1" "task-2" overlapped)) = Some "waiting"
  /\ option_map notified_at (fst (dbGetTaskById "T1" "task-2" overlapped))
     = Some (Some 100)
  /\ confirms "T1" "task-2" overlapped = 2%nat
  /\ filter (is_confirm "T1" "task-2") (w_log overlapped)
     = [DM KConfirmRequest "UR" "T1" "task-2"; DM KConfirmRequest "UR" "T1" "task-2"].
Proof. vm_compute. repeat split. Qed.

(** ** Slack calls that throw *)

(** When every call answers, the handlers with throwing calls are the
    handlers. *)
Lemma try_handlers_answered :
  reaction_task_confirm_create_try true true = reaction_task_confirm_create
  /\ status_select_try true true = status_select.
Proof. split; reflexivity. Qed.
